(** * Meteoserver: reading and writing Meteoserver.nl sun and weather data

    A shallow embedding of the Python package (src/meteoserver/sundata.py and
    src/meteoserver/uurverwachting.py) together with the part of its
    libraries (pandas, json, requests, open) that the package calls.

    - Python strings are Rocq strings, one character per code point (code
      points above 255 are not represented).
    - A Python exception is an outcome [Raise e]; state that an exception
      leaves behind (a truncated file, a request that was sent, objects that
      were created) stays in the world.
    - The objects the functions pass around by reference (the decoded JSON
      document, the DataFrames) live in a store and are named by their
      address. *)

From Stdlib Require Import ZArith Ascii String List Bool Lia.
From stdpp Require Import base option list strings gmap.

Set Warnings "-register-all".
Local Open Scope string_scope.
Local Open Scope list_scope.
Local Open Scope nat_scope.

(** ** Timestamps and the format [%d-%m-%Y %H:%M] *)

Module datetime.

Record Timestamp := mkTimestamp
  { year : nat; month : nat; day : nat; hour : nat; minute : nat }.

(** [[0-9]]: the value of an ASCII digit (the code points 48 to 57). *)
Definition digit (c : ascii) : option nat :=
  let n := nat_of_ascii c in
  if ((48 <=? n) && (n <=? 57))%nat then Some (n - 48) else None.

(** [\s] of Python's [re] on the code points below 256. *)
Definition is_space (c : ascii) : bool :=
  let n := nat_of_ascii c in
  (((9 <=? n) && (n <=? 13)) || ((28 <=? n) && (n <=? 32)) || (n =? 133) || (n =? 160))%nat.

(** The longest run of at most [n] digits at the head of [s]. *)
Fixpoint read_digits (n : nat) (s : string) : list nat * string :=
  match n, s with
  | S n', String c s' =>
      match digit c with
      | Some d => let '(ds, r) := read_digits n' s' in (d :: ds, r)
      | None => ([], s)
      end
  | _, _ => ([], s)
  end.

Definition decimal (ds : list nat) : nat :=
  fold_left (fun acc d => 10 * acc + d) ds 0.

(** A directive of one or two digits whose value lies in [lo..hi]:
    [%m] is [1[0-2]|0[1-9]|[1-9]], [%H] is [2[0-3]|[0-1]\d|\d], [%M] is
    [[0-5]\d|\d].  Each is followed by a character that is no digit (or by
    the end of the text, which must be reached), so the alternatives of the
    regular expression select the whole run of digits or nothing. *)
Definition field (lo hi : nat) (s : string) : option (nat * string) :=
  match read_digits 2 s with
  | ([], _) => None
  | (ds, r) =>
      let v := decimal ds in
      if ((lo <=? v) && (v <=? hi))%nat then Some (v, r) else None
  end.

(** [%d] is [3[0-1]|[1-2]\d|0[1-9]|[1-9]| [1-9]]: as [field 1 31], or a
    blank and one digit. *)
Definition day_field (s : string) : option (nat * string) :=
  match s with
  | String " " (String c r) =>
      match digit c with
      | Some (S d) => Some (S d, r)
      | _ => None
      end
  | _ => field 1 31 s
  end.

(** [%Y] is [\d\d\d\d]. *)
Definition year_field (s : string) : option (nat * string) :=
  match read_digits 4 s with
  | ([a; b; c; d] as ds, r) => Some (decimal ds, r)
  | _ => None
  end.

Definition expect (c : ascii) (s : string) : option string :=
  match s with
  | String c' r => if Ascii.eqb c c' then Some r else None
  | EmptyString => None
  end.

Fixpoint skip_spaces (s : string) : string :=
  match s with
  | String c r => if is_space c then skip_spaces r else s
  | EmptyString => s
  end.

(** A blank in the format stands for [\s+]. *)
Definition spaces (s : string) : option string :=
  match s with
  | String c r => if is_space c then Some (skip_spaces r) else None
  | EmptyString => None
  end.

(** [%d-%m-%Y] at the head of the text. *)
Definition date_dmY (s : string) : option (nat * nat * nat * string) :=
  '(d, r) ← day_field s;
  r ← expect "-" r;
  '(m, r) ← field 1 12 r;
  r ← expect "-" r;
  '(y, r) ← year_field r;
  Some (d, m, y, r).

(** [%H:%M] up to the end of the text (the match is exact: text left over
    is an error). *)
Definition time_HM (s : string) : option (nat * nat) :=
  '(h, r) ← field 0 23 s;
  r ← expect ":" r;
  '(mi, r) ← field 0 59 r;
  match r with
  | EmptyString => Some (h, mi)
  | _ => None
  end.

Definition is_leap (y : nat) : bool :=
  ((y mod 4 =? 0) && (negb (y mod 100 =? 0) || (y mod 400 =? 0)))%nat.

Definition days_in_month (y m : nat) : nat :=
  match m with
  | 2 => if is_leap y then 29 else 28
  | 4 | 6 | 9 | 11 => 30
  | _ => 31
  end.

(** [datetime.date(y, m, d)] exists. *)
Definition valid_date (y m d : nat) : bool :=
  ((1 <=? y) && (1 <=? m) && (m <=? 12) && (1 <=? d) && (d <=? days_in_month y m))%nat.

(** The fields as one number, [YYYYMMDDHHMM]; it orders timestamps. *)
Definition ordinal (t : Timestamp) : Z :=
  ((((Z.of_nat (year t) * 100 + Z.of_nat (month t)) * 100 + Z.of_nat (day t)) * 100
    + Z.of_nat (hour t)) * 100 + Z.of_nat (minute t))%Z.

(** A pandas Timestamp counts nanoseconds in 64 bits: whole minutes from
    1677-09-21 00:13 to 2262-04-11 23:47 are representable. *)
Definition in_bounds (t : Timestamp) : bool :=
  (167709210013 <=? ordinal t)%Z && (ordinal t <=? 226204112347)%Z.

(** One text against the format [%d-%m-%Y %H:%M]; [None] is the ValueError
    of pandas (no match, text left over, no such day, out of bounds). *)
Definition strptime (s : string) : option Timestamp :=
  '(d, m, y, r) ← date_dmY s;
  r ← spaces r;
  '(h, mi) ← time_HM r;
  let t := mkTimestamp y m d h mi in
  if valid_date y m d && in_bounds t then Some t else None.


(** Printing, zero-padded: [strftime('%d-%m-%Y')], [strftime('%H:%M')] and
    [strftime('%d-%m-%Y %H:%M')]. *)
Definition digit_char (n : nat) : ascii :=
  match n with
  | 0 => "0" | 1 => "1" | 2 => "2" | 3 => "3" | 4 => "4"
  | 5 => "5" | 6 => "6" | 7 => "7" | 8 => "8" | _ => "9"
  end%char.

Definition two (n : nat) : string :=
  String (digit_char (n / 10)) (String (digit_char (n mod 10)) "").

Definition four (n : nat) : string :=
  String (digit_char (n / 1000)) (String (digit_char (n / 100 mod 10)) (two (n mod 100))).

Definition strftime_dmY (t : Timestamp) : string :=
  two (day t) +:+ "-" +:+ two (month t) +:+ "-" +:+ four (year t).

Definition strftime_HM (t : Timestamp) : string :=
  two (hour t) +:+ ":" +:+ two (minute t).

Definition strftime (t : Timestamp) : string :=
  strftime_dmY t +:+ " " +:+ strftime_HM t.

End datetime.

(** ** Python values *)

(** A number as [json] decodes it and as a cell of a table holds it.  No
    arithmetic is done on floats here, so a float is kept as its 64 bits;
    NaN, the marker pandas uses for a missing value, is apart. *)
Inductive number :=
  | NInt (z : Z)
  | NFloat (bits : Z)
  | NNaN.

(** What a cell of a table holds. *)
Inductive scalar :=
  | SNone
  | SBool (b : bool)
  | SNum (n : number)
  | SStr (s : string)
  | STimestamp (t : datetime.Timestamp)
  | SNaT.

Definition NaN : scalar := SNum NNaN.

(** Lists and dicts (with string keys, in insertion order) over scalars: a
    decoded JSON document, and what [json.dump] is given.  A dict holds a key
    once; of two entries with one key only the first is ever found. *)
Inductive value :=
  | Atom (a : scalar)
  | List (l : list value)
  | Dict (d : list (string * value)).

Fixpoint dict_get {V : Type} (k : string) (d : list (string * V)) : option V :=
  match d with
  | [] => None
  | (k', v) :: d' => if String.eqb k' k then Some v else dict_get k d'
  end.

Inductive exn :=
  | AttributeError
  | KeyError
  | TypeError
  | ValueError
  | JSONDecodeError
  | ConnectionError
  | FileNotFoundError.

(** How a call ends: with a value, with an exception, or on an argument whose
    treatment by the library is not part of this development. *)
Inductive outcome (A : Type) :=
  | Return (a : A)
  | Raise (e : exn)
  | Unmodelled.
Arguments Return {A} a.
Arguments Raise {A} e.
Arguments Unmodelled {A}.

Definition obind {A B : Type} (o : outcome A) (k : A → outcome B) : outcome B :=
  match o with
  | Return a => k a
  | Raise e => Raise e
  | Unmodelled => Unmodelled
  end.

(** Element by element, stopping at the first exception. *)
Fixpoint traverse {A B : Type} (f : A → outcome B) (l : list A) : outcome (list B) :=
  match l with
  | [] => Return []
  | x :: l' => obind (f x) (fun y => obind (traverse f l') (fun ys => Return (y :: ys)))
  end.

(** [obj[key]] on a decoded document, [key] a string. *)
Definition getitem (obj : value) (key : string) : outcome value :=
  match obj with
  | Dict d =>
      match dict_get key d with
      | Some v => Return v
      | None => Raise KeyError
      end
  | _ => Raise TypeError
  end.

(** ** pandas *)

Module pd.

(** What [pd.to_numeric] makes of a string; [None] is its ValueError. *)
Class NumericParser := parse_numeric : string → option number.

(** A column; the index is always 0, 1, ... *)
Abbreviation Series := (list scalar) (only parsing).

(** A table: the length of its index and its columns in order. *)
Record DataFrame := mkDataFrame { nrows : nat; data : list (string * Series) }.

Definition columns (df : DataFrame) : list string := map fst (data df).

Abbreviation record := (list (string * scalar)) (only parsing).

Definition first_seen (seen keys : list string) : list string :=
  fold_left (fun acc k => if bool_decide (k ∈ acc) then acc else acc ++ [k]) keys seen.

(** The keys of the records, each where it is first seen. *)
Definition column_labels (recs : list record) : list string :=
  fold_left (fun acc r => first_seen acc (map fst r)) recs [].

(** The value a record has under a key; NaN where it has none. *)
Definition cell_of (k : string) (r : record) : scalar :=
  default NaN (dict_get k r).

(** [pd.DataFrame(recs)] for a list of dicts of scalars.  A cell holds the
    value as it was decoded; the type pandas gives the column as a whole (an
    int beside a gap or a float is held as a float, None in a column of
    numbers as NaN) is not modelled: of a number in a table that is built
    from a document the theorems say only that it is one. *)
Definition from_records (recs : list record) : DataFrame :=
  {| nrows := length recs;
     data := map (fun k => (k, map (cell_of k) recs)) (column_labels recs) |}.

Definition scalar_of (v : value) : option scalar :=
  match v with
  | Atom a => Some a
  | _ => None
  end.

Definition record_of (v : value) : option record :=
  match v with
  | Dict d => mapM (fun kv => pair (fst kv) <$> scalar_of (snd kv)) d
  | _ => None
  end.

Definition records_of (v : value) : option (list record) :=
  match v with
  | List l => mapM record_of l
  | _ => None
  end.

(** [pd.DataFrame.from_dict(v)] (orient='columns'): for a list of flat
    dicts, the table of these records.  Other arguments (a dict of columns,
    a list of lists, records that hold lists or dicts) are not modelled. *)
Definition from_dict (v : value) : outcome DataFrame :=
  match records_of v with
  | Some recs => Return (from_records recs)
  | None => Unmodelled
  end.

(** [df.c] read: the column labelled [c] (none of the labels this package
    reads is an attribute of DataFrame itself). *)
Definition get_column (df : DataFrame) (c : string) : outcome Series :=
  match dict_get c (data df) with
  | Some s => Return s
  | None => Raise AttributeError
  end.

Definition replace_column (c : string) (s : Series) (kv : string * Series) : string * Series :=
  if String.eqb (fst kv) c then (fst kv, s) else kv.

(** [df.c = s]: replaces the column labelled [c] when there is one and [s]
    has the length of the index; without such a column it sets a plain
    attribute and the table stays as it is. *)
Definition set_column (df : DataFrame) (c : string) (s : Series) : outcome DataFrame :=
  match dict_get c (data df) with
  | Some _ =>
      if Nat.eqb (length s) (nrows df)
      then Return {| nrows := nrows df; data := map (replace_column c s) (data df) |}
      else Raise ValueError
  | None => Return df
  end.

(** [s[i]] by label. *)
Definition series_getitem (s : Series) (i : nat) : outcome scalar :=
  match s !! i with
  | Some v => Return v
  | None => Raise KeyError
  end.

Definition is_null (v : scalar) : bool :=
  match v with
  | SNone | SNum NNaN | SNaT => true
  | _ => false
  end.

Definition is_None (v : scalar) : bool :=
  match v with SNone => true | _ => false end.

Definition is_str (v : scalar) : bool :=
  match v with SStr _ => true | _ => false end.

Definition number_or_null (v : scalar) : bool :=
  match v with SNum _ | SNone => true | _ => false end.

Definition bool_or_null (v : scalar) : bool :=
  match v with SBool _ => true | _ => is_null v end.

Definition timestamp_or_null (v : scalar) : bool :=
  match v with STimestamp _ => true | _ => is_null v end.

(** The [.str] accessor exists on a column of object type whose values are
    inferred as strings, as mixed, or as empty; a column of numbers, of
    booleans or of timestamps has none. *)
Definition has_str (s : Series) : bool :=
  forallb is_None s || existsb is_str s
  || negb (forallb number_or_null s || forallb bool_or_null s || forallb timestamp_or_null s).

(** [s.str.slice(start, stop)]: the slice of each string, NaN for any other
    value; the result holds strings and NaN only. *)
Definition str_slice (s : Series) (start stop : nat) : outcome (list (option string)) :=
  if has_str s
  then Return (map (fun v => match v with
                             | SStr x => Some (substring start (stop - start) x)
                             | _ => None
                             end) s)
  else Raise AttributeError.

(** [s + sep] for a column of strings and NaN. *)
Definition add_str (s : list (option string)) (sep : string) : list (option string) :=
  map (fmap (fun x => x +:+ sep)) s.

Definition add_cell (ab : option string * scalar) : outcome scalar :=
  match ab with
  | (None, _) => Return NaN
  | (Some x, SStr y) => Return (SStr (x +:+ y))
  | (Some x, b) => if is_null b then Return NaN else Raise TypeError
  end.

(** [s + t] for a column [s] of strings and NaN and a column [t] of the same
    table: NaN where either side is null, the concatenation of two strings,
    a TypeError for a string and anything else. *)
Definition add (s : list (option string)) (t : Series) : outcome Series :=
  traverse add_cell (zip s t).

Definition nat_strings : list string := ["NaT"; "nat"; "NAT"; "nan"; "NaN"; "NAN"].

Definition to_datetime_cell (v : scalar) : outcome scalar :=
  match v with
  | SStr s =>
      if String.eqb s "" || existsb (String.eqb s) nat_strings then Return SNaT
      else match datetime.strptime s with
           | Some t => Return (STimestamp t)
           | None => Raise ValueError
           end
  | STimestamp t => Return (STimestamp t)
  | SBool _ => Raise ValueError
  | SNum (NInt _) | SNum (NFloat _) => Raise ValueError
  | SNone | SNum NNaN | SNaT => Return SNaT
  end.

(** [pd.to_datetime(s, format='%d-%m-%Y %H:%M')], errors='raise'. *)
Definition to_datetime (s : Series) : outcome Series :=
  traverse to_datetime_cell s.

Definition to_numeric_cell `{NumericParser} (v : scalar) : outcome scalar :=
  match v with
  | SStr s =>
      match parse_numeric s with
      | Some n => Return (SNum n)
      | None => Raise ValueError
      end
  | SNum n => Return (SNum n)
  | SBool b => Return (SBool b)
  | SNone => Return NaN
  | STimestamp _ | SNaT => Raise TypeError
  end.

(** [pd.to_numeric(s)], errors='raise'. *)
Definition to_numeric `{NumericParser} (s : Series) : outcome Series :=
  traverse to_numeric_cell s.

(** [s.values]: the same cells as an array. *)
Definition values (s : Series) : Series := s.

(** [df.to_dict(orient='records')]: one dict per row, keys in column order.
    The labels of the columns are taken to be distinct (of two columns with
    one label a Python dict keeps one entry, which is not modelled). *)
Definition to_dict (df : DataFrame) : list record :=
  map (fun i => map (fun kv => (fst kv, default NaN (snd kv !! i))) (data df))
      (seq 0 (nrows df)).

End pd.

(** ** The store, the files and the network *)

Abbreviation addr := nat (only parsing).

(** The objects that are passed by reference. *)
Inductive object :=
  | ODoc (v : value)
  | OFrame (df : pd.DataFrame).

(** The text of a file or of a response, as [json] reads it: a text that
    [json.load] decodes, kept as the value it decodes to (Python's [json]
    writes and reads back the tokens NaN and Infinity, which the JSON grammar
    does not have), or any other text (an empty or truncated file, an error
    page). *)
Inductive text :=
  | JsonText (doc : value)
  | OtherText.

Record world := mkWorld
  { heap : list object;
    disk : gmap string text;
    server : string → option text;
    sent : list string }.

Definition set_heap (h : list object) (w : world) : world :=
  {| heap := h; disk := disk w; server := server w; sent := sent w |}.

Definition set_disk (d : gmap string text) (w : world) : world :=
  {| heap := heap w; disk := d; server := server w; sent := sent w |}.

Definition set_sent (l : list string) (w : world) : world :=
  {| heap := heap w; disk := disk w; server := server w; sent := l |}.

(** A call: from the world before to the world after and how it ended. *)
Definition M (A : Type) : Type := world → world * outcome A.

Definition ret {A : Type} (a : A) : M A := fun w => (w, Return a).

Definition bind {A B : Type} (m : M A) (k : A → M B) : M B :=
  fun w =>
    match m w with
    | (w', Return a) => k a w'
    | (w', Raise e) => (w', Raise e)
    | (w', Unmodelled) => (w', Unmodelled)
    end.

Definition lift {A : Type} (o : outcome A) : M A := fun w => (w, o).

Declare Scope py_scope.
Delimit Scope py_scope with py.
Notation "x <- m ;; k" := (bind m (fun x => k))
  (at level 100, m at next level, right associativity) : py_scope.
Notation "m ;; k" := (bind m (fun _ => k))
  (at level 100, right associativity) : py_scope.
Local Open Scope py_scope.

Definition alloc (o : object) : M addr :=
  fun w => (set_heap (heap w ++ [o]) w, Return (length (heap w))).

Definition load_doc (a : addr) : M value :=
  fun w =>
    match heap w !! a with
    | Some (ODoc v) => (w, Return v)
    | _ => (w, Unmodelled)
    end.

Definition load_frame (a : addr) : M pd.DataFrame :=
  fun w =>
    match heap w !! a with
    | Some (OFrame df) => (w, Return df)
    | _ => (w, Unmodelled)
    end.

Definition store_frame (a : addr) (df : pd.DataFrame) : M unit :=
  fun w => (set_heap (<[a := OFrame df]> (heap w)) w, Return tt).

(** [d[key]] for a reference [d] to a decoded document. *)
Definition subscript (d : addr) (key : string) : M value :=
  v <- load_doc d ;; lift (getitem v key).

(** [pd.DataFrame.from_dict(v)]: a new table. *)
Definition DataFrame_from_dict (v : value) : M addr :=
  df <- lift (pd.from_dict v) ;; alloc (OFrame df).

(** [df.c] *)
Definition getattr (df : addr) (c : string) : M pd.Series :=
  t <- load_frame df ;; lift (pd.get_column t c).

(** [df.c = s] *)
Definition setattr (df : addr) (c : string) (s : pd.Series) : M unit :=
  t <- load_frame df ;; t' <- lift (pd.set_column t c s) ;; store_frame df t'.

(** [df.to_dict(orient='records')], as the list of dicts it is. *)
Definition to_dict (df : addr) : M value :=
  t <- load_frame df ;;
  ret (List (map (fun r => Dict (map (fun kv => (fst kv, Atom (snd kv))) r)) (pd.to_dict t))).

Module json.

(** [json.loads(t)]: a new document. *)
Definition loads (t : text) : M addr :=
  match t with
  | JsonText v => alloc (ODoc v)
  | OtherText => lift (Raise JSONDecodeError)
  end.

(** [json.load(f)] reads the whole stream and decodes it. *)
Definition load (t : text) : M addr := loads t.

Definition encodable_scalar (a : scalar) : bool :=
  match a with
  | STimestamp _ | SNaT => false
  | _ => true
  end.

(** The encoder knows None, booleans, numbers (NaN too), strings, lists and
    dicts; anything else is a TypeError. *)
Fixpoint encodable (v : value) : bool :=
  match v with
  | Atom a => encodable_scalar a
  | List l => forallb encodable l
  | Dict d => forallb (fun kv => encodable (snd kv)) d
  end.

(** [json.dump(v, f)] writes the document piece by piece: when a value cannot
    be encoded the file is left with the text written so far. *)
Definition dump (v : value) (f : string) : M unit :=
  fun w =>
    if encodable v
    then (set_disk (<[f := JsonText v]> (disk w)) w, Return tt)
    else (set_disk (<[f := OtherText]> (disk w)) w, Raise TypeError).

End json.

(** [open(f)] for reading, up to the text that is read from it. *)
Definition open_r (f : string) : M text :=
  fun w =>
    match disk w !! f with
    | Some t => (w, Return t)
    | None => (w, Raise FileNotFoundError)
    end.

(** [open(f, 'w')]: the file is created or emptied. *)
Definition open_w (f : string) : M string :=
  fun w => (set_disk (<[f := OtherText]> (disk w)) w, Return f).

Module requests.

(** [requests.get(url).text]: one GET; the body whatever the status. *)
Definition get_text (url : string) : M text :=
  fun w =>
    let w' := set_sent (sent w ++ [url]) w in
    match server w url with
    | Some t => (w', Return t)
    | None => (w', Raise ConnectionError)
    end.

End requests.

(** [d[k] = v] and [d[k].append(v)] on a local dict. *)
Fixpoint dict_set (k : string) (v : value) (d : list (string * value)) : list (string * value) :=
  match d with
  | [] => [(k, v)]
  | (k', v') :: d' => if String.eqb k' k then (k', v) :: d' else (k', v') :: dict_set k v d'
  end.

Definition list_append (x : value) (v : value) : value :=
  match v with
  | List l => List (l ++ [x])
  | _ => v
  end.

Definition dict_append (k : string) (x : value) (d : list (string * value)) : list (string * value) :=
  map (fun kv => if String.eqb (fst kv) k then (fst kv, list_append x (snd kv)) else kv) d.

(** Results are tuples of tables and scalars. *)
Inductive pyval :=
  | Frame (a : addr)
  | Scalar (s : scalar).

(** ** sundata.py *)

Module sundata.
Section sundata.
Context `{pd.NumericParser}.

Definition extract_Sun_dataframes_from_dict (dataDict : addr) : M (scalar * addr * addr) :=
  location <- (x <- subscript dataDict "plaatsnaam" ;;
               df <- DataFrame_from_dict x ;;
               s <- getattr df "plaats" ;;
               lift (pd.series_getitem s 0)) ;;

  current <- (x <- subscript dataDict "current" ;; DataFrame_from_dict x) ;;

  (a <- getattr current "cet" ;; a <- lift (pd.str_slice a 0 10) ;;
   b <- getattr current "sr" ;; v <- lift (pd.add (pd.add_str a " ") b) ;;
   setattr current "sr" v) ;;
  (a <- getattr current "sr" ;; v <- lift (pd.to_datetime a) ;; setattr current "sr" v) ;;

  (a <- getattr current "cet" ;; a <- lift (pd.str_slice a 0 10) ;;
   b <- getattr current "ss" ;; v <- lift (pd.add (pd.add_str a " ") b) ;;
   setattr current "ss" v) ;;
  (a <- getattr current "ss" ;; v <- lift (pd.to_datetime a) ;; setattr current "ss" v) ;;

  (a <- getattr current "time" ;; v <- lift (pd.to_numeric a) ;; setattr current "time" (pd.values v)) ;;
  (a <- getattr current "cet" ;; v <- lift (pd.to_datetime a) ;; setattr current "cet" v) ;;
  (a <- getattr current "elev" ;; v <- lift (pd.to_numeric a) ;; setattr current "elev" (pd.values v)) ;;
  (a <- getattr current "az" ;; v <- lift (pd.to_numeric a) ;; setattr current "az" (pd.values v)) ;;
  (a <- getattr current "temp" ;; v <- lift (pd.to_numeric a) ;; setattr current "temp" (pd.values v)) ;;
  (a <- getattr current "gr" ;; v <- lift (pd.to_numeric a) ;; setattr current "gr" (pd.values v)) ;;
  (a <- getattr current "sd" ;; v <- lift (pd.to_numeric a) ;; setattr current "sd" (pd.values v)) ;;
  (a <- getattr current "tc" ;; v <- lift (pd.to_numeric a) ;; setattr current "tc" (pd.values v)) ;;
  (a <- getattr current "vis" ;; v <- lift (pd.to_numeric a) ;; setattr current "vis" (pd.values v)) ;;
  (a <- getattr current "prec" ;; v <- lift (pd.to_numeric a) ;; setattr current "prec" (pd.values v)) ;;

  forecast <- (x <- subscript dataDict "forecast" ;; DataFrame_from_dict x) ;;

  (a <- getattr forecast "time" ;; v <- lift (pd.to_numeric a) ;; setattr forecast "time" (pd.values v)) ;;
  (a <- getattr forecast "cet" ;; v <- lift (pd.to_datetime a) ;; setattr forecast "cet" v) ;;
  (a <- getattr forecast "elev" ;; v <- lift (pd.to_numeric a) ;; setattr forecast "elev" (pd.values v)) ;;
  (a <- getattr forecast "az" ;; v <- lift (pd.to_numeric a) ;; setattr forecast "az" (pd.values v)) ;;
  (a <- getattr forecast "temp" ;; v <- lift (pd.to_numeric a) ;; setattr forecast "temp" (pd.values v)) ;;
  (a <- getattr forecast "gr" ;; v <- lift (pd.to_numeric a) ;; setattr forecast "gr" (pd.values v)) ;;
  (a <- getattr forecast "sd" ;; v <- lift (pd.to_numeric a) ;; setattr forecast "sd" (pd.values v)) ;;
  (a <- getattr forecast "tc" ;; v <- lift (pd.to_numeric a) ;; setattr forecast "tc" (pd.values v)) ;;
  (a <- getattr forecast "lc" ;; v <- lift (pd.to_numeric a) ;; setattr forecast "lc" (pd.values v)) ;;
  (a <- getattr forecast "mc" ;; v <- lift (pd.to_numeric a) ;; setattr forecast "mc" (pd.values v)) ;;
  (a <- getattr forecast "hc" ;; v <- lift (pd.to_numeric a) ;; setattr forecast "hc" (pd.values v)) ;;
  (a <- getattr forecast "vis" ;; v <- lift (pd.to_numeric a) ;; setattr forecast "vis" (pd.values v)) ;;
  (a <- getattr forecast "prec" ;; v <- lift (pd.to_numeric a) ;; setattr forecast "prec" (pd.values v)) ;;

  ret (location, current, forecast).

(** [loc] is [None] where the caller leaves the argument out. *)
Definition read_json_url_sunData (key location : string) (loc : option bool) : M (list pyval) :=
  let loc := default false loc in
  dataJSON <- requests.get_text
    ("https://data.meteoserver.nl/api/solar.php?locatie=" +:+ location +:+ "&key=" +:+ key) ;;
  dataDict <- json.loads dataJSON ;;
  r <- extract_Sun_dataframes_from_dict dataDict ;;
  let '(retLoc, current, forecast) := r in
  if loc
  then ret [Frame current; Frame forecast; Scalar retLoc]
  else ret [Frame current; Frame forecast].

Definition read_json_file_sunData (fileJSON : string) (loc : option bool) : M (list pyval) :=
  let loc := default false loc in
  r <- (dataJSON <- open_r fileJSON ;;
        dataDict <- json.load dataJSON ;;
        extract_Sun_dataframes_from_dict dataDict) ;;
  let '(location, current, forecast) := r in
  if loc
  then ret [Frame current; Frame forecast; Scalar location]
  else ret [Frame current; Frame forecast].

Definition write_json_file_sunData (fileName : string) (location : scalar)
    (current forecast : addr) : M unit :=
  let locationDict := [] in
  let locationDict := dict_set "plaats" (Atom location) locationDict in
  currentDict <- to_dict current ;;
  forecastDict <- to_dict forecast ;;
  let fileJSON := [] in
  let fileJSON := dict_set "plaatsnaam" (List []) fileJSON in
  let fileJSON := dict_append "plaatsnaam" (Dict locationDict) fileJSON in
  let fileJSON := dict_set "current" currentDict fileJSON in
  let fileJSON := dict_set "forecast" forecastDict fileJSON in
  outFile <- open_w fileName ;;
  json.dump (Dict fileJSON) outFile.

End sundata.
End sundata.

(** ** uurverwachting.py *)

Module uurverwachting.

Definition extract_hourly_forecast_dataframes_from_dict (dataDict : addr) : M addr :=
  data <- (x <- subscript dataDict "data" ;; DataFrame_from_dict x) ;;
  ret data.

Definition read_json_url_uurverwachting (key location : string) : M addr :=
  dataJSON <- requests.get_text
    ("https://data.meteoserver.nl/api/uurverwachting_gfs.php?locatie=" +:+ location
       +:+ "&key=" +:+ key) ;;
  dataDict <- json.loads dataJSON ;;
  data <- extract_hourly_forecast_dataframes_from_dict dataDict ;;
  ret data.

Definition read_json_file_uurverwachting (fileJSON : string) : M addr :=
  data <- (dataJSON <- open_r fileJSON ;;
           dataDict <- json.load dataJSON ;;
           extract_hourly_forecast_dataframes_from_dict dataDict) ;;
  ret data.

End uurverwachting.


(** ** Vocabulary of the specification *)

(** The records under [plaatsnaam], [current] and [forecast] of a document
    that has the shape of the sun dataset. *)
Definition members (doc : value) : option (list pd.record * list pd.record * list pd.record) :=
  match doc with
  | Dict d =>
      p ← dict_get "plaatsnaam" d ≫= pd.records_of;
      c ← dict_get "current" d ≫= pd.records_of;
      f ← dict_get "forecast" d ≫= pd.records_of;
      Some (p, c, f)
  | _ => None
  end.

(** [DD-MM-YYYY HH:MM], zero-padded, of a year all of whose minutes are
    representable (1678 to 2261). *)
Definition cet_text (v : scalar) : bool :=
  match v with
  | SStr s =>
      match datetime.strptime s with
      | Some t =>
          String.eqb (datetime.strftime t) s
          && (1678 <=? datetime.year t)%nat && (datetime.year t <=? 2261)%nat
      | None => false
      end
  | _ => false
  end.

(** [HH:MM], zero-padded. *)
Definition time_text (v : scalar) : bool :=
  match v with
  | SStr s =>
      match datetime.time_HM s with
      | Some (h, mi) => String.eqb (datetime.two h +:+ ":" +:+ datetime.two mi) s
      | None => false
      end
  | _ => false
  end.

(** A number, or a string that [pd.to_numeric] reads as one. *)
Definition numeric_text `{pd.NumericParser} (v : scalar) : bool :=
  match v with
  | SStr s => bool_decide (is_Some (pd.parse_numeric s))
  | SNum _ => true
  | _ => false
  end.

Definition has_field (p : scalar → bool) (r : pd.record) (k : string) : bool :=
  match dict_get k r with
  | Some v => p v
  | None => false
  end.

Definition current_numeric : list string :=
  ["time"; "elev"; "az"; "temp"; "gr"; "sd"; "tc"; "vis"; "prec"].

Definition forecast_numeric : list string :=
  ["time"; "elev"; "az"; "temp"; "gr"; "sd"; "tc"; "lc"; "mc"; "hc"; "vis"; "prec"].

Definition current_record `{pd.NumericParser} (r : pd.record) : bool :=
  has_field cet_text r "cet" && has_field time_text r "sr" && has_field time_text r "ss"
  && forallb (has_field numeric_text r) current_numeric.

Definition forecast_record `{pd.NumericParser} (r : pd.record) : bool :=
  has_field cet_text r "cet" && forallb (has_field numeric_text r) forecast_numeric.

(** A well-formed sun-dataset document: its first location record names the
    place, and every record of its two lists has every expected field in
    the expected form. *)
Definition well_formed `{pd.NumericParser} (doc : value) : bool :=
  match members doc with
  | Some (p :: _, cs, fs) =>
      has_field pd.is_str p "plaats" && forallb current_record cs && forallb forecast_record fs
  | _ => false
  end.

(** The cell of a table at a column and a row. *)
Definition cell (df : pd.DataFrame) (c : string) (i : nat) : option scalar :=
  dict_get c (pd.data df) ≫= (.!! i).

Definition is_numeric (v : scalar) : bool :=
  match v with
  | SNum _ | SBool _ => true
  | _ => false
  end.

Definition is_timestamp (v : scalar) : bool :=
  match v with
  | STimestamp _ => true
  | _ => false
  end.

Definition same_date (t u : datetime.Timestamp) : Prop :=
  datetime.year t = datetime.year u ∧ datetime.month t = datetime.month u
  ∧ datetime.day t = datetime.day u.

(** ** The statements of the extractor, as data

    The extractor is a sequence of statements on one table, of three
    kinds; they are named here so that properties can be proved by
    induction on a list of them, and the tables they produce can be
    described cell by cell. *)

Inductive step :=
  | Splice (c : string)
  | ToDatetime (c : string)
  | ToNumeric (c : string).

Definition target (st : step) : string :=
  match st with
  | Splice c | ToDatetime c | ToNumeric c => c
  end.

Definition current_steps : list step :=
  [Splice "sr"; ToDatetime "sr"; Splice "ss"; ToDatetime "ss";
   ToNumeric "time"; ToDatetime "cet"; ToNumeric "elev"; ToNumeric "az";
   ToNumeric "temp"; ToNumeric "gr"; ToNumeric "sd"; ToNumeric "tc";
   ToNumeric "vis"; ToNumeric "prec"].

Definition forecast_steps : list step :=
  [ToNumeric "time"; ToDatetime "cet"; ToNumeric "elev"; ToNumeric "az";
   ToNumeric "temp"; ToNumeric "gr"; ToNumeric "sd"; ToNumeric "tc";
   ToNumeric "lc"; ToNumeric "mc"; ToNumeric "hc"; ToNumeric "vis";
   ToNumeric "prec"].

(** A table given by the value of each cell, from the column label and the
    record of the row. *)
Definition cells := string → pd.record → scalar.

Definition frame_of (F : cells) (recs : list pd.record) : pd.DataFrame :=
  {| pd.nrows := length recs;
     pd.data := map (fun k => (k, map (F k) recs)) (pd.column_labels recs) |}.

Definition slice_cell (v : scalar) : option string :=
  match v with
  | SStr x => Some (substring 0 10 x)
  | _ => None
  end.

Definition force (o : outcome scalar) : scalar :=
  match o with
  | Return v => v
  | _ => NaN
  end.

Section steps.
Context `{pd.NumericParser}.

(** [df.c = f(df.c)] *)
Definition convert (f : pd.Series → outcome pd.Series) (c : string) (df : pd.DataFrame)
    : outcome pd.DataFrame :=
  obind (pd.get_column df c) (fun s =>
  obind (f s) (fun v => pd.set_column df c v)).

(** [df.c = df.cet.str.slice(0,10) + ' ' + df.c] *)
Definition splice (c : string) (df : pd.DataFrame) : outcome pd.DataFrame :=
  obind (pd.get_column df "cet") (fun a =>
  obind (pd.str_slice a 0 10) (fun a =>
  obind (pd.get_column df c) (fun b =>
  obind (pd.add (pd.add_str a " ") b) (fun v => pd.set_column df c v)))).

Definition denote (st : step) : pd.DataFrame → outcome pd.DataFrame :=
  match st with
  | Splice c => splice c
  | ToDatetime c => convert pd.to_datetime c
  | ToNumeric c => convert pd.to_numeric c
  end.

Fixpoint run_steps (steps : list step) (df : pd.DataFrame) : outcome pd.DataFrame :=
  match steps with
  | [] => Return df
  | st :: rest => obind (denote st df) (run_steps rest)
  end.

(** A statement on the table at an address, and a sequence of them. *)
Definition on_frame (a : addr) (g : pd.DataFrame → outcome pd.DataFrame) : M unit :=
  t <- load_frame a ;; t' <- lift (g t) ;; store_frame a t'.

Definition exec {A : Type} (a : addr) (steps : list step) (k : M A) : M A :=
  fold_right (fun st k => on_frame a (denote st) ;; k) k steps.

(** What a statement makes of one row. *)
Definition cell_step (st : step) (F : cells) (r : pd.record) : outcome scalar :=
  match st with
  | Splice c => pd.add_cell ((fun x => x +:+ " ") <$> slice_cell (F "cet" r), F c r)
  | ToDatetime c => pd.to_datetime_cell (F c r)
  | ToNumeric c => pd.to_numeric_cell (F c r)
  end.

Definition apply_step (F : cells) (st : step) : cells :=
  fun k r => if String.eqb k (target st) then force (cell_step st F r) else F k r.

(** What a statement needs of the table to go through. *)
Definition step_ok (st : step) (F : cells) (recs : list pd.record) : Prop :=
  target st ∈ pd.column_labels recs
  ∧ (∀ c, st = Splice c →
       "cet" ∈ pd.column_labels recs ∧ pd.has_str (map (F "cet") recs) = true)
  ∧ ∀ r, r ∈ recs → ∃ v, cell_step st F r = Return v.

Fixpoint steps_ok (steps : list step) (F : cells) (recs : list pd.record) : Prop :=
  match steps with
  | [] => True
  | st :: rest => step_ok st F recs ∧ steps_ok rest (apply_step F st) recs
  end.

(** The cells of the two tables the extractor returns. *)
Definition current_cells : cells := fold_left apply_step current_steps pd.cell_of.
Definition forecast_cells : cells := fold_left apply_step forecast_steps pd.cell_of.

End steps.

(** A call leaves the first [n] objects of the store, the files and the
    list of requests as they were; [Q] holds of what it returns. *)
Definition keeps {A : Type} (n : nat) (Q : A → Prop) (m : M A) : Prop :=
  ∀ w, n ≤ length (heap w) →
    n ≤ length (heap (m w).1)
    ∧ take n (heap (m w).1) = take n (heap w)
    ∧ disk (m w).1 = disk w
    ∧ sent (m w).1 = sent w
    ∧ ∀ a, (m w).2 = Return a → Q a.

(** The location the extractor returns, and how the extractor ends, as
    functions of the records of the document ([n] objects are in the store
    when it is called). *)
Definition location_of (ps : list pd.record) : outcome scalar :=
  obind (pd.get_column (pd.from_records ps) "plaats") (fun s => pd.series_getitem s 0).

Definition sun_outcome `{pd.NumericParser} (ps cs fs : list pd.record) (n : nat)
    : outcome (scalar * addr * addr) :=
  obind (location_of ps) (fun l =>
  obind (run_steps current_steps (pd.from_records cs)) (fun _ =>
  obind (run_steps forecast_steps (pd.from_records fs)) (fun _ =>
  Return (l, S n, S (S n))))).

(** A statement that reads and writes one column only. *)
Definition plain (st : step) : bool :=
  match st with
  | Splice _ => false
  | _ => true
  end.

(** The keys of a sequence of keys, each at its first occurrence. *)
Fixpoint first_occurrences (l : list string) : list string :=
  match l with
  | [] => []
  | k :: l' => k :: filter (fun x => x ≠ k) (first_occurrences l')
  end.

Definition any {A : Type} : A → Prop := fun _ => True.

(** *** What makes the extractor fail *)






Section defects.
Context `{pd.NumericParser}.






End defects.

(** *** Tables that [json.dump] can write *)

Definition encodable_frame (df : pd.DataFrame) : bool :=
  forallb (fun kv => forallb json.encodable_scalar (snd kv)) (pd.data df).

(** A record as a value: a dict of scalars. *)
Definition record_value (r : pd.record) : value :=
  Dict (map (fun kv => (fst kv, Atom (snd kv))) r).

(** *** Example documents *)

(** Texts of unsigned decimal integers, all that the examples need of
    [pd.to_numeric]. *)
Definition integer_text : pd.NumericParser :=
  fun s =>
    match datetime.read_digits (String.length s) s with
    | (d :: ds, EmptyString) => Some (NInt (Z.of_nat (datetime.decimal (d :: ds))))
    | _ => None
    end.

Definition example_place : pd.record := [("plaats", SStr "De Bilt")].

Definition example_current : pd.record :=
  [("cet", SStr "01-01-2021 10:00"); ("sr", SStr "08:30"); ("ss", SStr "16:30");
   ("time", SStr "1"); ("elev", SStr "10"); ("az", SStr "100"); ("temp", SStr "5");
   ("gr", SStr "50"); ("sd", SStr "0"); ("tc", SStr "20"); ("vis", SStr "10000");
   ("prec", SStr "0")].

Definition example_forecast : pd.record :=
  [("time", SStr "2"); ("cet", SStr "01-01-2021 11:00"); ("elev", SStr "12");
   ("az", SStr "110"); ("temp", SStr "6"); ("gr", SStr "60"); ("sd", SStr "0");
   ("tc", SStr "30"); ("lc", SStr "10"); ("mc", SStr "10"); ("hc", SStr "10");
   ("vis", SStr "9000"); ("prec", SStr "0")].

(** As [example_forecast], an hour later and without [temp]. *)
Definition example_forecast_gap : pd.record :=
  [("time", SStr "3"); ("cet", SStr "01-01-2021 12:00"); ("elev", SStr "13");
   ("az", SStr "120"); ("gr", SStr "70"); ("sd", SStr "0");
   ("tc", SStr "30"); ("lc", SStr "10"); ("mc", SStr "10"); ("hc", SStr "10");
   ("vis", SStr "9000"); ("prec", SStr "0")].


Definition document (forecast : list pd.record) : value :=
  Dict [("plaatsnaam", List [record_value example_place]);
        ("current", List [record_value example_current]);
        ("forecast", List (map record_value forecast))].

Definition example_doc : value := document [example_forecast].

(** The example of the specification: no forecast. *)
Definition spec_example_doc : value := document [].

Definition gap_doc : value := document [example_forecast; example_forecast_gap].




(** A world that holds one document, at address 0. *)
Definition world_of (doc : value) : world :=
  {| heap := [ODoc doc]; disk := ∅; server := fun _ => None; sent := [] |}.

Definition example_url : string :=
  "https://data.meteoserver.nl/api/solar.php?locatie=De Bilt&key=secret".

Definition example_hourly_url : string :=
  "https://data.meteoserver.nl/api/uurverwachting_gfs.php?locatie=De Bilt&key=secret".

Definition hourly_records : list pd.record :=
  [[("tijd", SStr "01-01-2021 10:00"); ("temp", SNum (NInt 5))];
   [("tijd", SStr "01-01-2021 11:00"); ("winds", SStr "3")]].

Definition hourly_doc : value :=
  Dict [("plaatsnaam", List [record_value example_place]);
        ("data", List (map record_value hourly_records))].

(** A world with the examples on the server and in the file [sun.json]. *)
Definition example_net : world :=
  {| heap := [];
     disk := {[ "sun.json" := JsonText example_doc ]};
     server := fun url =>
       if String.eqb url example_url then Some (JsonText example_doc)
       else if String.eqb url example_hourly_url then Some (JsonText hourly_doc)
       else None;
     sent := [] |}.

(** Two tables in the store, the first with a timestamp. *)
Definition stamped_world : world :=
  {| heap := [OFrame {| pd.nrows := 1;
                        pd.data := [("cet", [STimestamp (datetime.mkTimestamp 2021 1 1 10 0)])] |};
              OFrame {| pd.nrows := 0; pd.data := [] |}];
     disk := ∅; server := fun _ => None; sent := [] |}.


(** *** Calls that work on the store alone *)

(** A call reads nothing but the store and changes nothing but the store:
    the files, the server and the list of requests neither matter to it nor
    change. *)
Definition store_only {A : Type} (m : M A) : Prop :=
  ∀ w v : world, heap w = heap v →
    heap (m w).1 = heap (m v).1 ∧ (m w).2 = (m v).2
    ∧ disk (m w).1 = disk w ∧ server (m w).1 = server w ∧ sent (m w).1 = sent w.

(** *** Tables that survive [to_dict] and [from_dict] *)

(** The labels of the columns are distinct and every column has one cell
    per row. *)
Definition regular (df : pd.DataFrame) : bool :=
  bool_decide (NoDup (pd.columns df))
  && forallb (fun kv => Nat.eqb (length (snd kv)) (pd.nrows df)) (pd.data df).

(** The document the writer makes of a location and two tables. *)
Definition written (location : scalar) (cur fc : pd.DataFrame) : value :=
  Dict [("plaatsnaam", List [Dict [("plaats", Atom location)]]);
        ("current", List (map record_value (pd.to_dict cur)));
        ("forecast", List (map record_value (pd.to_dict fc)))].

(** The columns the extractor converts. *)
Definition current_targets : list string := "sr" :: "ss" :: "cet" :: current_numeric.
Definition forecast_targets : list string := "cet" :: forecast_numeric.

(** What a column converted by [pd.to_datetime] holds. *)
Definition time_cell (v : scalar) : bool :=
  match v with
  | STimestamp _ | SNaT => true
  | _ => false
  end.

(** The last statement of a list that writes column [c]. *)
Definition last_writer (c : string) (steps : list step) : option step :=
  fold_left (fun acc st => if String.eqb (target st) c then Some st else acc) steps None.

(** Two tables as they are decoded, before any conversion, at the
    addresses 0 and 1. *)
Definition raw_world : world :=
  {| heap := [OFrame (pd.from_records [example_current]);
              OFrame (pd.from_records [example_forecast])];
     disk := {[ "old.json" := OtherText ]}; server := fun _ => None; sent := [] |}.

(** Tables without rows. *)
Definition empty_world : world :=
  {| heap := [OFrame {| pd.nrows := 0; pd.data := [("cet", []); ("sr", [])] |};
              OFrame (pd.from_records [example_forecast])];
     disk := ∅; server := fun _ => None; sent := [] |}.

(** The example document in a file and on the server. *)
Definition saved_world : world :=
  {| heap := [];
     disk := {[ "sun.json" := JsonText example_doc; "hourly.json" := JsonText hourly_doc ]};
     server := fun url =>
       if String.eqb url example_url then Some (JsonText example_doc)
       else if String.eqb url example_hourly_url then Some (JsonText hourly_doc)
       else None;
     sent := [] |}.

(** The example with one more field, [station], in its current record. *)
Definition extra_doc : value :=
  Dict [("plaatsnaam", List [record_value example_place]);
        ("current", List [record_value (("station", SStr "260") :: example_current)]);
        ("forecast", List [record_value example_forecast])].

(** The example without its forecast. *)
Definition short_doc : value :=
  Dict [("plaatsnaam", List [record_value example_place]);
        ("current", List [record_value example_current])].

(** *** Values of the JSON grammar *)

(** A number that is neither NaN nor an infinity (of a float, the 11 bits
    of the exponent are not all ones). *)
Definition finite (n : number) : bool :=
  match n with
  | NInt _ => true
  | NFloat bits => negb (Z.land (Z.shiftr bits 52) 2047 =? 2047)%Z
  | NNaN => false
  end.

(** null, true, false, a finite number or a string. *)
Definition json_scalar (a : scalar) : bool :=
  match a with
  | SNone | SBool _ | SStr _ => true
  | SNum n => finite n
  | STimestamp _ | SNaT => false
  end.

Definition json_frame (df : pd.DataFrame) : bool :=
  forallb (fun kv => forallb json_scalar (snd kv)) (pd.data df).

(** * Proofs *)

Import datetime.
Local Open Scope py_scope.

(** ** Reading back what [strftime] prints *)

Lemma append_cons a s1 s2 : String a s1 +:+ s2 = String a (s1 +:+ s2).
Proof. reflexivity. Qed.

Lemma append_nil s : "" +:+ s = s.
Proof. reflexivity. Qed.

Ltac norm_append := rewrite ?append_cons, ?append_nil.

Lemma digit_digit_char (n : nat) : n < 10 → digit (digit_char n) = Some n.
Proof. intros Hn. do 10 (destruct n as [|n]; [reflexivity|]). lia. Qed.

Lemma space_digit_char n : is_space (digit_char n) = false.
Proof. do 9 (destruct n as [|n]; [reflexivity|]). reflexivity. Qed.

Lemma read_digits_two (n : nat) s :
  n < 100 → read_digits 2 (two n +:+ s) = ([n / 10; n mod 10], s).
Proof.
  intros Hn. unfold two. norm_append. cbn [read_digits].
  rewrite !digit_digit_char; [done | |].
  - apply Nat.mod_upper_bound. lia.
  - apply Nat.Div0.div_lt_upper_bound. lia.
Qed.

Lemma decimal_two n : decimal [n / 10; n mod 10] = n.
Proof. unfold decimal. cbn [fold_left]. pose proof (Nat.div_mod_eq n 10). lia. Qed.

Lemma field_two (lo hi n : nat) s :
  lo ≤ n → n ≤ hi → n < 100 → field lo hi (two n +:+ s) = Some (n, s).
Proof.
  intros Hlo Hhi Hn. unfold field. rewrite read_digits_two by done.
  rewrite decimal_two.
  destruct (Nat.leb_spec lo n); [|lia]. destruct (Nat.leb_spec n hi); [|lia]. done.
Qed.

Lemma day_field_two (n : nat) s :
  1 ≤ n → n ≤ 31 → day_field (two n +:+ s) = Some (n, s).
Proof.
  intros Hlo Hhi.
  assert (Hf : day_field (two n +:+ s) = field 1 31 (two n +:+ s)).
  { unfold two. norm_append. assert (n / 10 < 10) by (apply Nat.Div0.div_lt_upper_bound; lia).
    generalize dependent (n / 10). intros q Hq.
    do 10 (destruct q as [|q]; [reflexivity|]). lia. }
  rewrite Hf. apply field_two; lia.
Qed.

Lemma year_field_four (y : nat) s :
  y < 5000 → year_field (four y +:+ s) = Some (y, s).
Proof.
  intros Hy. unfold year_field, four, two. norm_append. cbn [read_digits].
  assert (y / 1000 < 10) by (apply Nat.Div0.div_lt_upper_bound; lia).
  assert (y / 100 mod 10 < 10) by (apply Nat.mod_upper_bound; lia).
  assert (y mod 100 / 10 < 10).
  { apply Nat.Div0.div_lt_upper_bound. pose proof (Nat.mod_upper_bound y 100). lia. }
  assert (y mod 100 mod 10 < 10) by (apply Nat.mod_upper_bound; lia).
  rewrite !digit_digit_char by done.
  f_equal. f_equal. unfold decimal. cbn [fold_left].
  pose proof (Nat.div_mod_eq y 100). pose proof (Nat.div_mod_eq (y / 100) 10).
  pose proof (Nat.div_mod_eq (y mod 100) 10).
  assert (y / 100 / 10 = y / 1000) by (rewrite Nat.Div0.div_div; done).
  lia.
Qed.

Lemma time_HM_two (h mi : nat) :
  h ≤ 23 → mi ≤ 59 → time_HM (two h +:+ ":" +:+ two mi) = Some (h, mi).
Proof.
  intros Hh Hmi. unfold time_HM.
  rewrite field_two by lia. norm_append. cbn [mbind option_bind expect Ascii.eqb Bool.eqb].
  replace (two mi) with (two mi +:+ "") by (unfold two; reflexivity).
  rewrite field_two by lia. done.
Qed.

Lemma append_assoc (a b c : string) : (a +:+ b) +:+ c = a +:+ (b +:+ c).
Proof. induction a as [|x a IH]; [done|]. norm_append. by rewrite IH. Qed.

Lemma days_in_month_le y m : days_in_month y m ≤ 31.
Proof.
  unfold days_in_month.
  do 12 (destruct m as [|m]; [try lia; destruct (is_leap y); lia|]). lia.
Qed.

Lemma valid_date_spec y m d :
  valid_date y m d = true → 1 ≤ y ∧ 1 ≤ m ∧ m ≤ 12 ∧ 1 ≤ d ∧ d ≤ 31.
Proof.
  unfold valid_date. rewrite !andb_true_iff, !Nat.leb_le.
  pose proof (days_in_month_le y m). lia.
Qed.


Lemma field_bounds (lo hi : nat) s v r : field lo hi s = Some (v, r) → lo ≤ v ∧ v ≤ hi.
Proof.
  unfold field. destruct (read_digits 2 s) as [[|d ds] r']; [done|].
  destruct (Nat.leb_spec lo (decimal (d :: ds))); [|done].
  destruct (Nat.leb_spec (decimal (d :: ds)) hi); [|done].
  intros [= <- _]. done.
Qed.

Lemma time_HM_bounds s h mi : time_HM s = Some (h, mi) → h ≤ 23 ∧ mi ≤ 59.
Proof.
  unfold time_HM. intros Hs.
  destruct (field 0 23 s) as [[h' r]|] eqn:Eh; [|done]. cbn in Hs.
  destruct (expect ":" r) as [r1|]; [|done]. cbn in Hs.
  destruct (field 0 59 r1) as [[mi' r2]|] eqn:Em; [|done]. cbn in Hs.
  destruct r2; [|done]. injection Hs as <- <-.
  apply field_bounds in Eh, Em. lia.
Qed.

Lemma strptime_spec s t :
  strptime s = Some t →
  valid_date (year t) (month t) (day t) = true ∧ in_bounds t = true
  ∧ hour t ≤ 23 ∧ minute t ≤ 59.
Proof.
  unfold strptime. intros Hs.
  destruct (date_dmY s) as [[[[d m] y] r]|]; [|done]. cbn in Hs.
  destruct (spaces r) as [r1|]; [|done]. cbn in Hs.
  destruct (time_HM r1) as [[h mi]|] eqn:Et; [|done]. cbn in Hs.
  destruct (valid_date y m d) eqn:Ev; [|done].
  destruct (in_bounds _) eqn:Eb; [|done].
  cbn in Hs. injection Hs as <-. cbn. apply time_HM_bounds in Et. done.
Qed.

Lemma strptime_strftime t :
  valid_date (year t) (month t) (day t) = true → in_bounds t = true →
  hour t ≤ 23 → minute t ≤ 59 → year t < 5000 →
  strptime (strftime t) = Some t.
Proof.
  destruct t as [y m d h mi]. cbn [year month day hour minute].
  intros Hv Hb Hh Hmi Hy. pose proof (valid_date_spec _ _ _ Hv) as (?&?&?&?&?).
  unfold strptime, strftime, strftime_dmY, strftime_HM, date_dmY.
  cbn [year month day hour minute].
  rewrite !append_assoc.
  assert (Hsk : skip_spaces (two h +:+ ":" +:+ two mi) = two h +:+ ":" +:+ two mi).
  { unfold two at 1 3. norm_append. cbn [skip_spaces]. by rewrite space_digit_char. }
  repeat first
    [ rewrite day_field_two by lia
    | rewrite field_two by lia
    | rewrite year_field_four by lia
    | progress cbn [mbind option_bind expect Ascii.eqb Bool.eqb spaces]
    | progress norm_append ].
  change (is_space " ") with true. cbv iota.
  change (String ":" (two mi)) with (":" +:+ two mi).
  rewrite Hsk. cbn [mbind option_bind]. rewrite time_HM_two by lia.
  cbn [mbind option_bind]. by rewrite Hv, Hb.
Qed.

Lemma substring_strftime t : substring 0 10 (strftime t) = strftime_dmY t.
Proof.
  unfold strftime, strftime_dmY, strftime_HM, four, two. rewrite !append_assoc.
  norm_append. cbn [substring]. reflexivity.
Qed.

Lemma in_bounds_inner y m d h mi :
  1678 ≤ y → y ≤ 2261 → m ≤ 12 → d ≤ 31 → h ≤ 23 → mi ≤ 59 →
  in_bounds (mkTimestamp y m d h mi) = true.
Proof.
  intros. unfold in_bounds, ordinal. cbn [year month day hour minute].
  apply andb_true_iff. rewrite !Z.leb_le. lia.
Qed.

Lemma splice_parses a b :
  cet_text (SStr a) = true → time_text (SStr b) = true →
  ∃ ta t, strptime a = Some ta
        ∧ strptime ((substring 0 10 a +:+ " ") +:+ b) = Some t
        ∧ same_date t ta ∧ strftime_HM t = b ∧ strftime_dmY t = substring 0 10 a.
Proof.
  unfold cet_text, time_text. intros Ha Hb.
  destruct (strptime a) as [ta|] eqn:Eta; [|done].
  apply andb_true_iff in Ha as [Ha Hhi]. apply andb_true_iff in Ha as [Ha Hlo].
  apply String.eqb_eq in Ha. apply Nat.leb_le in Hlo, Hhi.
  destruct (time_HM b) as [[h mi]|] eqn:Eb; [|done].
  apply String.eqb_eq in Hb.
  pose proof (strptime_spec _ _ Eta) as (Hv & _ & _ & _).
  pose proof (valid_date_spec _ _ _ Hv) as (?&?&?&?&?).
  pose proof (time_HM_bounds _ _ _ Eb) as [? ?].
  set (t := mkTimestamp (year ta) (month ta) (day ta) h mi).
  assert (Hs : (substring 0 10 a +:+ " ") +:+ b = strftime t).
  { rewrite <- Ha, substring_strftime, <- Hb. rewrite append_assoc. reflexivity. }
  exists ta, t. split; [done|]. split.
  - rewrite Hs. apply strptime_strftime; cbn [year month day hour minute]; try lia; try done.
    + apply in_bounds_inner; lia.
    + subst t. cbn. lia.
  - split; [done|]. split; [done|]. rewrite <- Ha at 1. by rewrite substring_strftime.
Qed.

(** ** Columns, element by element *)

Lemma traverse_map {A B} (f : A → outcome B) (g : A → B) (l : list A) :
  (∀ x, x ∈ l → f x = Return (g x)) → traverse f l = Return (map g l).
Proof.
  induction l as [|x l IH]; intros Hl; [done|].
  cbn. rewrite Hl by left. cbn. rewrite IH; [done|]. intros y Hy. apply Hl. by right.
Qed.

Lemma traverse_zip_map {A B C D} (f : B * C → outcome D) (g : A → B) (h : A → C) (l : list A) :
  traverse f (zip (map g l) (map h l)) = traverse (fun x => f (g x, h x)) l.
Proof. induction l as [|x l IH]; [done|]. cbn. by rewrite IH. Qed.

Lemma traverse_length {A B} (f : A → outcome B) (l : list A) (l' : list B) :
  traverse f l = Return l' → length l' = length l.
Proof.
  revert l'. induction l as [|x l IH]; intros l'; cbn.
  - by intros [= <-].
  - destruct (f x); [|done..]. cbn. destruct (traverse f l); [|done..]. cbn.
    intros [= <-]. cbn. f_equal. by apply IH.
Qed.


Lemma traverse_raise {A B} (f : A → outcome B) (l : list A) x e :
  (∀ y, y ∈ l → f y ≠ Unmodelled) → x ∈ l → f x = Raise e → ∃ e', traverse f l = Raise e'.
Proof.
  intros Hl Hx Hfx. induction l as [|y l IH]; [by apply elem_of_nil in Hx|].
  cbn. pose proof (Hl y (list_elem_of_here _ _)) as Hy.
  destruct (f y) as [b|e1|] eqn:Ey; [|by eexists|done]. cbn.
  apply elem_of_cons in Hx as [->|Hx]; [congruence|].
  destruct IH as [e' ->]; [|done|by eexists]. intros z Hz. apply Hl. by right.
Qed.

Lemma traverse_Return_inv {A B} (f : A → outcome B) (l : list A) (l' : list B) :
  traverse f l = Return l' → Forall2 (fun x y => f x = Return y) l l'.
Proof.
  revert l'. induction l as [|x l IH]; intros l'; cbn.
  - intros [= <-]. constructor.
  - destruct (f x) eqn:Ex; [|done..]. cbn. destruct (traverse f l); [|done..]. cbn.
    intros [= <-]. constructor; [done|]. by apply IH.
Qed.

Lemma dict_get_map_key {V} (G : string → V) (l : list string) (c : string) :
  dict_get c (map (fun k => (k, G k)) l)
  = if bool_decide (c ∈ l) then Some (G c) else None.
Proof.
  induction l as [|k l IH]; [done|]. cbn.
  destruct (String.eqb_spec k c) as [->|Hne].
  - rewrite bool_decide_eq_true_2; [done|left].
  - rewrite IH. destruct (bool_decide (c ∈ l)) eqn:E.
    + apply bool_decide_eq_true in E. rewrite bool_decide_eq_true_2; [done|by right].
    + apply bool_decide_eq_false in E. rewrite bool_decide_eq_false_2; [done|].
      intros [?|?]%elem_of_cons; congruence.
Qed.

Section frames.
Context `{pd.NumericParser}.

Lemma get_column_frame_of F recs c :
  pd.get_column (frame_of F recs) c
  = if bool_decide (c ∈ pd.column_labels recs) then Return (map (F c) recs)
    else Raise AttributeError.
Proof.
  unfold pd.get_column, frame_of. cbn. rewrite dict_get_map_key. by case_bool_decide.
Qed.

Lemma set_column_frame_of F recs c (g : pd.record → scalar) :
  c ∈ pd.column_labels recs →
  pd.set_column (frame_of F recs) c (map g recs)
  = Return (frame_of (fun k r => if String.eqb k c then g r else F k r) recs).
Proof.
  intros Hc. unfold pd.set_column, frame_of. cbn. rewrite dict_get_map_key.
  rewrite bool_decide_eq_true_2 by done. rewrite length_map, Nat.eqb_refl.
  f_equal. f_equal. rewrite map_map. apply map_ext. intros k.
  unfold pd.replace_column. cbn. by destruct (String.eqb k c).
Qed.

Lemma set_column_columns df c s df' :
  pd.set_column df c s = Return df' → pd.columns df' = pd.columns df ∧ pd.nrows df' = pd.nrows df.
Proof.
  unfold pd.set_column. destruct (dict_get c (pd.data df)); [|by intros [= <-]].
  destruct (length s =? pd.nrows df); [|done]. intros [= <-]. split; [|done].
  unfold pd.columns. cbn. rewrite map_map. apply map_ext. intros kv.
  unfold pd.replace_column. by destruct (String.eqb (kv.1) c).
Qed.

Lemma denote_frame_of st F recs :
  step_ok st F recs →
  denote st (frame_of F recs) = Return (frame_of (apply_step F st) recs).
Proof.
  intros (Hc & Hs & Hr).
  assert (Hcells : ∀ r, r ∈ recs → cell_step st F r = Return (force (cell_step st F r))).
  { intros r Hrin. destruct (Hr r Hrin) as [v ->]. done. }
  destruct st as [c|c|c]; cbn [denote target] in *.
  - destruct (Hs c eq_refl) as [Hcet Hstr]. unfold splice.
    rewrite !get_column_frame_of, !bool_decide_eq_true_2 by done. cbn [obind].
    unfold pd.str_slice. rewrite Hstr. cbn [obind].
    unfold pd.add, pd.add_str. rewrite !map_map.
    rewrite traverse_zip_map.
    rewrite (traverse_map _ (fun r => force (cell_step (Splice c) F r))).
    + cbn [obind]. by rewrite set_column_frame_of.
    + intros r Hrin. rewrite <- Hcells by done. reflexivity.
  - unfold convert. rewrite get_column_frame_of, bool_decide_eq_true_2 by done.
    cbn [obind]. unfold pd.to_datetime.
    rewrite (traverse_map _ (fun v => force (pd.to_datetime_cell v))).
    + cbn [obind]. rewrite map_map. by rewrite set_column_frame_of.
    + intros v (r & -> & Hrin)%list_elem_of_fmap. apply (Hcells r Hrin).
  - unfold convert. rewrite get_column_frame_of, bool_decide_eq_true_2 by done.
    cbn [obind]. unfold pd.to_numeric.
    rewrite (traverse_map _ (fun v => force (pd.to_numeric_cell v))).
    + cbn [obind]. rewrite map_map. by rewrite set_column_frame_of.
    + intros v (r & -> & Hrin)%list_elem_of_fmap. apply (Hcells r Hrin).
Qed.

Lemma run_steps_frame_of steps F recs :
  steps_ok steps F recs →
  run_steps steps (frame_of F recs) = Return (frame_of (fold_left apply_step steps F) recs).
Proof.
  revert F. induction steps as [|st steps IH]; intros F; [done|].
  intros [Hst Hrest]. cbn [run_steps fold_left].
  rewrite denote_frame_of by done. cbn [obind]. by apply IH.
Qed.

End frames.

(** ** From the code to its list of statements *)

Lemma bind_ext {A B} (m m' : M A) (k k' : A → M B) w :
  (∀ w, m w = m' w) → (∀ a w, k a w = k' a w) → bind m k w = bind m' k' w.
Proof.
  intros Hm Hk. unfold bind. rewrite Hm. destruct (m' w) as [w' [a|e|]]; [apply Hk|done..].
Qed.

Lemma world_eta w : set_heap (heap w) w = w.
Proof. by destruct w. Qed.

Section wiring.
Context `{pd.NumericParser}.

Lemma block_convert (f : pd.Series → outcome pd.Series) a c w :
  (x <- getattr a c ;; v <- lift (f x) ;; setattr a c v) w = on_frame a (convert f c) w.
Proof.
  unfold on_frame, getattr, setattr, load_frame, lift, bind, convert.
  destruct (heap w !! a) as [[v|df]|] eqn:E; [done| |done].
  destruct (pd.get_column df c) as [s| |]; [|done..]. cbn [obind].
  destruct (f s) as [s'| |]; [|done..]. cbn [obind]. by rewrite E.
Qed.

Lemma block_splice a c w :
  (x <- getattr a "cet" ;; x <- lift (pd.str_slice x 0 10) ;;
   b <- getattr a c ;; v <- lift (pd.add (pd.add_str x " ") b) ;;
   setattr a c v) w
  = on_frame a (splice c) w.
Proof.
  unfold on_frame, getattr, setattr, load_frame, lift, bind, splice.
  destruct (heap w !! a) as [[v|df]|] eqn:E; [done| |done].
  destruct (pd.get_column df "cet") as [s| |]; [|done..]. cbn [obind].
  destruct (pd.str_slice s 0 10) as [s'| |]; [|done..]. cbn [obind]. rewrite E.
  destruct (pd.get_column df c) as [t| |]; [|done..]. cbn [obind].
  destruct (pd.add _ t) as [u| |]; [|done..]. cbn [obind]. by rewrite E.
Qed.

Lemma extract_eq d w :
  sundata.extract_Sun_dataframes_from_dict d w
  = (location <- (x <- subscript d "plaatsnaam" ;;
                  df <- DataFrame_from_dict x ;;
                  s <- getattr df "plaats" ;;
                  lift (pd.series_getitem s 0)) ;;
     current <- (x <- subscript d "current" ;; DataFrame_from_dict x) ;;
     exec current current_steps
       (forecast <- (x <- subscript d "forecast" ;; DataFrame_from_dict x) ;;
        exec forecast forecast_steps (ret (location, current, forecast)))) w.
Proof.
  unfold sundata.extract_Sun_dataframes_from_dict.
  apply bind_ext; [done|]. intros location ?.
  apply bind_ext; [done|]. intros current ?.
  cbn [exec fold_right current_steps denote].
  do 4 (apply bind_ext; [intros; first [apply block_splice | exact (block_convert _ _ _ _)] | intros _ ?]).
  do 10 (apply bind_ext; [intros; exact (block_convert _ _ _ _) | intros _ ?]).
  apply bind_ext; [done|]. intros forecast ?.
  cbn [exec fold_right forecast_steps denote].
  do 13 (apply bind_ext; [intros; exact (block_convert _ _ _ _) | intros _ ?]).
  done.
Qed.

Lemma on_frame_bind {A} a g (k : M A) w df :
  heap w !! a = Some (OFrame df) →
  (on_frame a g ;; k) w
  = match g df with
    | Return df' => k (set_heap (<[a := OFrame df']> (heap w)) w)
    | Raise e => (w, Raise e)
    | Unmodelled => (w, Unmodelled)
    end.
Proof.
  intros Hdf. unfold on_frame, load_frame, lift, store_frame, bind. rewrite Hdf.
  by destruct (g df).
Qed.

Lemma exec_cons {A} a st steps (k : M A) :
  exec a (st :: steps) k = (on_frame a (denote st) ;; exec a steps k).
Proof. reflexivity. Qed.

Lemma exec_spec {A} a steps (k : M A) w df :
  heap w !! a = Some (OFrame df) →
  match run_steps steps df with
  | Return df' => exec a steps k w = k (set_heap (<[a := OFrame df']> (heap w)) w)
  | Raise e => ∃ w', exec a steps k w = (w', Raise e)
  | Unmodelled => ∃ w', exec a steps k w = (w', Unmodelled)
  end.
Proof.
  revert w df. induction steps as [|st steps IH]; intros w df Hdf.
  - cbn. by rewrite list_insert_id, world_eta.
  - rewrite exec_cons, (on_frame_bind _ _ _ _ df) by done. cbn [run_steps].
    destruct (denote st df) as [df1|e|]; cbn [obind]; [|by eexists..].
    set (w1 := set_heap (<[a := OFrame df1]> (heap w)) w).
    assert (Hw1 : heap w1 !! a = Some (OFrame df1)).
    { cbn. apply list_lookup_insert_eq. by eapply lookup_lt_Some. }
    specialize (IH w1 df1 Hw1).
    destruct (run_steps steps df1); [|done..].
    rewrite IH. subst w1. cbn. by rewrite list_insert_insert_eq.
Qed.

End wiring.

(** ** Column labels *)

Lemma dict_get_elem {V} k (d : list (string * V)) v : dict_get k d = Some v → k ∈ map fst d.
Proof.
  induction d as [|[k' v'] d IH]; [done|]. cbn.
  destruct (String.eqb_spec k' k) as [->|Hne]; [left|right; auto].
Qed.

Lemma first_seen_elem seen keys k :
  k ∈ pd.first_seen seen keys ↔ k ∈ seen ∨ k ∈ keys.
Proof.
  unfold pd.first_seen. revert seen. induction keys as [|x keys IH]; intros seen; cbn.
  - rewrite elem_of_nil. tauto.
  - rewrite IH. case_bool_decide as Hx.
    + rewrite elem_of_cons. split; [tauto|]. intros [?|[->|?]]; tauto.
    + rewrite elem_of_app, !elem_of_cons, elem_of_nil. tauto.
Qed.

Lemma first_seen_NoDup seen keys : NoDup seen → NoDup (pd.first_seen seen keys).
Proof.
  unfold pd.first_seen. revert seen. induction keys as [|x keys IH]; intros seen Hs; [done|].
  cbn. apply IH. case_bool_decide as Hx; [done|].
  apply NoDup_app. split; [done|]. split; [|apply NoDup_singleton].
  intros y Hy ->%list_elem_of_singleton. done.
Qed.

Lemma column_labels_elem recs k :
  k ∈ pd.column_labels recs ↔ ∃ r, r ∈ recs ∧ k ∈ map fst r.
Proof.
  unfold pd.column_labels.
  assert (G : ∀ acc, k ∈ fold_left (fun acc r => pd.first_seen acc (map fst r)) recs acc
                     ↔ k ∈ acc ∨ ∃ r, r ∈ recs ∧ k ∈ map fst r).
  { induction recs as [|r recs IH]; intros acc; cbn.
    - split; [tauto|]. intros [?|(r & Hr & _)]; [done|by apply elem_of_nil in Hr].
    - rewrite IH, first_seen_elem. split.
      + intros [[?|?]|(r' & ? & ?)]; [tauto| |].
        * right. exists r. split; [left|done].
        * right. exists r'. split; [by right|done].
      + intros [?|(r' & [->|?]%elem_of_cons & ?)]; [tauto|tauto|].
        right. by exists r'. }
  rewrite G. rewrite elem_of_nil. tauto.
Qed.

Lemma column_labels_NoDup recs : NoDup (pd.column_labels recs).
Proof.
  unfold pd.column_labels.
  assert (G : ∀ acc, NoDup acc →
            NoDup (fold_left (fun acc r => pd.first_seen acc (map fst r)) recs acc)).
  { induction recs as [|r recs IH]; intros acc Hacc; [done|]. cbn.
    apply IH. by apply first_seen_NoDup. }
  apply G, NoDup_nil_2.
Qed.

Lemma has_field_spec p r k :
  has_field p r k = true → ∃ v, dict_get k r = Some v ∧ p v = true ∧ pd.cell_of k r = v.
Proof.
  unfold has_field, pd.cell_of. destruct (dict_get k r) as [v|]; [|done].
  intros Hp. by exists v.
Qed.

Lemma has_field_label p r k recs :
  r ∈ recs → has_field p r k = true → k ∈ pd.column_labels recs.
Proof.
  intros Hr (v & Hv & _)%has_field_spec. apply column_labels_elem.
  exists r. split; [done|]. by eapply dict_get_elem.
Qed.

Lemma from_records_frame_of recs : pd.from_records recs = frame_of pd.cell_of recs.
Proof. reflexivity. Qed.

Lemma apply_step_ne `{pd.NumericParser} F st k r : k ≠ target st → apply_step F st k r = F k r.
Proof. intros Hne. unfold apply_step. by destruct (String.eqb_spec k (target st)). Qed.

Lemma apply_step_eq `{pd.NumericParser} F st r :
  apply_step F st (target st) r = force (cell_step st F r).
Proof. unfold apply_step. by rewrite String.eqb_refl. Qed.

Section plans.
Context `{pd.NumericParser}.

Lemma cell_step_plain st st' F r :
  plain st' = true → target st' ≠ target st →
  cell_step st' (apply_step F st) r = cell_step st' F r.
Proof.
  intros Hp Hne. destruct st' as [c|c|c]; [done| |]; cbn [cell_step target] in *;
    by rewrite apply_step_ne.
Qed.

Lemma steps_ok_plain steps F recs :
  forallb plain steps = true → NoDup (map target steps) →
  (∀ st, st ∈ steps →
     target st ∈ pd.column_labels recs ∧ ∀ r, r ∈ recs → ∃ v, cell_step st F r = Return v) →
  steps_ok steps F recs.
Proof.
  revert F. induction steps as [|st steps IH]; intros F Hp Hnd Hall; [done|].
  cbn in Hp. apply andb_true_iff in Hp as [Hst Hp].
  apply NoDup_cons in Hnd as [Hnotin Hnd].
  cbn [steps_ok]. split.
  - destruct (Hall st) as [Hc Hr]; [left|]. split; [done|]. split; [|done].
    intros c ->. done.
  - apply IH; [done..|]. intros st' Hst'. destruct (Hall st') as [Hc Hr]; [by right|].
    split; [done|]. intros r Hrin. rewrite cell_step_plain.
    + by apply Hr.
    + rewrite forallb_forall in Hp. apply Hp. by apply list_elem_of_In.
    + intros Heq. apply Hnotin. rewrite <- Heq. apply list_elem_of_fmap. by exists st'.
Qed.

End plans.

(** ** Well-formed cells *)

Lemma strftime_not_null t :
  String.eqb (strftime t) "" || existsb (String.eqb (strftime t)) pd.nat_strings = false.
Proof.
  unfold strftime, strftime_dmY, two. rewrite !append_assoc. norm_append.
  generalize (digit_char (day t / 10)) (digit_char (day t mod 10)). intros c0 c1.
  cbn [existsb pd.nat_strings String.eqb].
  change (Ascii.eqb "-" "T") with false. change (Ascii.eqb "-" "t") with false.
  change (Ascii.eqb "-" "N") with false. change (Ascii.eqb "-" "n") with false.
  repeat match goal with |- context [Ascii.eqb ?a ?b] => destruct (Ascii.eqb a b) end;
    reflexivity.
Qed.

Lemma to_datetime_strftime t s :
  strptime s = Some t → strftime t = s →
  pd.to_datetime_cell (SStr s) = Return (STimestamp t).
Proof.
  intros Hp Hf. unfold pd.to_datetime_cell. rewrite <- Hf at 1 2.
  rewrite strftime_not_null. by rewrite Hp.
Qed.

Lemma cet_text_spec v :
  cet_text v = true →
  ∃ a ta, v = SStr a ∧ strptime a = Some ta ∧ strftime ta = a
          ∧ pd.to_datetime_cell v = Return (STimestamp ta).
Proof.
  destruct v as [| | |a| |]; try done. unfold cet_text. intros Ha.
  destruct (strptime a) as [ta|] eqn:Eta; [|done].
  apply andb_true_iff in Ha as [Ha _]. apply andb_true_iff in Ha as [Ha _].
  apply String.eqb_eq in Ha. exists a, ta. repeat split; try done.
  by apply to_datetime_strftime.
Qed.

Lemma splice_cell_spec va vb :
  cet_text va = true → time_text vb = true →
  ∃ a b ta t,
    va = SStr a ∧ vb = SStr b ∧ strptime a = Some ta
    ∧ pd.add_cell ((fun x => x +:+ " ") <$> slice_cell va, vb)
      = Return (SStr ((substring 0 10 a +:+ " ") +:+ b))
    ∧ strptime ((substring 0 10 a +:+ " ") +:+ b) = Some t
    ∧ pd.to_datetime_cell (SStr ((substring 0 10 a +:+ " ") +:+ b)) = Return (STimestamp t)
    ∧ same_date t ta ∧ strftime_HM t = b ∧ strftime_dmY t = substring 0 10 a.
Proof.
  intros Ha Hb.
  destruct va as [| | |a| |]; try done. destruct vb as [| | |b| |]; try done.
  destruct (splice_parses a b Ha Hb) as (ta & t & Hta & Ht & Hd & Hhm & Hdmy).
  exists a, b, ta, t. repeat split; try done; try apply Hd.
  apply to_datetime_strftime; [done|].
  unfold strftime. rewrite Hhm, Hdmy. by rewrite append_assoc.
Qed.

Section wf.
Context `{pd.NumericParser}.

Lemma numeric_text_spec v :
  numeric_text v = true → ∃ x, pd.to_numeric_cell v = Return x ∧ is_numeric x = true.
Proof.
  destruct v as [| |n|s| |]; try done; cbn.
  - intros _. by exists (SNum n).
  - intros [n Hn]%bool_decide_eq_true. rewrite Hn. by exists (SNum n).
Qed.

End wf.

(** ** Well-formed records go through every statement *)

Ltac eval_cells :=
  cbv [apply_step target current_cells forecast_cells current_steps forecast_steps
       fold_left String.eqb Ascii.eqb Bool.eqb andb].

Ltac in_list := solve [repeat first [apply list_elem_of_here | apply list_elem_of_further]].


Lemma has_str_strings (s : pd.Series) v :
  v ∈ s → pd.is_str v = true → pd.has_str s = true.
Proof.
  intros Hv Hs. unfold pd.has_str.
  assert (existsb pd.is_str s = true) as ->.
  { apply existsb_exists. exists v. split; [by apply list_elem_of_In|done]. }
  by rewrite orb_true_r.
Qed.

Section wf.
Context `{pd.NumericParser}.

Lemma current_record_spec r :
  current_record r = true →
  has_field cet_text r "cet" = true ∧ has_field time_text r "sr" = true
  ∧ has_field time_text r "ss" = true
  ∧ ∀ c, c ∈ current_numeric → has_field numeric_text r c = true.
Proof.
  unfold current_record. rewrite !andb_true_iff, forallb_forall.
  intros [[[? ?] ?] Hn]. repeat split; try done.
  intros c Hc. apply Hn. by apply list_elem_of_In.
Qed.

Lemma forecast_record_spec r :
  forecast_record r = true →
  has_field cet_text r "cet" = true
  ∧ ∀ c, c ∈ forecast_numeric → has_field numeric_text r c = true.
Proof.
  unfold forecast_record. rewrite !andb_true_iff, forallb_forall.
  intros [? Hn]. split; [done|]. intros c Hc. apply Hn. by apply list_elem_of_In.
Qed.

Lemma to_numeric_field r c :
  has_field numeric_text r c = true →
  ∃ x, pd.to_numeric_cell (pd.cell_of c r) = Return x ∧ is_numeric x = true.
Proof. intros (v & _ & Hv & ->)%has_field_spec. by apply numeric_text_spec. Qed.

Lemma to_datetime_field r :
  has_field cet_text r "cet" = true →
  ∃ a ta, pd.cell_of "cet" r = SStr a ∧ strptime a = Some ta
          ∧ pd.to_datetime_cell (pd.cell_of "cet" r) = Return (STimestamp ta).
Proof.
  intros (v & _ & Hv & ->)%has_field_spec.
  destruct (cet_text_spec v Hv) as (a & ta & -> & ? & ? & ?). by exists a, ta.
Qed.

Lemma splice_field r c :
  has_field cet_text r "cet" = true → has_field time_text r c = true →
  ∃ a b ta t,
    pd.cell_of "cet" r = SStr a ∧ pd.cell_of c r = SStr b ∧ strptime a = Some ta
    ∧ pd.add_cell ((fun x => x +:+ " ") <$> slice_cell (pd.cell_of "cet" r), pd.cell_of c r)
      = Return (SStr ((substring 0 10 a +:+ " ") +:+ b))
    ∧ strptime ((substring 0 10 a +:+ " ") +:+ b) = Some t
    ∧ pd.to_datetime_cell (SStr ((substring 0 10 a +:+ " ") +:+ b)) = Return (STimestamp t)
    ∧ same_date t ta ∧ strftime_HM t = b ∧ strftime_dmY t = substring 0 10 a.
Proof.
  intros (va & _ & Hva & ->)%has_field_spec (vb & _ & Hvb & ->)%has_field_spec.
  by apply splice_cell_spec.
Qed.

Lemma forecast_steps_ok recs :
  recs ≠ [] → forallb forecast_record recs = true →
  steps_ok forecast_steps pd.cell_of recs.
Proof.
  intros Hne Hwf. rewrite forallb_forall in Hwf.
  assert (Hrec : ∀ r, r ∈ recs → forecast_record r = true).
  { intros r Hr. apply Hwf. by apply list_elem_of_In. }
  destruct recs as [|r0 recs0] eqn:Erecs; [done|]. rewrite <- Erecs in *.
  assert (Hr0 : r0 ∈ recs) by (rewrite Erecs; left).
  destruct (forecast_record_spec r0 (Hrec r0 Hr0)) as [Hcet0 Hnum0].
  apply steps_ok_plain; [reflexivity| |].
  { apply (bool_decide_unpack (NoDup (map target forecast_steps))). by vm_compute. }
  intros st Hst. unfold forecast_steps in Hst.
  repeat (apply elem_of_cons in Hst as [->|Hst]); try (by apply elem_of_nil in Hst);
    cbn [target cell_step].
  all: split;
    [ first [ by eapply has_field_label; [exact Hr0 | exact Hcet0]
            | eapply has_field_label; [exact Hr0 | apply Hnum0; in_list] ]
    | intros r Hr; destruct (forecast_record_spec r (Hrec r Hr)) as [Hcet Hnum] ].
  all: first
    [ destruct (to_datetime_field r Hcet) as (? & ta & _ & _ & ->); by eexists
    | edestruct (to_numeric_field r) as (x & -> & _); [apply Hnum; in_list | by eexists] ].
Qed.

Lemma steps_ok_cons st rest F recs :
  step_ok st F recs → steps_ok rest (apply_step F st) recs → steps_ok (st :: rest) F recs.
Proof. by split. Qed.

Lemma current_steps_ok recs :
  recs ≠ [] → forallb current_record recs = true →
  steps_ok current_steps pd.cell_of recs.
Proof.
  intros Hne Hwf. rewrite forallb_forall in Hwf.
  assert (Hrec : ∀ r, r ∈ recs → current_record r = true).
  { intros r Hr. apply Hwf. by apply list_elem_of_In. }
  destruct recs as [|r0 recs0] eqn:Erecs; [done|]. rewrite <- Erecs in *.
  assert (Hr0 : r0 ∈ recs) by (rewrite Erecs; left).
  destruct (current_record_spec r0 (Hrec r0 Hr0)) as (Hcet0 & Hsr0 & Hss0 & Hnum0).
  assert (Hstr : pd.has_str (map (pd.cell_of "cet") recs) = true).
  { destruct (to_datetime_field r0 Hcet0) as (a & ta & Ea & _).
    apply (has_str_strings _ (SStr a)); [|done].
    apply list_elem_of_fmap. exists r0. by rewrite Ea. }
  assert (Hcetl : "cet" ∈ pd.column_labels recs) by (by eapply has_field_label).
  unfold current_steps.
  apply steps_ok_cons; [|apply steps_ok_cons; [|apply steps_ok_cons; [|apply steps_ok_cons]]].
  - (* sr: the date is spliced in *)
    split; [by eapply has_field_label|]. split; [by intros c [= <-]|].
    intros r Hr. destruct (current_record_spec r (Hrec r Hr)) as (Hcet & Hsr & Hss & Hnum).
    destruct (splice_field r "sr" Hcet Hsr) as (a & b & ta & t & _ & _ & _ & Hadd & _).
    cbn [cell_step]. rewrite Hadd. by eexists.
  - (* sr: parsed *)
    split; [by eapply has_field_label|]. split; [done|].
    intros r Hr. destruct (current_record_spec r (Hrec r Hr)) as (Hcet & Hsr & Hss & Hnum).
    destruct (splice_field r "sr" Hcet Hsr) as (a & b & ta & t & _ & _ & _ & Hadd & _ & Hdt & _).
    cbn [cell_step]. eval_cells. cbn [cell_step]. rewrite Hadd. cbn [force]. rewrite Hdt. by eexists.
  - (* ss: the date is spliced in *)
    split; [by eapply has_field_label|]. split; [by intros c [= <-]|].
    intros r Hr. destruct (current_record_spec r (Hrec r Hr)) as (Hcet & Hsr & Hss & Hnum).
    destruct (splice_field r "ss" Hcet Hss) as (a & b & ta & t & _ & _ & _ & Hadd & _).
    cbn [cell_step]. eval_cells. rewrite Hadd. by eexists.
  - (* ss: parsed *)
    split; [by eapply has_field_label|]. split; [done|].
    intros r Hr. destruct (current_record_spec r (Hrec r Hr)) as (Hcet & Hsr & Hss & Hnum).
    destruct (splice_field r "ss" Hcet Hss) as (a & b & ta & t & _ & _ & _ & Hadd & _ & Hdt & _).
    cbn [cell_step]. eval_cells. cbn [cell_step]. eval_cells.
    rewrite Hadd. cbn [force]. rewrite Hdt. by eexists.
  - (* the ten conversions *)
    apply steps_ok_plain; [reflexivity| |].
    { match goal with |- NoDup ?l => apply (bool_decide_unpack (NoDup l)) end. by vm_compute. }
    intros st Hst.
    repeat (apply elem_of_cons in Hst as [->|Hst]); try (by apply elem_of_nil in Hst);
      cbn [target cell_step].
    all: split;
      [ first [ by eapply has_field_label; [exact Hr0 | exact Hcet0]
              | eapply has_field_label; [exact Hr0 | apply Hnum0; in_list] ]
      | intros r Hr;
        destruct (current_record_spec r (Hrec r Hr)) as (Hcet & Hsr & Hss & Hnum);
        eval_cells ].
    all: first
      [ destruct (to_datetime_field r Hcet) as (? & ta & _ & _ & ->); by eexists
      | edestruct (to_numeric_field r) as (x & -> & _); [apply Hnum; in_list | by eexists] ].
Qed.

End wf.

(** ** How the extractor ends *)

Lemma bind_Return {A B} (m : M A) (k : A → M B) w w' a :
  m w = (w', Return a) → bind m k w = k a w'.
Proof. intros Hm. unfold bind. by rewrite Hm. Qed.

Lemma members_spec doc ps cs fs :
  members doc = Some (ps, cs, fs) →
  ∃ dd vp vc vf,
    doc = Dict dd
    ∧ dict_get "plaatsnaam" dd = Some vp ∧ pd.records_of vp = Some ps
    ∧ dict_get "current" dd = Some vc ∧ pd.records_of vc = Some cs
    ∧ dict_get "forecast" dd = Some vf ∧ pd.records_of vf = Some fs.
Proof.
  destruct doc as [| |dd]; try done. cbn [members]. intros Hm.
  destruct (dict_get "plaatsnaam" dd) as [vp|] eqn:E1; [|done]. cbn in Hm.
  destruct (pd.records_of vp) as [ps'|] eqn:Ep; [|done]. cbn in Hm.
  destruct (dict_get "current" dd) as [vc|] eqn:E2; [|done]. cbn in Hm.
  destruct (pd.records_of vc) as [cs'|] eqn:Ec; [|done]. cbn in Hm.
  destruct (dict_get "forecast" dd) as [vf|] eqn:E3; [|done]. cbn in Hm.
  destruct (pd.records_of vf) as [fs'|] eqn:Ef; [|done]. cbn in Hm.
  injection Hm as <- <- <-. by exists dd, vp, vc, vf.
Qed.

Lemma subscript_run d k w dd v :
  heap w !! d = Some (ODoc (Dict dd)) → dict_get k dd = Some v →
  subscript d k w = (w, Return v).
Proof.
  intros Hd Hk. unfold subscript, load_doc, lift, bind, getitem. by rewrite Hd, Hk.
Qed.

Lemma from_dict_run v recs w :
  pd.records_of v = Some recs →
  DataFrame_from_dict v w
  = (set_heap (heap w ++ [OFrame (pd.from_records recs)]) w, Return (length (heap w))).
Proof.
  intros Hv. unfold DataFrame_from_dict, pd.from_dict, lift, bind, alloc. by rewrite Hv.
Qed.

Lemma table_run d k w dd v recs :
  heap w !! d = Some (ODoc (Dict dd)) → dict_get k dd = Some v →
  pd.records_of v = Some recs →
  (x <- subscript d k ;; DataFrame_from_dict x) w
  = (set_heap (heap w ++ [OFrame (pd.from_records recs)]) w, Return (length (heap w))).
Proof.
  intros Hd Hk Hv. erewrite bind_Return; [|by eapply subscript_run]. by apply from_dict_run.
Qed.

Lemma insert_last {A} (l : list A) x y : <[length l := x]> (l ++ [y]) = l ++ [x].
Proof. rewrite <- (Nat.add_0_r (length l)) at 1. by rewrite insert_app_r. Qed.

Lemma location_run d w dd vp ps :
  heap w !! d = Some (ODoc (Dict dd)) → dict_get "plaatsnaam" dd = Some vp →
  pd.records_of vp = Some ps →
  (x <- subscript d "plaatsnaam" ;;
   df <- DataFrame_from_dict x ;;
   s <- getattr df "plaats" ;;
   lift (pd.series_getitem s 0)) w
  = (set_heap (heap w ++ [OFrame (pd.from_records ps)]) w, location_of ps).
Proof.
  intros Hd Hk Hv. erewrite bind_Return; [|by eapply subscript_run].
  erewrite bind_Return; [|by apply from_dict_run].
  unfold getattr, load_frame, lift, bind, location_of. cbn [heap set_heap].
  rewrite list_lookup_middle by done.
  by destruct (pd.get_column (pd.from_records ps) "plaats") as [s| |].
Qed.

Section master.
Context `{pd.NumericParser}.

(** The extractor on a document of the shape of the sun dataset: how it
    ends, and the store it leaves when it returns. *)
Lemma extract_outcome w d doc ps cs fs :
  heap w !! d = Some (ODoc doc) →
  members doc = Some (ps, cs, fs) →
  ∃ w',
    sundata.extract_Sun_dataframes_from_dict d w
    = (w', sun_outcome ps cs fs (length (heap w)))
    ∧ ∀ l cur fc,
        location_of ps = Return l →
        run_steps current_steps (pd.from_records cs) = Return cur →
        run_steps forecast_steps (pd.from_records fs) = Return fc →
        w' = set_heap (heap w ++ [OFrame (pd.from_records ps); OFrame cur; OFrame fc]) w.
Proof.
  intros Hd Hm.
  destruct (members_spec _ _ _ _ Hm) as (dd & vp & vc & vf & -> & Hvp & Hps & Hvc & Hrc & Hvf & Hrf).
  rewrite extract_eq. unfold sun_outcome.
  (* the location *)
  set (w1 := set_heap (heap w ++ [OFrame (pd.from_records ps)]) w).
  unfold bind at 1. erewrite location_run by done. fold w1.
  destruct (location_of ps) as [l|e|]; cbn [obind]; [|by eexists..].
  (* the current table *)
  assert (Hd1 : heap w1 !! d = Some (ODoc (Dict dd))).
  { cbn. rewrite lookup_app_l; [done|]. by eapply lookup_lt_Some. }
  set (w2 := set_heap (heap w1 ++ [OFrame (pd.from_records cs)]) w1).
  assert (Hlen1 : length (heap w1) = S (length (heap w))).
  { cbn. rewrite length_app. cbn. lia. }
  assert (Hc2 : heap w2 !! length (heap w1) = Some (OFrame (pd.from_records cs))).
  { cbn [w2 heap set_heap]. by apply list_lookup_middle. }
  erewrite bind_Return; [|by eapply table_run]. fold w2.
  match goal with |- context [exec ?a ?st ?k ?w] =>
    pose proof (exec_spec a st k w _ Hc2) as Hexec end.
  destruct (run_steps current_steps (pd.from_records cs)) as [cur|e|]; cbn [obind];
    [|destruct Hexec as [w' Hexec]; exists w'; split; [by rewrite Hexec|done]..].
  rewrite Hexec. clear Hexec.
  set (w3 := set_heap _ w2).
  (* the forecast table *)
  assert (Hh3 : heap w3 = heap w ++ [OFrame (pd.from_records ps); OFrame cur]).
  { cbn [w3 w2 heap set_heap]. rewrite insert_last. cbn [w1 heap set_heap].
    by rewrite <- app_assoc. }
  assert (Hd3 : heap w3 !! d = Some (ODoc (Dict dd))).
  { rewrite Hh3. rewrite lookup_app_l; [done|]. by eapply lookup_lt_Some. }
  set (w4 := set_heap (heap w3 ++ [OFrame (pd.from_records fs)]) w3).
  erewrite bind_Return; [|by eapply table_run]. fold w4.
  assert (Hc4 : heap w4 !! length (heap w3) = Some (OFrame (pd.from_records fs))).
  { cbn [w4 heap set_heap]. by apply list_lookup_middle. }
  assert (Hlen3 : length (heap w3) = S (S (length (heap w)))).
  { rewrite Hh3, length_app. cbn. lia. }
  match goal with |- context [exec ?a ?st ?k ?w] =>
    pose proof (exec_spec a st k w _ Hc4) as Hexec end.
  destruct (run_steps forecast_steps (pd.from_records fs)) as [fc|e|]; cbn [obind];
    [|destruct Hexec as [w' Hexec]; exists w'; split; [by rewrite Hexec|done]..].
  rewrite Hexec. clear Hexec. unfold ret. eexists. split.
  { apply (f_equal2 pair); [reflexivity|]. by rewrite Hlen1, Hlen3. }
  intros l' cur' fc' _ [= <-] [= <-].
  cbn [w4 heap set_heap]. rewrite insert_last, Hh3, <- app_assoc. cbn [app].
  by destruct w.
Qed.

End master.

(** ** When the extractor returns *)

Lemma traverse_Return_all {A B} (f : A → outcome B) (l : list A) (l' : list B) :
  traverse f l = Return l' → ∀ x, x ∈ l → ∃ y, f x = Return y.
Proof.
  revert l'. induction l as [|a l IH]; intros l' Hl x Hx; [by apply elem_of_nil in Hx|].
  cbn in Hl. destruct (f a) as [b| |] eqn:Ea; [|done..]. cbn in Hl.
  destruct (traverse f l) as [bs| |]; [|done..].
  apply elem_of_cons in Hx as [->|Hx]; [by exists b|]. by eapply IH.
Qed.

Section inv.
Context `{pd.NumericParser}.

Lemma denote_frame_of_inv st F recs df' :
  denote st (frame_of F recs) = Return df' → step_ok st F recs.
Proof.
  destruct st as [c|c|c]; cbn [denote]; unfold splice, convert, step_ok; cbn [target].
  - rewrite get_column_frame_of. case_bool_decide as Hcet; [|done]. cbn [obind].
    unfold pd.str_slice. destruct (pd.has_str _) eqn:Hstr; [|done]. cbn [obind].
    rewrite get_column_frame_of. case_bool_decide as Hc; [|done]. cbn [obind].
    unfold pd.add, pd.add_str. rewrite !map_map, traverse_zip_map.
    destruct (traverse _ recs) as [s'| |] eqn:Et; [|done..]. intros _.
    split; [done|]. split; [by intros ? [= <-]|].
    intros r Hr. by apply (traverse_Return_all _ _ _ Et).
  - rewrite get_column_frame_of. case_bool_decide as Hc; [|done]. cbn [obind].
    unfold pd.to_datetime.
    destruct (traverse _ _) as [s'| |] eqn:Et; [|done..]. intros _.
    split; [done|]. split; [done|]. intros r Hr. cbn [cell_step].
    apply (traverse_Return_all _ _ _ Et). apply list_elem_of_fmap. by exists r.
  - rewrite get_column_frame_of. case_bool_decide as Hc; [|done]. cbn [obind].
    unfold pd.to_numeric.
    destruct (traverse _ _) as [s'| |] eqn:Et; [|done..]. intros _.
    split; [done|]. split; [done|]. intros r Hr. cbn [cell_step].
    apply (traverse_Return_all _ _ _ Et). apply list_elem_of_fmap. by exists r.
Qed.

Lemma run_steps_Return_inv steps F recs df' :
  run_steps steps (frame_of F recs) = Return df' →
  steps_ok steps F recs ∧ df' = frame_of (fold_left apply_step steps F) recs.
Proof.
  revert F. induction steps as [|st steps IH]; intros F; cbn [run_steps steps_ok fold_left].
  - by intros [= <-].
  - destruct (denote st (frame_of F recs)) as [df1| |] eqn:Est; [|done..]. cbn [obind].
    pose proof (denote_frame_of_inv _ _ _ _ Est) as Hok.
    rewrite denote_frame_of in Est by done. injection Est as <-.
    intros [? ->]%IH. done.
Qed.










(** When the extractor returns: every statement went through on every row,
    and the store holds the three new tables. *)
Lemma extract_Return_inv w d doc ps cs fs w' l c f :
  heap w !! d = Some (ODoc doc) →
  members doc = Some (ps, cs, fs) →
  sundata.extract_Sun_dataframes_from_dict d w = (w', Return (l, c, f)) →
  location_of ps = Return l
  ∧ steps_ok current_steps pd.cell_of cs ∧ steps_ok forecast_steps pd.cell_of fs
  ∧ c = S (length (heap w)) ∧ f = S (S (length (heap w)))
  ∧ w' = set_heap (heap w ++ [OFrame (pd.from_records ps);
                              OFrame (frame_of current_cells cs);
                              OFrame (frame_of forecast_cells fs)]) w.
Proof.
  intros Hd Hm Hx.
  destruct (extract_outcome w d doc ps cs fs Hd Hm) as (w1 & Hx1 & Hw1).
  rewrite Hx in Hx1. injection Hx1 as -> Ho. unfold sun_outcome in Ho.
  destruct (location_of ps) as [l1| |] eqn:El; [|done..]. cbn [obind] in Ho.
  destruct (run_steps current_steps _) as [cur| |] eqn:Ec; [|done..]. cbn [obind] in Ho.
  destruct (run_steps forecast_steps _) as [fc| |] eqn:Ef; [|done..]. cbn [obind] in Ho.
  injection Ho as -> -> ->.
  rewrite from_records_frame_of in Ec, Ef.
  apply run_steps_Return_inv in Ec as [Hokc ->]. apply run_steps_Return_inv in Ef as [Hokf ->].
  split; [done|]. split; [done|]. split; [done|]. split; [done|]. split; [done|].
  by eapply Hw1.
Qed.

Lemma extract_Return w d doc ps cs fs l :
  heap w !! d = Some (ODoc doc) →
  members doc = Some (ps, cs, fs) →
  location_of ps = Return l →
  steps_ok current_steps pd.cell_of cs → steps_ok forecast_steps pd.cell_of fs →
  sundata.extract_Sun_dataframes_from_dict d w
  = (set_heap (heap w ++ [OFrame (pd.from_records ps);
                          OFrame (frame_of current_cells cs);
                          OFrame (frame_of forecast_cells fs)]) w,
     Return (l, S (length (heap w)), S (S (length (heap w))))).
Proof.
  intros Hd Hm Hl Hc Hf.
  destruct (extract_outcome w d doc ps cs fs Hd Hm) as (w1 & Hx1 & Hw1).
  assert (Ec : run_steps current_steps (pd.from_records cs)
               = Return (frame_of current_cells cs)).
  { rewrite from_records_frame_of. by apply run_steps_frame_of. }
  assert (Ef : run_steps forecast_steps (pd.from_records fs)
               = Return (frame_of forecast_cells fs)).
  { rewrite from_records_frame_of. by apply run_steps_frame_of. }
  rewrite Hx1. unfold sun_outcome. rewrite Hl, Ec, Ef. cbn [obind].
  f_equal. by eapply Hw1.
Qed.

Lemma steps_ok_nonempty st steps F recs : steps_ok (st :: steps) F recs → recs ≠ [].
Proof. intros [(Hc & _) _] ->. by apply elem_of_nil in Hc. Qed.

Lemma location_of_first p ps :
  has_field pd.is_str p "plaats" = true →
  location_of (p :: ps) = Return (pd.cell_of "plaats" p).
Proof.
  intros Hp. unfold location_of. rewrite from_records_frame_of, get_column_frame_of.
  rewrite bool_decide_eq_true_2; [done|]. eapply has_field_label; [left|done].
Qed.

End inv.

(** ** What the extractors leave alone *)

Lemma keeps_ret {A} n (Q : A → Prop) a : Q a → keeps n Q (ret a).
Proof. intros Ha w Hn. cbn. repeat split; try done. by intros ? [= <-]. Qed.

Lemma keeps_lift {A} n (o : outcome A) : keeps n any (lift o).
Proof. intros w Hn. by cbn. Qed.

Lemma keeps_bind {A B} n (Q : A → Prop) (R : B → Prop) (m : M A) (k : A → M B) :
  keeps n Q m → (∀ a, Q a → keeps n R (k a)) → keeps n R (bind m k).
Proof.
  intros Hm Hk w Hn. destruct (Hm w Hn) as (Hlen & Htake & Hdisk & Hsent & HQ).
  unfold bind. destruct (m w) as [w1 [a|e|]]; cbn [fst snd] in *; try done.
  destruct (Hk a (HQ a eq_refl) w1 Hlen) as (? & ? & ? & ? & ?).
  repeat split; try congruence. done.
Qed.

Lemma keeps_alloc n o : keeps n (fun a => n ≤ a) (alloc o).
Proof.
  intros w Hn. unfold alloc. cbn. rewrite length_app. repeat split; try done; try lia.
  - by rewrite take_app_le.
  - by intros ? [= <-].
Qed.

Lemma keeps_load_doc n a : keeps n any (load_doc a).
Proof. intros w Hn. unfold load_doc. by destruct (heap w !! a) as [[]|]. Qed.

Lemma keeps_load_frame n a : keeps n any (load_frame a).
Proof. intros w Hn. unfold load_frame. by destruct (heap w !! a) as [[]|]. Qed.

Lemma keeps_store_frame n a df : n ≤ a → keeps n any (store_frame a df).
Proof.
  intros Ha w Hn. unfold store_frame. cbn. rewrite length_insert.
  repeat split; try done. by rewrite take_insert_ge.
Qed.

Lemma keeps_subscript n d k : keeps n any (subscript d k).
Proof.
  unfold subscript. eapply keeps_bind; [apply keeps_load_doc|]. intros v _. apply keeps_lift.
Qed.

Lemma keeps_from_dict n v : keeps n (fun a => n ≤ a) (DataFrame_from_dict v).
Proof.
  unfold DataFrame_from_dict. eapply keeps_bind; [apply keeps_lift|]. intros df _.
  apply keeps_alloc.
Qed.

Lemma keeps_getattr n a c : keeps n any (getattr a c).
Proof.
  unfold getattr. eapply keeps_bind; [apply keeps_load_frame|]. intros v _. apply keeps_lift.
Qed.

Lemma keeps_setattr n a c s : n ≤ a → keeps n any (setattr a c s).
Proof.
  intros Ha. unfold setattr. eapply keeps_bind; [apply keeps_load_frame|]. intros t _.
  eapply keeps_bind; [apply keeps_lift|]. intros t' _. by apply keeps_store_frame.
Qed.

Ltac keeps_step :=
  first
    [ apply keeps_lift
    | apply keeps_getattr
    | apply keeps_subscript
    | apply keeps_from_dict
    | apply keeps_setattr; assumption
    | apply keeps_ret; exact I
    | eapply keeps_bind; [|intros ? ?] ].

Lemma keeps_extract_Sun `{pd.NumericParser} n d :
  keeps n any (sundata.extract_Sun_dataframes_from_dict d).
Proof. unfold sundata.extract_Sun_dataframes_from_dict. repeat keeps_step. Qed.

Lemma keeps_extract_hourly n d :
  keeps n any (uurverwachting.extract_hourly_forecast_dataframes_from_dict d).
Proof.
  unfold uurverwachting.extract_hourly_forecast_dataframes_from_dict. repeat keeps_step.
Qed.

(** ** Cells and labels of the tables *)

Lemma cell_frame_of F recs c i :
  c ∈ pd.column_labels recs → cell (frame_of F recs) c i = F c <$> recs !! i.
Proof.
  intros Hc. unfold cell, frame_of. cbn. rewrite dict_get_map_key.
  rewrite bool_decide_eq_true_2 by done. cbn. apply list_lookup_fmap.
Qed.

Lemma columns_frame_of F recs : pd.columns (frame_of F recs) = pd.column_labels recs.
Proof.
  unfold pd.columns, frame_of. cbn. rewrite map_map. cbn. apply map_id.
Qed.

Lemma first_occurrences_filter (P : string → Prop) `{∀ x, Decision (P x)} l :
  first_occurrences (filter P l) = filter P (first_occurrences l).
Proof.
  induction l as [|k l IH]; [done|]. cbn [first_occurrences].
  rewrite filter_cons. destruct (decide (P k)) as [Hk|Hk].
  - cbn [first_occurrences]. rewrite filter_cons, decide_True by done.
    rewrite IH. f_equal.
    rewrite !list_filter_filter. apply list_filter_iff. intros x.
    split; intros [? ?]; by split.
  - rewrite filter_cons, decide_False by done. rewrite IH.
    rewrite list_filter_filter. apply list_filter_iff. intros x.
    split; [|by intros [? ?]]. intros Hx. split; [done|]. by intros ->.
Qed.

Lemma first_seen_spec seen keys :
  pd.first_seen seen keys = seen ++ first_occurrences (filter (fun k => k ∉ seen) keys).
Proof.
  unfold pd.first_seen. revert seen. induction keys as [|x keys IH]; intros seen;
    cbn [fold_left].
  - by rewrite app_nil_r.
  - rewrite IH. rewrite filter_cons. case_bool_decide as Hx.
    + rewrite decide_False; [done|]. by intros Hn.
    + rewrite decide_True by done. cbn [first_occurrences].
      rewrite <- app_assoc. cbn [app]. do 2 f_equal.
      rewrite <- first_occurrences_filter. f_equal.
      rewrite list_filter_filter. apply list_filter_iff. intros k.
      rewrite elem_of_app, elem_of_cons, elem_of_nil. split.
      * intros Hk. split; [|by intros ?; apply Hk; left].
        intros ->. apply Hk. right. by left.
      * intros [Hne Hk] [?|[->|[]]]; done.
Qed.

Lemma first_seen_app seen a b :
  pd.first_seen (pd.first_seen seen a) b = pd.first_seen seen (a ++ b).
Proof. unfold pd.first_seen. by rewrite fold_left_app. Qed.

(** The labels are the keys of the records in the order in which they are
    first met, reading the records one after the other. *)
Lemma column_labels_first_occurrences recs :
  pd.column_labels recs = first_occurrences (concat (map (map fst) recs)).
Proof.
  unfold pd.column_labels.
  assert (G : ∀ acc, fold_left (fun acc r => pd.first_seen acc (map fst r)) recs acc
                     = pd.first_seen acc (concat (map (map fst) recs))).
  { induction recs as [|r recs IH]; intros acc; [done|]. cbn. by rewrite IH, first_seen_app. }
  rewrite G, first_seen_spec. cbn [app]. f_equal. clear G.
  induction (concat _) as [|k l IH]; [done|].
  rewrite filter_cons, decide_True by apply not_elem_of_nil.
  by rewrite IH.
Qed.

(** ** The cells of the tables of a well-formed document *)

Lemma has_field_get p r k v :
  has_field p r k = true → pd.cell_of k r = v → dict_get k r = Some v.
Proof. intros (v' & Hv & _ & Hc)%has_field_spec <-. by rewrite Hc. Qed.

Section cells.
Context `{pd.NumericParser}.

Lemma current_cells_times r :
  current_record r = true →
  ∃ cet sr ss t_cet t_sr t_ss,
    dict_get "cet" r = Some (SStr cet) ∧ dict_get "sr" r = Some (SStr sr)
    ∧ dict_get "ss" r = Some (SStr ss)
    ∧ strptime cet = Some t_cet
    ∧ strptime ((substring 0 10 cet +:+ " ") +:+ sr) = Some t_sr
    ∧ strptime ((substring 0 10 cet +:+ " ") +:+ ss) = Some t_ss
    ∧ current_cells "cet" r = STimestamp t_cet
    ∧ current_cells "sr" r = STimestamp t_sr
    ∧ current_cells "ss" r = STimestamp t_ss
    ∧ same_date t_sr t_cet ∧ strftime_HM t_sr = sr
    ∧ same_date t_ss t_cet ∧ strftime_HM t_ss = ss.
Proof.
  intros (Hcet & Hsr & Hss & Hnum)%current_record_spec.
  destruct (splice_field r "sr" Hcet Hsr)
    as (a & b1 & ta & t1 & Ea & Eb1 & Hta & Hadd1 & Ht1 & Hdt1 & Hd1 & Hhm1 & _).
  destruct (splice_field r "ss" Hcet Hss)
    as (a' & b2 & ta' & t2 & Ea' & Eb2 & Hta' & Hadd2 & Ht2 & Hdt2 & Hd2 & Hhm2 & _).
  rewrite Ea in Ea'. injection Ea' as <-. rewrite Hta in Hta'. injection Hta' as <-.
  destruct (to_datetime_field r Hcet) as (a'' & ta'' & Ea'' & Hta'' & Hdt).
  rewrite Ea in Ea''. injection Ea'' as <-. rewrite Hta in Hta''. injection Hta'' as <-.
  exists a, b1, b2, ta, t1, t2.
  split; [by eapply has_field_get|]. split; [by eapply has_field_get|].
  split; [by eapply has_field_get|]. split; [done|]. split; [done|]. split; [done|].
  split; [|split; [|split]].
  - eval_cells. cbn [cell_step]. by rewrite Hdt.
  - eval_cells. cbn [cell_step]. eval_cells. rewrite Hadd1. cbn [force]. by rewrite Hdt1.
  - eval_cells. cbn [cell_step]. eval_cells. rewrite Hadd2. cbn [force]. by rewrite Hdt2.
  - done.
Qed.

Lemma current_cells_numeric r c :
  current_record r = true → c ∈ current_numeric →
  is_numeric (current_cells c r) = true.
Proof.
  intros (Hcet & Hsr & Hss & Hnum)%current_record_spec Hc.
  destruct (to_numeric_field r c (Hnum c Hc)) as (x & Hx & Hnx).
  unfold current_numeric in Hc.
  repeat (apply elem_of_cons in Hc as [->|Hc]); try (by apply elem_of_nil in Hc).
  all: eval_cells; cbn [cell_step]; eval_cells; by rewrite Hx.
Qed.

Lemma forecast_cells_cet r :
  forecast_record r = true →
  ∃ cet t, dict_get "cet" r = Some (SStr cet) ∧ strptime cet = Some t
           ∧ forecast_cells "cet" r = STimestamp t.
Proof.
  intros (Hcet & Hnum)%forecast_record_spec.
  destruct (to_datetime_field r Hcet) as (a & ta & Ea & Hta & Hdt).
  exists a, ta. split; [by eapply has_field_get|]. split; [done|].
  eval_cells. cbn [cell_step]. by rewrite Hdt.
Qed.

Lemma forecast_cells_numeric r c :
  forecast_record r = true → c ∈ forecast_numeric →
  is_numeric (forecast_cells c r) = true.
Proof.
  intros (Hcet & Hnum)%forecast_record_spec Hc.
  destruct (to_numeric_field r c (Hnum c Hc)) as (x & Hx & Hnx).
  unfold forecast_numeric in Hc.
  repeat (apply elem_of_cons in Hc as [->|Hc]); try (by apply elem_of_nil in Hc).
  all: eval_cells; cbn [cell_step]; eval_cells; by rewrite Hx.
Qed.

Lemma steps_ok_targets steps F recs st :
  steps_ok steps F recs → st ∈ steps → target st ∈ pd.column_labels recs.
Proof.
  revert F. induction steps as [|st' steps IH]; intros F Hok Hst; [by apply elem_of_nil in Hst|].
  destruct Hok as [(Hc & _) Hrest].
  apply elem_of_cons in Hst as [->|Hst]; [done|]. by eapply IH.
Qed.

(** What a well-formed document makes of the extractor. *)
Lemma well_formed_spec doc ps cs fs :
  members doc = Some (ps, cs, fs) → well_formed doc = true →
  ∃ p ps', ps = p :: ps' ∧ has_field pd.is_str p "plaats" = true
           ∧ (∀ r, r ∈ cs → current_record r = true)
           ∧ (∀ r, r ∈ fs → forecast_record r = true).
Proof.
  intros Hm. unfold well_formed. rewrite Hm. destruct ps as [|p ps']; [done|].
  rewrite !andb_true_iff, !forallb_forall. intros [[Hp Hc] Hf].
  exists p, ps'. repeat split; try done; intros r Hr; [apply Hc|apply Hf];
    by apply list_elem_of_In.
Qed.

Lemma extract_well_formed w d doc ps cs fs :
  heap w !! d = Some (ODoc doc) →
  members doc = Some (ps, cs, fs) →
  well_formed doc = true → cs ≠ [] → fs ≠ [] →
  ∃ p, head ps = Some p ∧ has_field pd.is_str p "plaats" = true ∧
  sundata.extract_Sun_dataframes_from_dict d w
  = (set_heap (heap w ++ [OFrame (pd.from_records ps);
                          OFrame (frame_of current_cells cs);
                          OFrame (frame_of forecast_cells fs)]) w,
     Return (pd.cell_of "plaats" p, S (length (heap w)), S (S (length (heap w))))).
Proof.
  intros Hd Hm Hwf Hcs Hfs.
  destruct (well_formed_spec _ _ _ _ Hm Hwf) as (p & ps' & -> & Hp & Hc & Hf).
  exists p. split; [done|]. split; [done|].
  unfold well_formed in Hwf. rewrite Hm in Hwf.
  apply andb_true_iff in Hwf as [Hwf Hf']. apply andb_true_iff in Hwf as [_ Hc'].
  apply (extract_Return w d doc (p :: ps') cs fs); try done.
  - by apply location_of_first.
  - by apply current_steps_ok.
  - by apply forecast_steps_ok.
Qed.

(** The extractor returns only when both lists have records; the store
    then holds the two tables, with a column for every statement. *)
Lemma extract_Return_tables w d doc ps cs fs w' l c f :
  heap w !! d = Some (ODoc doc) →
  members doc = Some (ps, cs, fs) →
  sundata.extract_Sun_dataframes_from_dict d w = (w', Return (l, c, f)) →
  cs ≠ [] ∧ fs ≠ []
  ∧ heap w' !! c = Some (OFrame (frame_of current_cells cs))
  ∧ heap w' !! f = Some (OFrame (frame_of forecast_cells fs))
  ∧ (∀ st, st ∈ current_steps → target st ∈ pd.column_labels cs)
  ∧ (∀ st, st ∈ forecast_steps → target st ∈ pd.column_labels fs).
Proof.
  intros Hd Hm Hx.
  destruct (extract_Return_inv _ _ _ _ _ _ _ _ _ _ Hd Hm Hx) as (Hl & Hc & Hf & -> & -> & ->).
  split; [by eapply steps_ok_nonempty|]. split; [by eapply steps_ok_nonempty|].
  cbn [heap set_heap].
  split. { rewrite lookup_app_r by lia. by replace (S _ - _) with 1 by lia. }
  split. { rewrite lookup_app_r by lia. by replace (S (S _) - _) with 2 by lia. }
  split; intros st Hst; by eapply steps_ok_targets.
Qed.

End cells.

(** * The extractor of the sun dataset on well-formed documents *)

Section well_formed.
Context `{pd.NumericParser}.

(** C1. On a well-formed sun-dataset document the extractor returns when
    both lists have records, and whenever it returns, every row of the
    current table has under [sr] (and [ss]) the timestamp parsed, with
    format [%d-%m-%Y %H:%M], from the first 10 characters of the row's own
    [cet] string, a blank and the row's [sr] ([ss]) string: its date is
    that of the row's [cet], its time of day prints as the original
    string.  The [cet] column, spliced from as a string, ends as the
    timestamp parsed from that string. *)
Theorem sunrise_sunset_spliced w d doc ps cs fs :
  heap w !! d = Some (ODoc doc) →
  members doc = Some (ps, cs, fs) →
  well_formed doc = true →
  (cs ≠ [] → fs ≠ [] →
   ∃ w' location current forecast,
     sundata.extract_Sun_dataframes_from_dict d w
     = (w', Return (location, current, forecast)))
  ∧ ∀ w' location current forecast,
      sundata.extract_Sun_dataframes_from_dict d w
      = (w', Return (location, current, forecast)) →
      ∃ cur,
        heap w' !! current = Some (OFrame cur)
        ∧ ∀ i r, cs !! i = Some r →
            ∃ cet sr ss t_cet t_sr t_ss,
              dict_get "cet" r = Some (SStr cet)
              ∧ dict_get "sr" r = Some (SStr sr)
              ∧ dict_get "ss" r = Some (SStr ss)
              ∧ strptime cet = Some t_cet
              ∧ strptime ((substring 0 10 cet +:+ " ") +:+ sr) = Some t_sr
              ∧ strptime ((substring 0 10 cet +:+ " ") +:+ ss) = Some t_ss
              ∧ cell cur "cet" i = Some (STimestamp t_cet)
              ∧ cell cur "sr" i = Some (STimestamp t_sr)
              ∧ cell cur "ss" i = Some (STimestamp t_ss)
              ∧ same_date t_sr t_cet ∧ strftime_HM t_sr = sr
              ∧ same_date t_ss t_cet ∧ strftime_HM t_ss = ss.
Proof.
  intros Hd Hm Hwf. split.
  - intros Hcs Hfs.
    destruct (extract_well_formed w d doc ps cs fs Hd Hm Hwf Hcs Hfs) as (p & _ & _ & Hx).
    eauto.
  - intros w' l c f Hx.
    destruct (extract_Return_tables _ _ _ _ _ _ _ _ _ _ Hd Hm Hx)
      as (_ & _ & Hc & _ & Hlab & _).
    destruct (well_formed_spec _ _ _ _ Hm Hwf) as (p & ps' & _ & _ & Hrec & _).
    eexists. split; [exact Hc|]. intros i r Hr.
    assert (Hrin : r ∈ cs) by (by eapply list_elem_of_lookup_2).
    destruct (current_cells_times r (Hrec r Hrin))
      as (cet & sr & ss & t_cet & t_sr & t_ss & ? & ? & ? & ? & ? & ? & Ecet & Esr & Ess & ?).
    exists cet, sr, ss, t_cet, t_sr, t_ss.
    do 6 (split; [done|]).
    split. { rewrite cell_frame_of, Hr by (apply (Hlab (ToDatetime "cet")); in_list).
             cbn [fmap option_fmap option_map]. by rewrite Ecet. }
    split. { rewrite cell_frame_of, Hr by (apply (Hlab (Splice "sr")); in_list).
             cbn [fmap option_fmap option_map]. by rewrite Esr. }
    split. { rewrite cell_frame_of, Hr by (apply (Hlab (Splice "ss")); in_list).
             cbn [fmap option_fmap option_map]. by rewrite Ess. }
    done.
Qed.

(** C5. On a well-formed sun-dataset document, whenever the extractor
    returns (and it does when both lists have records), the columns time,
    elev, az, temp, gr, sd, tc, vis and prec of the current table, and these
    with lc, mc and hc of the forecast table, hold numbers in every row,
    never a string, and the cet column of both tables holds timestamps. *)
Theorem columns_typed w d doc ps cs fs :
  heap w !! d = Some (ODoc doc) →
  members doc = Some (ps, cs, fs) →
  well_formed doc = true →
  (cs ≠ [] → fs ≠ [] →
   ∃ w' location current forecast,
     sundata.extract_Sun_dataframes_from_dict d w
     = (w', Return (location, current, forecast)))
  ∧ ∀ w' location current forecast,
      sundata.extract_Sun_dataframes_from_dict d w
      = (w', Return (location, current, forecast)) →
      ∃ cur fc,
        heap w' !! current = Some (OFrame cur)
        ∧ heap w' !! forecast = Some (OFrame fc)
        ∧ (∀ i k, i < pd.nrows cur → k ∈ current_numeric →
             ∃ v, cell cur k i = Some v ∧ is_numeric v = true ∧ pd.is_str v = false)
        ∧ (∀ i, i < pd.nrows cur → ∃ t, cell cur "cet" i = Some (STimestamp t))
        ∧ (∀ i k, i < pd.nrows fc → k ∈ forecast_numeric →
             ∃ v, cell fc k i = Some v ∧ is_numeric v = true ∧ pd.is_str v = false)
        ∧ (∀ i, i < pd.nrows fc → ∃ t, cell fc "cet" i = Some (STimestamp t)).
Proof.
  intros Hd Hm Hwf. split.
  - intros Hcs Hfs.
    destruct (extract_well_formed w d doc ps cs fs Hd Hm Hwf Hcs Hfs) as (p & _ & _ & Hx).
    eauto.
  - intros w' l c f Hx.
    destruct (extract_Return_tables _ _ _ _ _ _ _ _ _ _ Hd Hm Hx)
      as (_ & _ & Hc & Hf & Hlabc & Hlabf).
    destruct (well_formed_spec _ _ _ _ Hm Hwf) as (p & ps' & _ & _ & Hrecc & Hrecf).
    eexists _, _. split; [exact Hc|]. split; [exact Hf|].
    cbn [frame_of pd.nrows].
    split; [|split; [|split]].
    + intros i k Hi Hk. destruct (lookup_lt_is_Some_2 cs i Hi) as [r Hr].
      assert (Hrin : r ∈ cs) by (by eapply list_elem_of_lookup_2).
      exists (current_cells k r).
      pose proof (current_cells_numeric r k (Hrecc r Hrin) Hk) as Hn.
      split; [|split; [done|by destruct (current_cells k r)]].
      rewrite cell_frame_of, Hr; [done|].
      apply (Hlabc (ToNumeric k)). unfold current_numeric in Hk.
      repeat (apply elem_of_cons in Hk as [->|Hk]); try (by apply elem_of_nil in Hk); in_list.
    + intros i Hi. destruct (lookup_lt_is_Some_2 cs i Hi) as [r Hr].
      assert (Hrin : r ∈ cs) by (by eapply list_elem_of_lookup_2).
      destruct (current_cells_times r (Hrecc r Hrin))
        as (cet & sr & ss & t_cet & t_sr & t_ss & _ & _ & _ & _ & _ & _ & Ecet & _).
      exists t_cet. rewrite cell_frame_of, Hr by (apply (Hlabc (ToDatetime "cet")); in_list).
      cbn [fmap option_fmap option_map]. by rewrite Ecet.
    + intros i k Hi Hk. destruct (lookup_lt_is_Some_2 fs i Hi) as [r Hr].
      assert (Hrin : r ∈ fs) by (by eapply list_elem_of_lookup_2).
      exists (forecast_cells k r).
      pose proof (forecast_cells_numeric r k (Hrecf r Hrin) Hk) as Hn.
      split; [|split; [done|by destruct (forecast_cells k r)]].
      rewrite cell_frame_of, Hr; [done|].
      apply (Hlabf (ToNumeric k)). unfold forecast_numeric in Hk.
      repeat (apply elem_of_cons in Hk as [->|Hk]); try (by apply elem_of_nil in Hk); in_list.
    + intros i Hi. destruct (lookup_lt_is_Some_2 fs i Hi) as [r Hr].
      assert (Hrin : r ∈ fs) by (by eapply list_elem_of_lookup_2).
      destruct (forecast_cells_cet r (Hrecf r Hrin)) as (cet & t & _ & _ & Ecet).
      exists t. rewrite cell_frame_of, Hr by (apply (Hlabf (ToDatetime "cet")); in_list).
      cbn [fmap option_fmap option_map]. by rewrite Ecet.
Qed.

(** C2, as amended.  On a well-formed sun-dataset document whose current
    and forecast lists both have records, the extractor returns the string
    under [plaats] of the first record of [plaatsnaam], a current table with
    as many rows as the current list has records and a forecast table with
    as many rows as the forecast list has records; the columns of each are
    the keys of its records in the order in which they are first seen. *)
Theorem extract_shape w d doc ps cs fs :
  heap w !! d = Some (ODoc doc) →
  members doc = Some (ps, cs, fs) →
  well_formed doc = true →
  cs ≠ [] → fs ≠ [] →
  ∃ w' p name current forecast cur fc,
    head ps = Some p ∧ dict_get "plaats" p = Some (SStr name)
    ∧ sundata.extract_Sun_dataframes_from_dict d w
      = (w', Return (SStr name, current, forecast))
    ∧ heap w' !! current = Some (OFrame cur)
    ∧ heap w' !! forecast = Some (OFrame fc)
    ∧ pd.nrows cur = length cs ∧ pd.nrows fc = length fs
    ∧ pd.columns cur = first_occurrences (concat (map (map fst) cs))
    ∧ pd.columns fc = first_occurrences (concat (map (map fst) fs)).
Proof.
  intros Hd Hm Hwf Hcs Hfs.
  destruct (extract_well_formed w d doc ps cs fs Hd Hm Hwf Hcs Hfs) as (p & Hp & Hpl & Hx).
  destruct (has_field_spec _ _ _ Hpl) as (v & Hv & Hstr & Hcell).
  destruct v as [| | |name| |]; try done.
  rewrite Hcell in Hx.
  eexists _, p, name, _, _, _, _. split; [done|]. split; [done|]. split; [exact Hx|].
  cbn [heap set_heap].
  split. { rewrite lookup_app_r by lia. by replace (S _ - _) with 1 by lia. }
  split. { rewrite lookup_app_r by lia. by replace (S (S _) - _) with 2 by lia. }
  split; [done|]. split; [done|].
  by rewrite !columns_frame_of, !column_labels_first_occurrences.
Qed.

End well_formed.

(** * Documents the extractor of the sun dataset stops on, and gaps it fills *)

(** ** Documents on which the extractor raises *)





Section raises.
Context `{pd.NumericParser}.










End raises.



(** ** Records that lack a field *)



Section gaps.
Context `{pd.NumericParser}.










End gaps.



Section fields.
Context `{pd.NumericParser}.


End fields.





(** * The hourly extractor and the writer *)

(** ** The hourly extractor, the writer and the readers *)

Lemma dict_get_map_snd {V W} (g : V → W) (d : list (string * V)) c :
  dict_get c (map (fun kv => (fst kv, g (snd kv))) d) = g <$> dict_get c d.
Proof.
  induction d as [|[k v] d IH]; [done|]. cbn. by destruct (String.eqb k c).
Qed.




Lemma to_dict_length df : length (pd.to_dict df) = pd.nrows df.
Proof. unfold pd.to_dict. by rewrite length_map, length_seq. Qed.

Lemma to_dict_lookup df i row :
  pd.to_dict df !! i = Some row →
  i < pd.nrows df
  ∧ row = map (fun kv => (fst kv, default NaN (snd kv !! i))) (pd.data df).
Proof.
  unfold pd.to_dict. rewrite list_lookup_fmap.
  destruct (seq 0 (pd.nrows df) !! i) as [j|] eqn:Ej; [|done].
  apply lookup_seq in Ej as [-> ?]. cbn. by intros [= <-].
Qed.

Lemma to_dict_row df i row :
  pd.to_dict df !! i = Some row →
  map fst row = pd.columns df
  ∧ ∀ c v, cell df c i = Some v → dict_get c row = Some v.
Proof.
  intros [_ ->]%to_dict_lookup. split.
  - unfold pd.columns. by rewrite map_map.
  - intros c v. unfold cell.
    rewrite (dict_get_map_snd (fun s : list scalar => default NaN (s !! i))).
    destruct (dict_get c (pd.data df)) as [s|]; [|done]. cbn. by intros ->.
Qed.

Lemma encodable_rows df :
  encodable_frame df = true →
  forallb json.encodable (map record_value (pd.to_dict df)) = true.
Proof.
  unfold encodable_frame. rewrite !forallb_forall. intros Hdf x Hx.
  apply in_map_iff in Hx as (row & <- & Hrow).
  apply list_elem_of_In, list_elem_of_lookup in Hrow as [i Hi].
  apply to_dict_lookup in Hi as [_ ->]. unfold record_value. cbn [json.encodable].
  rewrite map_map. apply forallb_forall. intros kv Hkv.
  apply in_map_iff in Hkv as ([k s] & <- & Hks). cbn.
  specialize (Hdf _ Hks). cbn in Hdf. rewrite forallb_forall in Hdf.
  destruct (s !! i) as [v|] eqn:Ev; [|done]. cbn. apply Hdf.
  by eapply list_elem_of_In, list_elem_of_lookup_2.
Qed.

(** C7: on a current table that holds a timestamp, as every current table
    the extractor returns does, the writer raises TypeError and leaves a file
    that holds no JSON document. *)
Lemma write_timestamp_raises :
  ∃ w',
    sundata.write_json_file_sunData "out.json" (SStr "De Bilt") 0 1 stamped_world
    = (w', Raise TypeError)
    ∧ disk w' !! "out.json" = Some OtherText.
Proof. eexists. split; vm_compute; reflexivity. Qed.

(** C4: the tables the extractor returns for the example cannot be
    written; [json.dump] raises TypeError on the timestamps of [cet], so
    there is no document to extract again. *)
Lemma extracted_tables_not_written :
  ∃ w' current forecast w'',
    @sundata.extract_Sun_dataframes_from_dict integer_text 0 (world_of example_doc)
    = (w', Return (SStr "De Bilt", current, forecast))
    ∧ sundata.write_json_file_sunData "out.json" (SStr "De Bilt") current forecast w'
      = (w'', Raise TypeError)
    ∧ disk w'' !! "out.json" = Some OtherText.
Proof.
  eexists _, _, _, _. split; [vm_compute; reflexivity|]. split; vm_compute; reflexivity.
Qed.

(** * The readers *)

Section readers.
Context `{pd.NumericParser}.

Lemma keeps_sent {A} (m : M A) w : keeps (length (heap w)) any m → sent (m w).1 = sent w.
Proof. intros Hm. by destruct (Hm w (le_n _)) as (_ & _ & _ & ? & _). Qed.

Lemma keeps_tuple n d (loc : bool) :
  keeps n any
    (r <- sundata.extract_Sun_dataframes_from_dict d ;;
     let '(l, c, f) := r in
     if loc then ret [Frame c; Frame f; Scalar l] else ret [Frame c; Frame f]).
Proof.
  eapply keeps_bind; [apply keeps_extract_Sun|]. intros [[l c] f] _.
  destruct loc; by apply keeps_ret.
Qed.

Lemma keeps_hourly_ret n d :
  keeps n any
    (data <- uurverwachting.extract_hourly_forecast_dataframes_from_dict d ;; ret data).
Proof.
  eapply keeps_bind; [apply keeps_extract_hourly|]. intros a _. by apply keeps_ret.
Qed.

(** C8. The two functions that fetch send one GET, to the fixed address
    of their dataset followed by the location as [locatie] and the key as
    [key]; a failed request raises, a body that is no JSON document raises,
    and the document a body decodes to is what the extractor of the dataset
    is run on. *)
Theorem fetch_sends_one_request key location loc w :
  let url := "https://data.meteoserver.nl/api/solar.php?locatie=" +:+ location
             +:+ "&key=" +:+ key in
  let hourly := "https://data.meteoserver.nl/api/uurverwachting_gfs.php?locatie="
                +:+ location +:+ "&key=" +:+ key in
  (sent (sundata.read_json_url_sunData key location loc w).1 = sent w ++ [url]
   ∧ sundata.read_json_url_sunData key location loc w
     = match server w url with
       | None => (set_sent (sent w ++ [url]) w, Raise ConnectionError)
       | Some OtherText => (set_sent (sent w ++ [url]) w, Raise JSONDecodeError)
       | Some (JsonText doc) =>
           (r <- sundata.extract_Sun_dataframes_from_dict (length (heap w)) ;;
            let '(l, c, f) := r in
            if default false loc then ret [Frame c; Frame f; Scalar l]
            else ret [Frame c; Frame f])
             (set_heap (heap w ++ [ODoc doc]) (set_sent (sent w ++ [url]) w))
       end)
  ∧ (sent (uurverwachting.read_json_url_uurverwachting key location w).1
     = sent w ++ [hourly]
     ∧ uurverwachting.read_json_url_uurverwachting key location w
       = match server w hourly with
         | None => (set_sent (sent w ++ [hourly]) w, Raise ConnectionError)
         | Some OtherText => (set_sent (sent w ++ [hourly]) w, Raise JSONDecodeError)
         | Some (JsonText doc) =>
             (data <- uurverwachting.extract_hourly_forecast_dataframes_from_dict
                        (length (heap w)) ;;
              ret data)
               (set_heap (heap w ++ [ODoc doc]) (set_sent (sent w ++ [hourly]) w))
         end).
Proof.
  intros url hourly. split.
  - assert (Hrun : sundata.read_json_url_sunData key location loc w
     = match server w url with
       | None => (set_sent (sent w ++ [url]) w, Raise ConnectionError)
       | Some OtherText => (set_sent (sent w ++ [url]) w, Raise JSONDecodeError)
       | Some (JsonText doc) =>
           (r <- sundata.extract_Sun_dataframes_from_dict (length (heap w)) ;;
            let '(l, c, f) := r in
            if default false loc then ret [Frame c; Frame f; Scalar l]
            else ret [Frame c; Frame f])
             (set_heap (heap w ++ [ODoc doc]) (set_sent (sent w ++ [url]) w))
       end).
    { unfold sundata.read_json_url_sunData. fold url.
      unfold bind at 1. unfold requests.get_text.
      destruct (server w url) as [[doc|]|]; done. }
    split; [|done]. rewrite Hrun. destruct (server w url) as [[doc|]|]; [|done..].
    by rewrite keeps_sent by apply keeps_tuple.
  - assert (Hrun : uurverwachting.read_json_url_uurverwachting key location w
       = match server w hourly with
         | None => (set_sent (sent w ++ [hourly]) w, Raise ConnectionError)
         | Some OtherText => (set_sent (sent w ++ [hourly]) w, Raise JSONDecodeError)
         | Some (JsonText doc) =>
             (data <- uurverwachting.extract_hourly_forecast_dataframes_from_dict
                        (length (heap w)) ;;
              ret data)
               (set_heap (heap w ++ [ODoc doc]) (set_sent (sent w ++ [hourly]) w))
         end).
    { unfold uurverwachting.read_json_url_uurverwachting. fold hourly.
      unfold bind at 1. unfold requests.get_text.
      destruct (server w hourly) as [[doc|]|]; done. }
    split; [|done]. rewrite Hrun. destruct (server w hourly) as [[doc|]|]; [|done..].
    by rewrite keeps_sent by apply keeps_hourly_ret.
Qed.

(** C9. The two readers of the sun dataset return, when fetching,
    decoding and extracting return the location and the two tables, the
    pair (current, forecast) if the flag [loc] is false or left out, and
    the triple (current, forecast, location) if it is true; they return
    nothing else. *)
Theorem readers_return_tables_first key location fileJSON loc w w' t :
  (sundata.read_json_url_sunData key location loc w = (w', Return t)
   ↔ ∃ l c f,
       (dataJSON <- requests.get_text
          ("https://data.meteoserver.nl/api/solar.php?locatie=" +:+ location
           +:+ "&key=" +:+ key) ;;
        dataDict <- json.loads dataJSON ;;
        sundata.extract_Sun_dataframes_from_dict dataDict) w
       = (w', Return (l, c, f))
       ∧ t = if default false loc then [Frame c; Frame f; Scalar l]
             else [Frame c; Frame f])
  ∧ (sundata.read_json_file_sunData fileJSON loc w = (w', Return t)
     ↔ ∃ l c f,
         (dataJSON <- open_r fileJSON ;;
          dataDict <- json.load dataJSON ;;
          sundata.extract_Sun_dataframes_from_dict dataDict) w
         = (w', Return (l, c, f))
         ∧ t = if default false loc then [Frame c; Frame f; Scalar l]
               else [Frame c; Frame f]).
Proof.
  split.
  - unfold sundata.read_json_url_sunData, bind.
    destruct (requests.get_text _ w) as [w1 [body|e|]]; try (split; [done|by intros (?&?&?&?&?)]).
    destruct (json.loads body w1) as [w2 [d|e|]]; try (split; [done|by intros (?&?&?&?&?)]).
    destruct (sundata.extract_Sun_dataframes_from_dict d w2) as [w3 [[[l c] f]|e|]];
      try (split; [done|by intros (?&?&?&?&?)]).
    destruct (default false loc); unfold ret; split.
    all: try (intros [= <- <-]; by exists l, c, f).
    all: by intros (l' & c' & f' & [= <- <- <- <-] & ->).
  - unfold sundata.read_json_file_sunData, bind.
    destruct (open_r fileJSON w) as [w1 [body|e|]]; try (split; [done|by intros (?&?&?&?&?)]).
    destruct (json.load body w1) as [w2 [d|e|]]; try (split; [done|by intros (?&?&?&?&?)]).
    destruct (sundata.extract_Sun_dataframes_from_dict d w2) as [w3 [[[l c] f]|e|]];
      try (split; [done|by intros (?&?&?&?&?)]).
    destruct (default false loc); unfold ret; split.
    all: try (intros [= <- <-]; by exists l, c, f).
    all: by intros (l' & c' & f' & [= <- <- <- <-] & ->).
Qed.

(** C10. Whatever the store holds, the two extractors leave every object
    that was in it as it was, the document they are given among them: the
    tables they build and change are new objects. *)
Theorem extractors_keep_the_input w d :
  (take (length (heap w)) (heap (sundata.extract_Sun_dataframes_from_dict d w).1) = heap w
   ∧ ∀ a o, heap w !! a = Some o →
       heap (sundata.extract_Sun_dataframes_from_dict d w).1 !! a = Some o)
  ∧ (take (length (heap w))
       (heap (uurverwachting.extract_hourly_forecast_dataframes_from_dict d w).1) = heap w
     ∧ ∀ a o, heap w !! a = Some o →
         heap (uurverwachting.extract_hourly_forecast_dataframes_from_dict d w).1 !! a
         = Some o).
Proof.
  assert (G : ∀ {A} (m : M A), keeps (length (heap w)) any m →
            take (length (heap w)) (heap (m w).1) = heap w
            ∧ ∀ a o, heap w !! a = Some o → heap (m w).1 !! a = Some o).
  { intros A m Hm. destruct (Hm w (le_n _)) as (Hlen & Htake & _).
    rewrite firstn_all in Htake. split; [done|]. intros a o Ha.
    rewrite <- Htake in Ha. by apply lookup_take_Some in Ha as [Ha _]. }
  split; apply G; [apply keeps_extract_Sun|apply keeps_extract_hourly].
Qed.

End readers.

(** * Further properties of the code *)

(** ** The shape of the documents the extractor returns on *)

Lemma subscript_cases d k w :
  subscript d k w
  = (w, match heap w !! d with
        | Some (ODoc v) => getitem v k
        | _ => Unmodelled
        end).
Proof.
  unfold subscript, bind, load_doc, lift.
  by destruct (heap w !! d) as [[v|df]|]; [destruct (getitem v k)| |].
Qed.

Lemma table_cases d k w :
  (x <- subscript d k ;; DataFrame_from_dict x) w
  = match heap w !! d with
    | Some (ODoc v) =>
        match getitem v k with
        | Return x =>
            match pd.records_of x with
            | Some recs =>
                (set_heap (heap w ++ [OFrame (pd.from_records recs)]) w,
                 Return (length (heap w)))
            | None => (w, Unmodelled)
            end
        | Raise e => (w, Raise e)
        | Unmodelled => (w, Unmodelled)
        end
    | _ => (w, Unmodelled)
    end.
Proof.
  unfold bind at 1. rewrite subscript_cases.
  destruct (heap w !! d) as [[v|df]|]; [|done..].
  destruct (getitem v k) as [x|e|]; [|done..].
  unfold DataFrame_from_dict, bind, lift, pd.from_dict, alloc.
  by destruct (pd.records_of x).
Qed.

Lemma location_cases d w :
  (x <- subscript d "plaatsnaam" ;;
   df <- DataFrame_from_dict x ;;
   s <- getattr df "plaats" ;;
   lift (pd.series_getitem s 0)) w
  = match heap w !! d with
    | Some (ODoc v) =>
        match getitem v "plaatsnaam" with
        | Return x =>
            match pd.records_of x with
            | Some ps => (set_heap (heap w ++ [OFrame (pd.from_records ps)]) w, location_of ps)
            | None => (w, Unmodelled)
            end
        | Raise e => (w, Raise e)
        | Unmodelled => (w, Unmodelled)
        end
    | _ => (w, Unmodelled)
    end.
Proof.
  destruct (heap w !! d) as [[v|df]|] eqn:Hd.
  2,3: by unfold bind at 1; rewrite subscript_cases, Hd.
  destruct v as [a|l|dd].
  1,2: by unfold bind at 1; rewrite subscript_cases, Hd.
  cbn [getitem]. destruct (dict_get "plaatsnaam" dd) as [vp|] eqn:Hvp.
  2: by unfold bind at 1; rewrite subscript_cases, Hd; cbn [getitem]; rewrite Hvp.
  destruct (pd.records_of vp) as [ps|] eqn:Hps.
  - by eapply location_run.
  - unfold bind at 1. rewrite subscript_cases, Hd. cbn [getitem]. rewrite Hvp.
    unfold DataFrame_from_dict, bind, lift, pd.from_dict. by rewrite Hps.
Qed.

Lemma getitem_Return v k x :
  getitem v k = Return x → ∃ dd, v = Dict dd ∧ dict_get k dd = Some x.
Proof.
  destruct v as [a|l|dd]; [done..|]. cbn.
  destruct (dict_get k dd) as [y|] eqn:E; [|done]. intros [= ->]. by exists dd.
Qed.

Section shape.
Context `{pd.NumericParser}.

(** The extractor returns on documents of the shape of the sun dataset
    only: a dict that has lists of flat records under its three keys. *)
Lemma extract_Return_members w d w' r :
  sundata.extract_Sun_dataframes_from_dict d w = (w', Return r) →
  ∃ doc ps cs fs, heap w !! d = Some (ODoc doc) ∧ members doc = Some (ps, cs, fs).
Proof.
  rewrite extract_eq. unfold bind at 1. rewrite location_cases.
  destruct (heap w !! d) as [[doc|df]|] eqn:Hd; [|done..].
  destruct (getitem doc "plaatsnaam") as [vp|e|] eqn:Hvp; [|done..].
  apply getitem_Return in Hvp as (dd & -> & Hvp).
  destruct (pd.records_of vp) as [ps|] eqn:Hps; [|done].
  destruct (location_of ps) as [l|e|]; [|done..].
  set (w1 := set_heap (heap w ++ [OFrame (pd.from_records ps)]) w).
  assert (Hd1 : heap w1 !! d = Some (ODoc (Dict dd))).
  { cbn. rewrite lookup_app_l; [done|]. by eapply lookup_lt_Some. }
  unfold bind at 1. rewrite table_cases, Hd1. cbn [getitem].
  destruct (dict_get "current" dd) as [vc|] eqn:Hvc; [|done].
  destruct (pd.records_of vc) as [cs|] eqn:Hcs; [|done].
  set (w2 := set_heap (heap w1 ++ [OFrame (pd.from_records cs)]) w1).
  assert (Hc2 : heap w2 !! length (heap w1) = Some (OFrame (pd.from_records cs))).
  { cbn [w2 heap set_heap]. by apply list_lookup_middle. }
  match goal with |- context [exec ?a ?st ?k ?w] =>
    pose proof (exec_spec a st k w _ Hc2) as Hexec end.
  destruct (run_steps current_steps (pd.from_records cs)) as [cur|e|];
    [|destruct Hexec as [w'' Hexec]; by rewrite Hexec..].
  rewrite Hexec. clear Hexec.
  set (w3 := set_heap _ w2).
  assert (Hd3 : heap w3 !! d = Some (ODoc (Dict dd))).
  { cbn [w3 w2 heap set_heap]. rewrite insert_last. cbn [w1 heap set_heap].
    rewrite <- app_assoc. rewrite lookup_app_l; [done|]. by eapply lookup_lt_Some. }
  unfold bind at 1. rewrite table_cases, Hd3. cbn [getitem].
  destruct (dict_get "forecast" dd) as [vf|] eqn:Hvf; [|done].
  destruct (pd.records_of vf) as [fs|] eqn:Hfs; [|done].
  intros _. exists (Dict dd), ps, cs, fs. split; [done|].
  unfold members. rewrite Hvp, Hvc, Hvf. cbn. rewrite Hps. cbn. rewrite Hcs. cbn.
  by rewrite Hfs.
Qed.

End shape.

(** ** What the converted columns hold *)

Section columns.
Context `{pd.NumericParser}.

Lemma fold_cells_other steps F k r :
  k ∉ map target steps → fold_left apply_step steps F k r = F k r.
Proof.
  revert F. induction steps as [|st steps IH]; intros F Hk; [done|].
  cbn [map] in Hk. apply not_elem_of_cons in Hk as [Hst Hk].
  cbn [fold_left]. rewrite IH by done. by apply apply_step_ne.
Qed.

Lemma steps_ok_app steps st F recs :
  steps_ok (steps ++ [st]) F recs
  ↔ steps_ok steps F recs ∧ step_ok st (fold_left apply_step steps F) recs.
Proof.
  revert F. induction steps as [|st' steps IH]; intros F; cbn [app steps_ok fold_left].
  - tauto.
  - rewrite IH. tauto.
Qed.

(** The cell a sequence of statements leaves in a column is what the last
    statement that writes the column returned. *)
Lemma fold_cells_last steps F recs c st r :
  steps_ok steps F recs → r ∈ recs → last_writer c steps = Some st →
  ∃ F', cell_step st F' r = Return (fold_left apply_step steps F c r).
Proof.
  revert st. induction steps as [|st' steps IH] using rev_ind; intros st Hok Hr Hlast; [done|].
  apply steps_ok_app in Hok as [Hok Hst'].
  unfold last_writer in Hlast. rewrite fold_left_app in Hlast. cbn [fold_left] in Hlast.
  rewrite fold_left_app. cbn [fold_left]. unfold apply_step at 1.
  destruct (String.eqb (target st') c) eqn:E.
  - injection Hlast as <-. apply String.eqb_eq in E as <-. rewrite String.eqb_refl.
    exists (fold_left apply_step steps F).
    destruct Hst' as (_ & _ & Hcell). destruct (Hcell r Hr) as [v Hv]. by rewrite Hv.
  - rewrite String.eqb_sym, E. by apply IH.
Qed.

Lemma to_numeric_cell_kind v x : pd.to_numeric_cell v = Return x → is_numeric x = true.
Proof.
  destruct v as [|b|n|s|t|]; cbn; try by intros [= <-].
  destruct (pd.parse_numeric s); [|done]. by intros [= <-].
Qed.

Lemma to_datetime_cell_kind v x : pd.to_datetime_cell v = Return x → time_cell x = true.
Proof.
  destruct v as [|b|n|s|t|]; cbn; try by intros [= <-].
  - by destruct n; [..|intros [= <-]].
  - destruct (_ || _); [by intros [= <-]|]. destruct (strptime s); [|done]. by intros [= <-].
Qed.

Lemma current_last_writer c :
  c ∈ current_targets →
  last_writer c current_steps
  = Some (if bool_decide (c ∈ current_numeric) then ToNumeric c else ToDatetime c).
Proof.
  unfold current_targets, current_numeric. intros Hc.
  repeat (apply elem_of_cons in Hc as [->|Hc]; [by vm_compute|]).
  by apply not_elem_of_nil in Hc.
Qed.

Lemma forecast_last_writer c :
  c ∈ forecast_targets →
  last_writer c forecast_steps
  = Some (if bool_decide (c ∈ forecast_numeric) then ToNumeric c else ToDatetime c).
Proof.
  unfold forecast_targets, forecast_numeric. intros Hc.
  repeat (apply elem_of_cons in Hc as [->|Hc]; [by vm_compute|]).
  by apply not_elem_of_nil in Hc.
Qed.

Lemma current_targets_steps c : c ∈ map target current_steps ↔ c ∈ current_targets.
Proof.
  unfold current_targets, current_numeric. cbn. rewrite !elem_of_cons. tauto.
Qed.

Lemma forecast_targets_steps c : c ∈ map target forecast_steps ↔ c ∈ forecast_targets.
Proof.
  unfold forecast_targets, forecast_numeric. cbn. rewrite !elem_of_cons. tauto.
Qed.

(** What the converted columns hold once every statement has gone through. *)
Lemma current_cells_kind cs r c :
  steps_ok current_steps pd.cell_of cs → r ∈ cs → c ∈ current_targets →
  if bool_decide (c ∈ current_numeric) then is_numeric (current_cells c r) = true
  else time_cell (current_cells c r) = true.
Proof.
  intros Hok Hr Hc.
  destruct (fold_cells_last _ _ _ c _ r Hok Hr (current_last_writer c Hc)) as [F' HF].
  fold current_cells in HF.
  destruct (bool_decide (c ∈ current_numeric)); cbn [cell_step] in HF.
  - by eapply to_numeric_cell_kind.
  - by eapply to_datetime_cell_kind.
Qed.

Lemma forecast_cells_kind fs r c :
  steps_ok forecast_steps pd.cell_of fs → r ∈ fs → c ∈ forecast_targets →
  if bool_decide (c ∈ forecast_numeric) then is_numeric (forecast_cells c r) = true
  else time_cell (forecast_cells c r) = true.
Proof.
  intros Hok Hr Hc.
  destruct (fold_cells_last _ _ _ c _ r Hok Hr (forecast_last_writer c Hc)) as [F' HF].
  fold forecast_cells in HF.
  destruct (bool_decide (c ∈ forecast_numeric)); cbn [cell_step] in HF.
  - by eapply to_numeric_cell_kind.
  - by eapply to_datetime_cell_kind.
Qed.

End columns.

(** ** The extractors on any document *)

Lemma location_of_Return ps l :
  location_of ps = Return l → ∃ p, head ps = Some p ∧ l = pd.cell_of "plaats" p.
Proof.
  unfold location_of. rewrite from_records_frame_of, get_column_frame_of.
  destruct (bool_decide _); [|done]. cbn [obind]. unfold pd.series_getitem.
  destruct ps as [|p ps]; [done|]. cbn. intros [= <-]. by exists p.
Qed.

(** X2. [extract_hourly_forecast_dataframes_from_dict] raises TypeError on
    a document that is no dict and KeyError on a dict without ['data'], and
    creates nothing in either case; on an empty ['data'] list it returns a
    new table without rows and without columns. *)
Theorem hourly_extractor_edges w d doc :
  heap w !! d = Some (ODoc doc) →
  ((∀ dd, doc ≠ Dict dd) →
     uurverwachting.extract_hourly_forecast_dataframes_from_dict d w = (w, Raise TypeError))
  ∧ (∀ dd, doc = Dict dd → dict_get "data" dd = None →
       uurverwachting.extract_hourly_forecast_dataframes_from_dict d w = (w, Raise KeyError))
  ∧ (∀ dd, doc = Dict dd → dict_get "data" dd = Some (List []) →
       uurverwachting.extract_hourly_forecast_dataframes_from_dict d w
       = (set_heap (heap w ++ [OFrame {| pd.nrows := 0; pd.data := [] |}]) w,
          Return (length (heap w)))).
Proof.
  intros Hd. unfold uurverwachting.extract_hourly_forecast_dataframes_from_dict.
  split; [|split].
  - intros Hno. unfold bind at 1. rewrite table_cases, Hd.
    destruct doc as [a|l|dd]; [done..|]. by destruct (Hno dd).
  - intros dd -> Hk. unfold bind at 1. rewrite table_cases, Hd. cbn [getitem]. by rewrite Hk.
  - intros dd -> Hk. unfold bind at 1. rewrite table_cases, Hd. cbn [getitem]. by rewrite Hk.
Qed.

Section returned.
Context `{pd.NumericParser}.

(** X1. [extract_Sun_dataframes_from_dict] raises TypeError on a document
    that is no dict and KeyError on a dict without ['plaatsnaam'], and
    creates nothing in either case; on a dict without ['current'] or
    without ['forecast'] it never returns. *)
Theorem sun_extractor_needs_its_keys w d doc :
  heap w !! d = Some (ODoc doc) →
  ((∀ dd, doc ≠ Dict dd) →
     sundata.extract_Sun_dataframes_from_dict d w = (w, Raise TypeError))
  ∧ (∀ dd, doc = Dict dd → dict_get "plaatsnaam" dd = None →
       sundata.extract_Sun_dataframes_from_dict d w = (w, Raise KeyError))
  ∧ (∀ dd, doc = Dict dd →
       dict_get "current" dd = None ∨ dict_get "forecast" dd = None →
       ∀ w' r, sundata.extract_Sun_dataframes_from_dict d w ≠ (w', Return r)).
Proof.
  intros Hd. split; [|split].
  - intros Hno. rewrite extract_eq. unfold bind at 1. rewrite location_cases, Hd.
    destruct doc as [a|l|dd]; [done..|]. by destruct (Hno dd).
  - intros dd -> Hk. rewrite extract_eq. unfold bind at 1. rewrite location_cases, Hd.
    cbn [getitem]. by rewrite Hk.
  - intros dd -> Hk w' r Hx.
    destruct (extract_Return_members _ _ _ _ Hx) as (doc & ps & cs & fs & Hd' & Hm).
    rewrite Hd in Hd'. injection Hd' as <-.
    destruct (members_spec _ _ _ _ Hm) as (dd' & vp & vc & vf & [= <-] & _ & _ & Hc & _ & Hf & _).
    destruct Hk as [Hk|Hk]; congruence.
Qed.

(** X3. Whenever [extract_Sun_dataframes_from_dict] returns, on any
    document: the location is the string the first record of
    ['plaatsnaam'] has under ['plaats'] (a null if it has nothing there,
    while another record has); the two tables are two
    different objects that were not in the store before; neither list was
    empty; each table has one row per record and the keys of its records, in
    first-seen order, as columns. *)
Theorem returned_tables_shape w d doc ps cs fs w' l c f :
  heap w !! d = Some (ODoc doc) →
  members doc = Some (ps, cs, fs) →
  sundata.extract_Sun_dataframes_from_dict d w = (w', Return (l, c, f)) →
  ∃ p cur fc,
    head ps = Some p
    ∧ (∀ s, dict_get "plaats" p = Some (SStr s) → l = SStr s)
    ∧ (dict_get "plaats" p = None → pd.is_null l = true)
    ∧ length (heap w) ≤ c ∧ length (heap w) ≤ f ∧ c ≠ f
    ∧ heap w' !! c = Some (OFrame cur) ∧ heap w' !! f = Some (OFrame fc)
    ∧ cs ≠ [] ∧ fs ≠ []
    ∧ pd.nrows cur = length cs ∧ pd.nrows fc = length fs
    ∧ pd.columns cur = first_occurrences (concat (map (map fst) cs))
    ∧ pd.columns fc = first_occurrences (concat (map (map fst) fs)).
Proof.
  intros Hd Hm Hx.
  destruct (extract_Return_tables _ _ _ _ _ _ _ _ _ _ Hd Hm Hx) as (Hcs & Hfs & Hc & Hf & _).
  destruct (extract_Return_inv _ _ _ _ _ _ _ _ _ _ Hd Hm Hx) as (Hl & _ & _ & -> & -> & _).
  destruct (location_of_Return _ _ Hl) as (p & Hp & ->).
  exists p, (frame_of current_cells cs), (frame_of forecast_cells fs).
  split; [done|].
  split; [by intros s Hs; unfold pd.cell_of; rewrite Hs|].
  split; [by intros Hs; unfold pd.cell_of; rewrite Hs|].
  split; [lia|]. split; [lia|]. split; [lia|].
  split; [done|]. split; [done|]. split; [done|]. split; [done|].
  split; [done|]. split; [done|].
  by rewrite !columns_frame_of, !column_labels_first_occurrences.
Qed.

(** X4. Whenever [extract_Sun_dataframes_from_dict] returns, a string
    under a key that is none of the columns it converts is in the table as
    it was decoded, whatever it looks like; in the forecast table ['sr'] and
    ['ss'] are such keys. *)
Theorem other_columns_kept w d doc ps cs fs w' l c f :
  heap w !! d = Some (ODoc doc) →
  members doc = Some (ps, cs, fs) →
  sundata.extract_Sun_dataframes_from_dict d w = (w', Return (l, c, f)) →
  ∃ cur fc,
    heap w' !! c = Some (OFrame cur) ∧ heap w' !! f = Some (OFrame fc)
    ∧ (∀ i r k s, cs !! i = Some r → k ∉ current_targets →
         dict_get k r = Some (SStr s) → cell cur k i = Some (SStr s))
    ∧ (∀ i r k s, fs !! i = Some r → k ∉ forecast_targets →
         dict_get k r = Some (SStr s) → cell fc k i = Some (SStr s)).
Proof.
  intros Hd Hm Hx.
  destruct (extract_Return_tables _ _ _ _ _ _ _ _ _ _ Hd Hm Hx) as (_ & _ & Hc & Hf & _).
  exists (frame_of current_cells cs), (frame_of forecast_cells fs).
  split; [done|]. split; [done|]. split.
  - intros i r k s Hr Hno Hs.
    rewrite cell_frame_of, Hr.
    + cbn [fmap option_fmap option_map]. f_equal. unfold current_cells.
      rewrite fold_cells_other by (by rewrite current_targets_steps).
      unfold pd.cell_of. by rewrite Hs.
    + apply column_labels_elem. exists r. split; [by eapply list_elem_of_lookup_2|].
      by eapply dict_get_elem.
  - intros i r k s Hr Hno Hs.
    rewrite cell_frame_of, Hr.
    + cbn [fmap option_fmap option_map]. f_equal. unfold forecast_cells.
      rewrite fold_cells_other by (by rewrite forecast_targets_steps).
      unfold pd.cell_of. by rewrite Hs.
    + apply column_labels_elem. exists r. split; [by eapply list_elem_of_lookup_2|].
      by eapply dict_get_elem.
Qed.

(** X5. Whenever [extract_Sun_dataframes_from_dict] returns, on any
    document, every cell of the columns it converts with [pd.to_numeric]
    holds a number (NaN included) or a boolean, and every cell of the
    columns it converts with [pd.to_datetime] (['cet'], and ['sr'] and
    ['ss'] of the current table) holds a timestamp or NaT: no string is
    left in a converted column. *)
Theorem converted_columns_hold_no_strings w d doc ps cs fs w' l c f :
  heap w !! d = Some (ODoc doc) →
  members doc = Some (ps, cs, fs) →
  sundata.extract_Sun_dataframes_from_dict d w = (w', Return (l, c, f)) →
  ∃ cur fc,
    heap w' !! c = Some (OFrame cur) ∧ heap w' !! f = Some (OFrame fc)
    ∧ (∀ k i, k ∈ current_numeric → i < length cs →
         ∃ v, cell cur k i = Some v ∧ is_numeric v = true ∧ pd.is_str v = false)
    ∧ (∀ k i, k ∈ ["cet"; "sr"; "ss"] → i < length cs →
         ∃ v, cell cur k i = Some v ∧ time_cell v = true ∧ pd.is_str v = false)
    ∧ (∀ k i, k ∈ forecast_numeric → i < length fs →
         ∃ v, cell fc k i = Some v ∧ is_numeric v = true ∧ pd.is_str v = false)
    ∧ (∀ i, i < length fs →
         ∃ v, cell fc "cet" i = Some v ∧ time_cell v = true ∧ pd.is_str v = false).
Proof.
  intros Hd Hm Hx.
  destruct (extract_Return_tables _ _ _ _ _ _ _ _ _ _ Hd Hm Hx)
    as (_ & _ & Hc & Hf & Hlc & Hlf).
  destruct (extract_Return_inv _ _ _ _ _ _ _ _ _ _ Hd Hm Hx) as (_ & Hokc & Hokf & _).
  assert (Hcur : ∀ k i, k ∈ current_targets → i < length cs →
            ∃ r, cs !! i = Some r ∧ r ∈ cs
                 ∧ cell (frame_of current_cells cs) k i = Some (current_cells k r)).
  { intros k i Hk Hi. destruct (lookup_lt_is_Some_2 cs i Hi) as [r Hr].
    exists r. split; [done|]. split; [by eapply list_elem_of_lookup_2|].
    rewrite cell_frame_of, Hr; [done|]. apply current_targets_steps in Hk.
    apply list_elem_of_fmap in Hk as (st & -> & Hst). by apply Hlc. }
  assert (Hfc : ∀ k i, k ∈ forecast_targets → i < length fs →
            ∃ r, fs !! i = Some r ∧ r ∈ fs
                 ∧ cell (frame_of forecast_cells fs) k i = Some (forecast_cells k r)).
  { intros k i Hk Hi. destruct (lookup_lt_is_Some_2 fs i Hi) as [r Hr].
    exists r. split; [done|]. split; [by eapply list_elem_of_lookup_2|].
    rewrite cell_frame_of, Hr; [done|]. apply forecast_targets_steps in Hk.
    apply list_elem_of_fmap in Hk as (st & -> & Hst). by apply Hlf. }
  exists (frame_of current_cells cs), (frame_of forecast_cells fs).
  split; [done|]. split; [done|]. split; [|split; [|split]].
  - intros k i Hk Hi.
    assert (Hk' : k ∈ current_targets) by (unfold current_targets; by do 3 right).
    destruct (Hcur k i Hk' Hi) as (r & _ & Hr & Hcell).
    pose proof (current_cells_kind cs r k Hokc Hr Hk') as Hkind.
    rewrite bool_decide_eq_true_2 in Hkind by done.
    exists (current_cells k r). split; [done|]. split; [done|].
    by destruct (current_cells k r).
  - intros k i Hk Hi.
    assert (Hk' : k ∈ current_targets).
    { unfold current_targets. repeat (apply elem_of_cons in Hk as [->|Hk]; [in_list|]).
      by apply not_elem_of_nil in Hk. }
    destruct (Hcur k i Hk' Hi) as (r & _ & Hr & Hcell).
    pose proof (current_cells_kind cs r k Hokc Hr Hk') as Hkind.
    rewrite bool_decide_eq_false_2 in Hkind.
    + exists (current_cells k r). split; [done|]. split; [done|].
      by destruct (current_cells k r).
    + unfold current_numeric.
      repeat (apply elem_of_cons in Hk as [->|Hk];
              [apply (bool_decide_unpack _); by vm_compute|]).
      by apply not_elem_of_nil in Hk.
  - intros k i Hk Hi.
    assert (Hk' : k ∈ forecast_targets) by (unfold forecast_targets; by right).
    destruct (Hfc k i Hk' Hi) as (r & _ & Hr & Hcell).
    pose proof (forecast_cells_kind fs r k Hokf Hr Hk') as Hkind.
    rewrite bool_decide_eq_true_2 in Hkind by done.
    exists (forecast_cells k r). split; [done|]. split; [done|].
    by destruct (forecast_cells k r).
  - intros i Hi.
    assert (Hk' : "cet" ∈ forecast_targets) by (unfold forecast_targets; in_list).
    destruct (Hfc "cet" i Hk' Hi) as (r & _ & Hr & Hcell).
    pose proof (forecast_cells_kind fs r "cet" Hokf Hr Hk') as Hkind.
    rewrite bool_decide_eq_false_2 in Hkind
      by (apply (bool_decide_unpack _); by vm_compute).
    exists (forecast_cells "cet" r). split; [done|]. split; [done|].
    by destruct (forecast_cells "cet" r).
Qed.

End returned.

(** ** Calls that work on the store alone *)

Lemma store_only_ret {A} (a : A) : store_only (ret a).
Proof. by intros w v Hh. Qed.

Lemma store_only_lift {A} (o : outcome A) : store_only (lift o).
Proof. by intros w v Hh. Qed.

Lemma store_only_bind {A B} (m : M A) (k : A → M B) :
  store_only m → (∀ a, store_only (k a)) → store_only (bind m k).
Proof.
  intros Hm Hk w v Hh. unfold bind.
  destruct (Hm w v Hh) as (Hh1 & Ho & Hd & Hs & Ht).
  destruct (m w) as [w1 o1], (m v) as [v1 o2]. cbn [fst snd] in *. subst o2.
  destruct o1 as [a|e|]; [|done..].
  destruct (Hk a w1 v1 Hh1) as (? & ? & ? & ? & ?).
  repeat split; congruence.
Qed.

Lemma store_only_alloc o : store_only (alloc o).
Proof. intros w v Hh. unfold alloc. cbn. by rewrite Hh. Qed.

Lemma store_only_load_doc a : store_only (load_doc a).
Proof.
  intros w v Hh. unfold load_doc. rewrite <- Hh.
  by destruct (heap w !! a) as [[x|x]|].
Qed.

Lemma store_only_load_frame a : store_only (load_frame a).
Proof.
  intros w v Hh. unfold load_frame. rewrite <- Hh.
  by destruct (heap w !! a) as [[x|x]|].
Qed.

Lemma store_only_store_frame a df : store_only (store_frame a df).
Proof. intros w v Hh. unfold store_frame. cbn. by rewrite Hh. Qed.

Ltac store_only_step :=
  first
    [ apply store_only_lift
    | apply store_only_ret
    | apply store_only_alloc
    | apply store_only_load_doc
    | apply store_only_load_frame
    | apply store_only_store_frame
    | apply store_only_bind; [|intros ?] ].

Lemma store_only_extract_Sun `{pd.NumericParser} d :
  store_only (sundata.extract_Sun_dataframes_from_dict d).
Proof.
  unfold sundata.extract_Sun_dataframes_from_dict, subscript, DataFrame_from_dict,
    getattr, setattr.
  repeat store_only_step.
Qed.

Lemma store_only_extract_hourly d :
  store_only (uurverwachting.extract_hourly_forecast_dataframes_from_dict d).
Proof.
  unfold uurverwachting.extract_hourly_forecast_dataframes_from_dict, subscript,
    DataFrame_from_dict.
  repeat store_only_step.
Qed.

Lemma bind_assoc {A B C} (m : M A) (k : A → M B) (k' : B → M C) w :
  bind (bind m k) k' w = bind m (fun a => bind (k a) k') w.
Proof. unfold bind. by destruct (m w) as [w1 [a|e|]]. Qed.

Section readers_cases.
Context `{pd.NumericParser}.

Lemma read_file_cases fileJSON loc w :
  sundata.read_json_file_sunData fileJSON loc w
  = match disk w !! fileJSON with
    | None => (w, Raise FileNotFoundError)
    | Some OtherText => (w, Raise JSONDecodeError)
    | Some (JsonText doc) =>
        (r <- sundata.extract_Sun_dataframes_from_dict (length (heap w)) ;;
         let '(l, c, f) := r in
         if default false loc then ret [Frame c; Frame f; Scalar l]
         else ret [Frame c; Frame f])
          (set_heap (heap w ++ [ODoc doc]) w)
    end.
Proof.
  unfold sundata.read_json_file_sunData, bind, open_r, json.load, json.loads, alloc, lift.
  destruct (disk w !! fileJSON) as [[doc|]|]; done.
Qed.

Lemma read_url_cases key location loc w :
  sundata.read_json_url_sunData key location loc w
  = match server w ("https://data.meteoserver.nl/api/solar.php?locatie=" +:+ location
                    +:+ "&key=" +:+ key) with
    | None =>
        (set_sent (sent w ++ ["https://data.meteoserver.nl/api/solar.php?locatie="
                              +:+ location +:+ "&key=" +:+ key]) w,
         Raise ConnectionError)
    | Some OtherText =>
        (set_sent (sent w ++ ["https://data.meteoserver.nl/api/solar.php?locatie="
                              +:+ location +:+ "&key=" +:+ key]) w,
         Raise JSONDecodeError)
    | Some (JsonText doc) =>
        (r <- sundata.extract_Sun_dataframes_from_dict (length (heap w)) ;;
         let '(l, c, f) := r in
         if default false loc then ret [Frame c; Frame f; Scalar l]
         else ret [Frame c; Frame f])
          (set_heap (heap w ++ [ODoc doc])
             (set_sent (sent w ++ ["https://data.meteoserver.nl/api/solar.php?locatie="
                                   +:+ location +:+ "&key=" +:+ key]) w))
    end.
Proof.
  unfold sundata.read_json_url_sunData. unfold bind at 1. unfold requests.get_text.
  by destruct (server w _) as [[doc|]|].
Qed.

Lemma store_only_answer d loc :
  store_only
    (r <- sundata.extract_Sun_dataframes_from_dict d ;;
     let '(l, c, f) := r in
     if default false loc then ret [Frame c; Frame f; Scalar l]
     else ret [Frame c; Frame f]).
Proof.
  apply store_only_bind; [apply store_only_extract_Sun|]. intros [[l c] f].
  destruct (default false loc); apply store_only_ret.
Qed.

Lemma keeps_answer n d loc :
  keeps n any
    (r <- sundata.extract_Sun_dataframes_from_dict d ;;
     let '(l, c, f) := r in
     if default false loc then ret [Frame c; Frame f; Scalar l]
     else ret [Frame c; Frame f]).
Proof.
  eapply keeps_bind; [apply keeps_extract_Sun|]. intros [[l c] f] _.
  destruct (default false loc); by apply keeps_ret.
Qed.

End readers_cases.

Lemma hourly_file_cases fileJSON w :
  uurverwachting.read_json_file_uurverwachting fileJSON w
  = match disk w !! fileJSON with
    | None => (w, Raise FileNotFoundError)
    | Some OtherText => (w, Raise JSONDecodeError)
    | Some (JsonText doc) =>
        (data <- uurverwachting.extract_hourly_forecast_dataframes_from_dict
                   (length (heap w)) ;;
         ret data)
          (set_heap (heap w ++ [ODoc doc]) w)
    end.
Proof.
  unfold uurverwachting.read_json_file_uurverwachting, bind, open_r, json.load,
    json.loads, alloc, lift.
  destruct (disk w !! fileJSON) as [[doc|]|]; done.
Qed.

Lemma hourly_url_cases key location w :
  uurverwachting.read_json_url_uurverwachting key location w
  = match server w ("https://data.meteoserver.nl/api/uurverwachting_gfs.php?locatie="
                    +:+ location +:+ "&key=" +:+ key) with
    | None =>
        (set_sent (sent w ++ ["https://data.meteoserver.nl/api/uurverwachting_gfs.php?locatie="
                              +:+ location +:+ "&key=" +:+ key]) w,
         Raise ConnectionError)
    | Some OtherText =>
        (set_sent (sent w ++ ["https://data.meteoserver.nl/api/uurverwachting_gfs.php?locatie="
                              +:+ location +:+ "&key=" +:+ key]) w,
         Raise JSONDecodeError)
    | Some (JsonText doc) =>
        (data <- uurverwachting.extract_hourly_forecast_dataframes_from_dict
                   (length (heap w)) ;;
         ret data)
          (set_heap (heap w ++ [ODoc doc])
             (set_sent (sent w ++ ["https://data.meteoserver.nl/api/uurverwachting_gfs.php?locatie="
                                   +:+ location +:+ "&key=" +:+ key]) w))
    end.
Proof.
  unfold uurverwachting.read_json_url_uurverwachting. unfold bind at 1.
  unfold requests.get_text.
  by destruct (server w _) as [[doc|]|].
Qed.

Lemma store_only_hourly d :
  store_only
    (data <- uurverwachting.extract_hourly_forecast_dataframes_from_dict d ;; ret data).
Proof.
  apply store_only_bind; [apply store_only_extract_hourly|]. intros a. apply store_only_ret.
Qed.

Lemma keeps_hourly n d :
  keeps n any
    (data <- uurverwachting.extract_hourly_forecast_dataframes_from_dict d ;; ret data).
Proof.
  eapply keeps_bind; [apply keeps_extract_hourly|]. intros a _. by apply keeps_ret.
Qed.

(** What a call that keeps the store keeps of a store that has just grown. *)
Lemma keeps_grown {A} (m : M A) w o :
  keeps (length (heap w)) any m →
  let w1 := set_heap (heap w ++ [o]) w in
  disk (m w1).1 = disk w ∧ sent (m w1).1 = sent w
  ∧ ∀ a x, heap w !! a = Some x → heap (m w1).1 !! a = Some x.
Proof.
  intros Hm w1.
  destruct (Hm w1) as (Hlen & Htake & Hdisk & Hsent & _).
  { cbn. rewrite length_app. lia. }
  split; [done|]. split; [done|]. intros a x Ha.
  assert (Hlt : a < length (heap w)) by (by eapply lookup_lt_Some).
  rewrite <- (lookup_take_lt _ (length (heap w))) by done.
  rewrite Htake. cbn. rewrite take_app_length. done.
Qed.

(** ** The readers of files *)

(** X7. [read_json_file_uurverwachting] raises FileNotFoundError when
    there is no such file and JSONDecodeError when the file holds no JSON
    document; otherwise its result is that of the extractor on the decoded
    document, a new object.  In every case it sends no request, changes no
    file and leaves the objects of the store as they were. *)
Theorem hourly_file_reader fileJSON w :
  (disk w !! fileJSON = None →
     uurverwachting.read_json_file_uurverwachting fileJSON w = (w, Raise FileNotFoundError))
  ∧ (disk w !! fileJSON = Some OtherText →
       uurverwachting.read_json_file_uurverwachting fileJSON w = (w, Raise JSONDecodeError))
  ∧ (∀ doc, disk w !! fileJSON = Some (JsonText doc) →
       uurverwachting.read_json_file_uurverwachting fileJSON w
       = (data <- uurverwachting.extract_hourly_forecast_dataframes_from_dict
                    (length (heap w)) ;;
          ret data)
           (set_heap (heap w ++ [ODoc doc]) w))
  ∧ disk (uurverwachting.read_json_file_uurverwachting fileJSON w).1 = disk w
  ∧ sent (uurverwachting.read_json_file_uurverwachting fileJSON w).1 = sent w
  ∧ ∀ a x, heap w !! a = Some x →
      heap (uurverwachting.read_json_file_uurverwachting fileJSON w).1 !! a = Some x.
Proof.
  rewrite hourly_file_cases.
  split; [by intros ->|]. split; [by intros ->|]. split; [by intros doc ->|].
  destruct (disk w !! fileJSON) as [[doc|]|]; [|done..].
  apply keeps_grown, keeps_hourly.
Qed.

Section readers.
Context `{pd.NumericParser}.

(** X6. [read_json_file_sunData] raises FileNotFoundError when there is
    no such file and JSONDecodeError when the file holds no JSON document;
    otherwise its result is that of the extractor on the decoded document,
    a new object, reordered as (current, forecast[, location]).  In every
    case it sends no request, changes no file and leaves the objects of the
    store as they were. *)
Theorem sun_file_reader fileJSON loc w :
  (disk w !! fileJSON = None →
     sundata.read_json_file_sunData fileJSON loc w = (w, Raise FileNotFoundError))
  ∧ (disk w !! fileJSON = Some OtherText →
       sundata.read_json_file_sunData fileJSON loc w = (w, Raise JSONDecodeError))
  ∧ (∀ doc, disk w !! fileJSON = Some (JsonText doc) →
       sundata.read_json_file_sunData fileJSON loc w
       = (r <- sundata.extract_Sun_dataframes_from_dict (length (heap w)) ;;
          let '(l, c, f) := r in
          if default false loc then ret [Frame c; Frame f; Scalar l]
          else ret [Frame c; Frame f])
           (set_heap (heap w ++ [ODoc doc]) w))
  ∧ disk (sundata.read_json_file_sunData fileJSON loc w).1 = disk w
  ∧ sent (sundata.read_json_file_sunData fileJSON loc w).1 = sent w
  ∧ ∀ a x, heap w !! a = Some x →
      heap (sundata.read_json_file_sunData fileJSON loc w).1 !! a = Some x.
Proof.
  rewrite read_file_cases.
  split; [by intros ->|]. split; [by intros ->|]. split; [by intros doc ->|].
  destruct (disk w !! fileJSON) as [[doc|]|]; [|done..].
  apply keeps_grown, keeps_answer.
Qed.

(** X8. When a file holds the text the server answers a request with,
    [read_json_file_sunData] on the file and [read_json_url_sunData] on
    the request end the same way (the same result or the same exception)
    and leave the same objects in the store; neither changes a file, and
    only the second sends a request. *)
Theorem saved_sun_response_reads_as_fetched key location fileJSON loc w t :
  server w ("https://data.meteoserver.nl/api/solar.php?locatie=" +:+ location
            +:+ "&key=" +:+ key) = Some t →
  disk w !! fileJSON = Some t →
  (sundata.read_json_file_sunData fileJSON loc w).2
  = (sundata.read_json_url_sunData key location loc w).2
  ∧ heap (sundata.read_json_file_sunData fileJSON loc w).1
    = heap (sundata.read_json_url_sunData key location loc w).1
  ∧ disk (sundata.read_json_file_sunData fileJSON loc w).1 = disk w
  ∧ disk (sundata.read_json_url_sunData key location loc w).1 = disk w
  ∧ sent (sundata.read_json_file_sunData fileJSON loc w).1 = sent w
  ∧ sent (sundata.read_json_url_sunData key location loc w).1
    = sent w ++ ["https://data.meteoserver.nl/api/solar.php?locatie=" +:+ location
                 +:+ "&key=" +:+ key].
Proof.
  intros Hs Hd. rewrite read_file_cases, read_url_cases, Hs, Hd.
  destruct t as [doc|]; [|done].
  match goal with |- context [set_heap ?h (set_sent ?s w)] =>
    destruct (store_only_answer (length (heap w)) loc
                (set_heap h w) (set_heap h (set_sent s w)) eq_refl)
      as (Hh & Ho & Hdw & _ & Hsw);
    destruct (store_only_answer (length (heap w)) loc
                (set_heap h (set_sent s w)) (set_heap h w) eq_refl)
      as (_ & _ & Hdu & _ & Hsu)
  end.
  done.
Qed.

End readers.

(** X9. When a file holds the text the server answers a request with,
    [read_json_file_uurverwachting] on the file and
    [read_json_url_uurverwachting] on the request end the same way and
    leave the same objects in the store; neither changes a file, and only
    the second sends a request. *)
Theorem saved_hourly_response_reads_as_fetched key location fileJSON w t :
  server w ("https://data.meteoserver.nl/api/uurverwachting_gfs.php?locatie=" +:+ location
            +:+ "&key=" +:+ key) = Some t →
  disk w !! fileJSON = Some t →
  (uurverwachting.read_json_file_uurverwachting fileJSON w).2
  = (uurverwachting.read_json_url_uurverwachting key location w).2
  ∧ heap (uurverwachting.read_json_file_uurverwachting fileJSON w).1
    = heap (uurverwachting.read_json_url_uurverwachting key location w).1
  ∧ disk (uurverwachting.read_json_file_uurverwachting fileJSON w).1 = disk w
  ∧ disk (uurverwachting.read_json_url_uurverwachting key location w).1 = disk w
  ∧ sent (uurverwachting.read_json_file_uurverwachting fileJSON w).1 = sent w
  ∧ sent (uurverwachting.read_json_url_uurverwachting key location w).1
    = sent w ++ ["https://data.meteoserver.nl/api/uurverwachting_gfs.php?locatie="
                 +:+ location +:+ "&key=" +:+ key].
Proof.
  intros Hs Hd. rewrite hourly_file_cases, hourly_url_cases, Hs, Hd.
  destruct t as [doc|]; [|done].
  match goal with |- context [set_heap ?h (set_sent ?s w)] =>
    destruct (store_only_hourly (length (heap w))
                (set_heap h w) (set_heap h (set_sent s w)) eq_refl)
      as (Hh & Ho & Hdw & _ & Hsw);
    destruct (store_only_hourly (length (heap w))
                (set_heap h (set_sent s w)) (set_heap h w) eq_refl)
      as (_ & _ & Hdu & _ & Hsu)
  end.
  done.
Qed.

(** ** The writer *)

Lemma write_cases `{pd.NumericParser} w fileName location current forecast cur fc :
  heap w !! current = Some (OFrame cur) → heap w !! forecast = Some (OFrame fc) →
  sundata.write_json_file_sunData fileName location current forecast w
  = if json.encodable_scalar location
       && forallb json.encodable (map record_value (pd.to_dict cur))
       && forallb json.encodable (map record_value (pd.to_dict fc))
    then (set_disk (<[fileName := JsonText (written location cur fc)]> (disk w)) w, Return tt)
    else (set_disk (<[fileName := OtherText]> (disk w)) w, Raise TypeError).
Proof.
  intros Hc Hf.
  unfold sundata.write_json_file_sunData, to_dict, load_frame, ret, bind, open_w, json.dump.
  rewrite Hc, Hf.
  cbn [dict_set dict_append list_append app map fst snd String.eqb Ascii.eqb Bool.eqb].
  cbn [json.encodable forallb snd].
  change (map (λ r : list (string * scalar), Dict (map (λ kv, (kv.1, Atom kv.2)) r)))
    with (map record_value).
  unfold written, set_disk. cbn [disk heap server sent].
  destruct (json.encodable_scalar location),
    (forallb json.encodable (map record_value (pd.to_dict cur))),
    (forallb json.encodable (map record_value (pd.to_dict fc)));
    cbn [andb]; by rewrite insert_insert_eq.
Qed.

Lemma dict_get_pair {V} k (d : list (string * V)) v : dict_get k d = Some v → (k, v) ∈ d.
Proof.
  induction d as [|[k' v'] d IH]; [done|]. cbn.
  destruct (String.eqb k' k) eqn:E.
  - apply String.eqb_eq in E as ->. intros [= ->]. apply list_elem_of_here.
  - intros Hd. apply list_elem_of_further. by apply IH.
Qed.

(** A cell that [json] cannot encode makes the rows of its table unencodable. *)
Lemma rows_not_encodable df c i v :
  i < pd.nrows df → cell df c i = Some v → json.encodable_scalar v = false →
  forallb json.encodable (map record_value (pd.to_dict df)) = false.
Proof.
  intros Hi Hcell Hv.
  destruct (forallb _ _) eqn:E; [|done]. exfalso.
  rewrite forallb_forall in E.
  unfold cell in Hcell. destruct (dict_get c (pd.data df)) as [s|] eqn:Hs; [|done].
  cbn in Hcell. apply dict_get_pair in Hs.
  assert (Hrow : json.encodable
            (record_value (map (fun kv => (fst kv, default NaN (snd kv !! i))) (pd.data df)))
          = true).
  { apply E. apply in_map. unfold pd.to_dict. apply in_map_iff. exists i. split; [done|].
    apply in_seq. lia. }
  unfold record_value in Hrow. cbn [json.encodable] in Hrow. rewrite map_map in Hrow.
  rewrite forallb_forall in Hrow.
  specialize (Hrow (c, Atom v)). cbn in Hrow. rewrite Hv in Hrow.
  assert (false = true); [|done]. apply Hrow.
  apply in_map_iff. exists (c, s). cbn. rewrite Hcell. split; [done|].
  by apply list_elem_of_In.
Qed.

Lemma json_frame_encodable df : json_frame df = true → encodable_frame df = true.
Proof.
  unfold json_frame, encodable_frame. rewrite !forallb_forall. intros Hdf kv Hkv.
  specialize (Hdf kv Hkv). rewrite forallb_forall in Hdf. apply forallb_forall.
  intros v Hv. specialize (Hdf v Hv). by destruct v.
Qed.

Lemma empty_rows df : pd.nrows df = 0 → pd.to_dict df = [].
Proof. unfold pd.to_dict. by intros ->. Qed.

Section writer.
Context `{pd.NumericParser}.

(** X10. [write_json_file_sunData] changes nothing but the file it is
    given: the objects of the store (the two tables among them), the other
    files and the list of requests are after the call what they were
    before, whether it returns or raises. *)
Theorem writer_touches_its_file_only w fileName location current forecast :
  heap (sundata.write_json_file_sunData fileName location current forecast w).1 = heap w
  ∧ sent (sundata.write_json_file_sunData fileName location current forecast w).1 = sent w
  ∧ server (sundata.write_json_file_sunData fileName location current forecast w).1
    = server w
  ∧ ∀ other, other ≠ fileName →
      disk (sundata.write_json_file_sunData fileName location current forecast w).1 !! other
      = disk w !! other.
Proof.
  destruct (heap w !! current) as [[x|cur]|] eqn:Hc.
  1,3: by unfold sundata.write_json_file_sunData, to_dict, load_frame, bind; rewrite Hc.
  destruct (heap w !! forecast) as [[x|fc]|] eqn:Hf.
  1,3: by unfold sundata.write_json_file_sunData, to_dict, load_frame, bind, ret;
         rewrite Hc, Hf.
  rewrite (write_cases _ _ _ _ _ _ _ Hc Hf).
  destruct (_ && _); cbn; (repeat split; [intros other Ho; by rewrite lookup_insert_ne]).
Qed.

(** X11. When the location or a cell of one of the two tables (whose
    column labels are distinct) is a value [json] cannot encode (a timestamp
    or NaT), the writer raises TypeError, and the file, whatever it held
    before, is left holding no JSON document. *)
Theorem unencodable_cell_raises w fileName location current forecast cur fc :
  heap w !! current = Some (OFrame cur) →
  heap w !! forecast = Some (OFrame fc) →
  regular cur = true → regular fc = true →
  json.encodable_scalar location = false
  ∨ (∃ c i v, i < pd.nrows cur ∧ cell cur c i = Some v ∧ json.encodable_scalar v = false)
  ∨ (∃ c i v, i < pd.nrows fc ∧ cell fc c i = Some v ∧ json.encodable_scalar v = false) →
  sundata.write_json_file_sunData fileName location current forecast w
  = (set_disk (<[fileName := OtherText]> (disk w)) w, Raise TypeError)
  ∧ disk (sundata.write_json_file_sunData fileName location current forecast w).1 !! fileName
    = Some OtherText.
Proof.
  intros Hc Hf _ _ Hbad. rewrite (write_cases _ _ _ _ _ _ _ Hc Hf).
  assert (json.encodable_scalar location
          && forallb json.encodable (map record_value (pd.to_dict cur))
          && forallb json.encodable (map record_value (pd.to_dict fc)) = false) as ->.
  { destruct Hbad as [->|[(c & i & v & Hi & Hv & He)|(c & i & v & Hi & Hv & He)]].
    - done.
    - rewrite (rows_not_encodable cur c i v) by done. by rewrite andb_false_r.
    - rewrite (rows_not_encodable fc c i v) by done. by rewrite andb_false_r. }
  split; [done|]. cbn. by rewrite lookup_insert_eq.
Qed.

(** X12. What [extract_Sun_dataframes_from_dict] returns cannot be
    written: whenever the extractor returns, on any document,
    [write_json_file_sunData] on the returned location and tables raises
    TypeError (the ['cet'] column of the current table holds timestamps)
    and leaves the file holding no JSON document. *)
Theorem extracted_tables_never_written w d w' l c f fileName :
  sundata.extract_Sun_dataframes_from_dict d w = (w', Return (l, c, f)) →
  sundata.write_json_file_sunData fileName l c f w'
  = (set_disk (<[fileName := OtherText]> (disk w')) w', Raise TypeError).
Proof.
  intros Hx.
  destruct (extract_Return_members _ _ _ _ Hx) as (doc & ps & cs & fs & Hd & Hm).
  destruct (extract_Return_tables _ _ _ _ _ _ _ _ _ _ Hd Hm Hx)
    as (Hcs & _ & Hc & Hf & Hlc & _).
  destruct (extract_Return_inv _ _ _ _ _ _ _ _ _ _ Hd Hm Hx) as (_ & Hokc & _).
  rewrite (write_cases _ _ _ _ _ _ _ Hc Hf).
  destruct cs as [|r cs]; [done|].
  assert (Hcet : "cet" ∈ current_targets) by (unfold current_targets; in_list).
  pose proof (current_cells_kind (r :: cs) r "cet" Hokc (list_elem_of_here _ _) Hcet) as Hk.
  rewrite bool_decide_eq_false_2 in Hk by (apply (bool_decide_unpack _); by vm_compute).
  rewrite (rows_not_encodable (frame_of current_cells (r :: cs)) "cet" 0 (current_cells "cet" r)).
  - by rewrite andb_false_r.
  - cbn. lia.
  - rewrite cell_frame_of; [done|]. apply (Hlc (ToDatetime "cet")). in_list.
  - by destruct (current_cells "cet" r).
Qed.

(** X15. For a location string and two tables with distinct column
    labels whose cells are values of the JSON grammar (null, booleans,
    finite numbers, strings), the writer returns and leaves in the file one
    JSON document: ['plaatsnaam'] is a list of one dict that has the location
    under ['plaats'], ['current'] is the list of the rows of the current
    table and ['forecast'] that of the forecast table, each row a dict from
    the column labels, in column order, to the cells of the row. *)
Theorem writer_writes_document w fileName name current forecast cur fc :
  heap w !! current = Some (OFrame cur) →
  heap w !! forecast = Some (OFrame fc) →
  regular cur = true → regular fc = true →
  json_frame cur = true → json_frame fc = true →
  sundata.write_json_file_sunData fileName (SStr name) current forecast w
  = (set_disk (<[fileName := JsonText (Dict
        [("plaatsnaam", List [Dict [("plaats", Atom (SStr name))]]);
         ("current", List (map record_value (pd.to_dict cur)));
         ("forecast", List (map record_value (pd.to_dict fc)))])]> (disk w)) w,
     Return tt)
  ∧ length (pd.to_dict cur) = pd.nrows cur
  ∧ length (pd.to_dict fc) = pd.nrows fc
  ∧ ∀ df i row, (df = cur ∨ df = fc) → pd.to_dict df !! i = Some row →
      map fst row = pd.columns df
      ∧ ∀ c v, cell df c i = Some v → dict_get c row = Some v.
Proof.
  intros Hc Hf _ _ Hjc Hjf. split; [|split; [|split]].
  - rewrite (write_cases _ _ _ _ _ _ _ Hc Hf).
    by rewrite !encodable_rows by (by apply json_frame_encodable).
  - apply to_dict_length.
  - apply to_dict_length.
  - intros df i row _. apply to_dict_row.
Qed.

End writer.

(** ** Rows written and read back *)

Lemma record_of_record_value r : pd.record_of (record_value r) = Some r.
Proof.
  unfold record_value, pd.record_of.
  induction r as [|[k v] r IH]; [done|]. cbn. cbn in IH. by rewrite IH.
Qed.

Lemma records_of_record_values recs :
  pd.records_of (List (map record_value recs)) = Some recs.
Proof.
  unfold pd.records_of.
  induction recs as [|r recs IH]; [done|]. cbn [map mapM].
  rewrite record_of_record_value. cbn. by rewrite IH.
Qed.

Lemma members_written l cur fc :
  members (written l cur fc) = Some ([[("plaats", l)]], pd.to_dict cur, pd.to_dict fc).
Proof.
  unfold members, written. cbn [dict_get String.eqb Ascii.eqb Bool.eqb].
  change (List [Dict [("plaats", Atom l)]]) with (List (map record_value [[("plaats", l)]])).
  cbn [mbind option_bind]. rewrite !records_of_record_values. by cbn [mbind option_bind].
Qed.

Lemma filter_all {A} (P : A → Prop) `{∀ x, Decision (P x)} (l : list A) :
  (∀ x, x ∈ l → P x) → filter P l = l.
Proof.
  induction l as [|x l IH]; intros Hl; [done|].
  rewrite filter_cons_True by (apply Hl; apply list_elem_of_here).
  rewrite IH; [done|]. intros y Hy. apply Hl. by apply list_elem_of_further.
Qed.

Lemma filter_none {A} (P : A → Prop) `{∀ x, Decision (P x)} (l : list A) :
  (∀ x, x ∈ l → ¬ P x) → filter P l = [].
Proof.
  induction l as [|x l IH]; intros Hl; [done|].
  rewrite filter_cons_False by (apply Hl; apply list_elem_of_here).
  apply IH. intros y Hy. apply Hl. by apply list_elem_of_further.
Qed.

Lemma first_occurrences_NoDup l : NoDup l → first_occurrences l = l.
Proof.
  induction 1 as [|k l Hk Hl IH]; [done|]. cbn [first_occurrences]. rewrite IH.
  rewrite filter_all; [done|]. by intros x Hx ->.
Qed.

Lemma first_seen_same cols : pd.first_seen cols cols = cols.
Proof.
  rewrite first_seen_spec, filter_none; [by rewrite app_nil_r|]. by intros x Hx Hno.
Qed.

(** Records that all have the same keys, in the same order. *)
Lemma column_labels_same rows cols :
  NoDup cols → rows ≠ [] → (∀ r, r ∈ rows → map fst r = cols) →
  pd.column_labels rows = cols.
Proof.
  intros Hnd Hne Hrows. destruct rows as [|r rows]; [done|].
  unfold pd.column_labels. cbn [fold_left].
  rewrite (Hrows r) by apply list_elem_of_here.
  rewrite first_seen_spec. cbn [app]. rewrite filter_all by (intros x _; apply not_elem_of_nil).
  rewrite first_occurrences_NoDup by done.
  assert (Hrest : ∀ x, x ∈ rows → map fst x = cols).
  { intros x Hx. apply Hrows. by apply list_elem_of_further. }
  clear Hrows Hne. induction rows as [|x rows IH]; [done|]. cbn [fold_left].
  rewrite (Hrest x) by apply list_elem_of_here. rewrite first_seen_same.
  apply IH. intros y Hy. apply Hrest. by apply list_elem_of_further.
Qed.

Lemma regular_spec df :
  regular df = true →
  NoDup (pd.columns df) ∧ ∀ k s, (k, s) ∈ pd.data df → length s = pd.nrows df.
Proof.
  unfold regular. rewrite andb_true_iff, forallb_forall. intros [Hnd Hlen]. split.
  - by apply bool_decide_eq_true in Hnd.
  - intros k s Hks. apply list_elem_of_In in Hks. apply Hlen in Hks. cbn in Hks.
    by apply Nat.eqb_eq in Hks.
Qed.

Lemma dict_get_NoDup {V} (d : list (string * V)) k v :
  NoDup (map fst d) → (k, v) ∈ d → dict_get k d = Some v.
Proof.
  induction d as [|[k' v'] d IH]; intros Hnd Hin; [by apply not_elem_of_nil in Hin|].
  cbn [map fst] in Hnd. apply NoDup_cons in Hnd as [Hk' Hnd].
  apply elem_of_cons in Hin as [[= -> ->]|Hin]; cbn.
  - by rewrite String.eqb_refl.
  - destruct (String.eqb k' k) eqn:E; [|by apply IH].
    apply String.eqb_eq in E as ->. destruct Hk'.
    apply list_elem_of_fmap. by exists (k, v).
Qed.

(** The table of the rows of a table is the table, unless it has no rows. *)
Lemma from_records_to_dict df :
  regular df = true → 0 < pd.nrows df → pd.from_records (pd.to_dict df) = df.
Proof.
  intros [Hnd Hlen]%regular_spec Hn.
  assert (Hlabels : pd.column_labels (pd.to_dict df) = pd.columns df).
  { apply column_labels_same; [done| |].
    - intros Hnil. apply (f_equal length) in Hnil. rewrite to_dict_length in Hnil.
      cbn in Hnil. lia.
    - intros r Hr. apply list_elem_of_lookup in Hr as [i Hi].
      by apply to_dict_row in Hi as [? _]. }
  unfold pd.from_records. rewrite to_dict_length, Hlabels.
  destruct df as [n data]. cbn [pd.nrows pd.data pd.columns] in *. f_equal.
  unfold pd.columns in *. cbn [pd.data] in *.
  rewrite map_map. rewrite <- (map_id data) at 2. apply map_ext_in.
  intros [k s] Hks. cbn [fst]. f_equal. apply list_elem_of_In in Hks.
  unfold pd.to_dict. cbn [pd.nrows pd.data]. rewrite map_map.
  apply list_eq. intros i. rewrite list_lookup_fmap.
  destruct (decide (i < n)) as [Hi|Hi].
  - rewrite lookup_seq_lt by done. cbn. unfold pd.cell_of.
    rewrite (dict_get_map_snd (fun s : list scalar => default NaN (s !! i))).
    rewrite (dict_get_NoDup data k s) by done. cbn.
    destruct (s !! i) as [v|] eqn:Ev; [done|].
    apply lookup_ge_None in Ev. rewrite (Hlen k s) in Ev by done. lia.
  - rewrite lookup_seq_ge by lia. cbn. symmetry. apply lookup_ge_None.
    rewrite (Hlen k s) by done. lia.
Qed.

Lemma location_of_single l : location_of [[("plaats", l)]] = Return l.
Proof. reflexivity. Qed.



Section round_trip.
Context `{pd.NumericParser}.

(** Writing two tables and reading the file back: the extractor runs on
    the rows of the tables. *)
Lemma write_then_read w fileName location current forecast cur fc loc :
  heap w !! current = Some (OFrame cur) →
  heap w !! forecast = Some (OFrame fc) →
  json.encodable_scalar location = true →
  encodable_frame cur = true → encodable_frame fc = true →
  ∃ w2,
    (sundata.write_json_file_sunData fileName location current forecast ;;
     sundata.read_json_file_sunData fileName loc) w
    = (w2,
       obind (sun_outcome [[("plaats", location)]] (pd.to_dict cur) (pd.to_dict fc)
                (S (length (heap w))))
         (fun r => let '(l, c, f) := r in
                   Return (if default false loc then [Frame c; Frame f; Scalar l]
                           else [Frame c; Frame f])))
    ∧ ∀ cur' fc',
        run_steps current_steps (pd.from_records (pd.to_dict cur)) = Return cur' →
        run_steps forecast_steps (pd.from_records (pd.to_dict fc)) = Return fc' →
        heap w2 = heap w ++ [ODoc (written location cur fc);
                             OFrame (pd.from_records [[("plaats", location)]]);
                             OFrame cur'; OFrame fc'].
Proof.
  intros Hc Hf Hl Hec Hef.
  unfold bind at 1. rewrite (write_cases _ _ _ _ _ _ _ Hc Hf).
  rewrite Hl, !encodable_rows by done. cbn [andb].
  set (w1 := set_disk _ w).
  rewrite read_file_cases.
  assert (Hfile : disk w1 !! fileName = Some (JsonText (written location cur fc))).
  { cbn. by rewrite lookup_insert_eq. }
  rewrite Hfile.
  set (w1' := set_heap _ w1).
  assert (Hd : heap w1' !! length (heap w1) = Some (ODoc (written location cur fc))).
  { cbn. by apply list_lookup_middle. }
  destruct (extract_outcome w1' _ _ _ _ _ Hd (members_written location cur fc))
    as (w2 & Hx & Hw2).
  assert (Hlen : length (heap w1') = S (length (heap w))).
  { cbn. rewrite length_app. cbn. lia. }
  rewrite Hlen in Hx. unfold bind at 1. rewrite Hx.
  destruct (sun_outcome _ _ _ _) as [[[l c] f]|e|] eqn:Eo.
  - exists w2. split; [cbn [obind]; by destruct (default false loc)|].
    intros cur' fc' Hcur Hfc. rewrite (Hw2 location cur' fc'); [|done..].
    cbn. by rewrite <- app_assoc.
  - exists w2. split; [done|]. intros cur' fc' Hcur Hfc.
    unfold sun_outcome in Eo. rewrite location_of_single, Hcur, Hfc in Eo. done.
  - exists w2. split; [done|]. intros cur' fc' Hcur Hfc.
    unfold sun_outcome in Eo. rewrite location_of_single, Hcur, Hfc in Eo. done.
Qed.

(** X13. Writing a location string and two tables that have rows,
    distinct column labels and only cells that [json] can encode, and reading
    the file back with [loc=True]: whenever the reader returns, it returns
    the same location and two new tables that have the rows and the column
    labels, in their order, of the written ones; the written tables stay as
    they were. *)
Theorem written_file_reads_back w fileName name current forecast cur fc w2 t :
  heap w !! current = Some (OFrame cur) →
  heap w !! forecast = Some (OFrame fc) →
  encodable_frame cur = true → encodable_frame fc = true →
  regular cur = true → regular fc = true →
  0 < pd.nrows cur → 0 < pd.nrows fc →
  (sundata.write_json_file_sunData fileName (SStr name) current forecast ;;
   sundata.read_json_file_sunData fileName (Some true)) w
  = (w2, Return t) →
  ∃ c' f' rc rf,
    t = [Frame c'; Frame f'; Scalar (SStr name)]
    ∧ heap w2 !! c' = Some (OFrame rc) ∧ heap w2 !! f' = Some (OFrame rf)
    ∧ pd.nrows rc = pd.nrows cur ∧ pd.columns rc = pd.columns cur
    ∧ pd.nrows rf = pd.nrows fc ∧ pd.columns rf = pd.columns fc
    ∧ heap w2 !! current = Some (OFrame cur)
    ∧ heap w2 !! forecast = Some (OFrame fc).
Proof.
  intros Hc Hf Hec Hef Hrc Hrf Hnc Hnf Hback.
  destruct (write_then_read w fileName (SStr name) current forecast cur fc (Some true)
              Hc Hf eq_refl Hec Hef) as (w2' & Hrun & Hheap).
  rewrite Hrun in Hback. injection Hback as -> Ht.
  unfold sun_outcome in Ht. rewrite location_of_single in Ht. cbn [obind] in Ht.
  destruct (run_steps current_steps _) as [rc|e|] eqn:Ec; [|done..]. cbn [obind] in Ht.
  destruct (run_steps forecast_steps _) as [rf|e|] eqn:Ef; [|done..]. cbn [obind] in Ht.
  injection Ht as <-.
  specialize (Hheap rc rf eq_refl eq_refl).
  pose proof (from_records_to_dict cur Hrc Hnc) as Hcur.
  pose proof (from_records_to_dict fc Hrf Hnf) as Hfc.
  rewrite from_records_frame_of in Ec, Ef.
  apply run_steps_Return_inv in Ec as [_ ->]. apply run_steps_Return_inv in Ef as [_ ->].
  exists (S (S (length (heap w)))), (S (S (S (length (heap w))))). eexists _, _.
  split; [done|]. rewrite Hheap.
  split. { rewrite lookup_app_r by lia. by replace (S (S _) - _) with 2 by lia. }
  split. { rewrite lookup_app_r by lia. by replace (S (S (S _)) - _) with 3 by lia. }
  rewrite !columns_frame_of. cbn [pd.nrows frame_of]. rewrite !to_dict_length.
  split; [done|]. split.
  { rewrite <- Hcur at 2. by rewrite from_records_frame_of, columns_frame_of. }
  split; [done|]. split.
  { rewrite <- Hfc at 2. by rewrite from_records_frame_of, columns_frame_of. }
  split; (rewrite lookup_app_l; [done|]; by eapply lookup_lt_Some).
Qed.

(** X14. A table without rows does not survive the file: after writing
    two encodable tables one of which has no rows, reading the file back
    never returns, and it raises AttributeError when it is the current table
    that has no rows (the rows carry the column labels, so the table read
    back has no column ['cet']). *)
Theorem empty_table_is_not_read_back w fileName location current forecast cur fc loc :
  heap w !! current = Some (OFrame cur) →
  heap w !! forecast = Some (OFrame fc) →
  json.encodable_scalar location = true →
  encodable_frame cur = true → encodable_frame fc = true →
  pd.nrows cur = 0 ∨ pd.nrows fc = 0 →
  (∀ r, ((sundata.write_json_file_sunData fileName location current forecast ;;
          sundata.read_json_file_sunData fileName loc) w).2 ≠ Return r)
  ∧ (pd.nrows cur = 0 →
     ((sundata.write_json_file_sunData fileName location current forecast ;;
       sundata.read_json_file_sunData fileName loc) w).2 = Raise AttributeError).
Proof.
  intros Hc Hf Hl Hec Hef Hempty.
  destruct (write_then_read w fileName location current forecast cur fc loc
              Hc Hf Hl Hec Hef) as (w2 & Hrun & _).
  rewrite Hrun. cbn [snd]. unfold sun_outcome. rewrite location_of_single. cbn [obind].
  split.
  - intros r.
    destruct Hempty as [Hn|Hn]; rewrite (empty_rows _ Hn).
    + done.
    + destruct (run_steps current_steps _); [|done..]. done.
  - intros Hn. by rewrite (empty_rows _ Hn).
Qed.

End round_trip.

(** * Examples *)

(** ** The theorems on the examples *)

Lemma example_doc_returns :
  @sundata.extract_Sun_dataframes_from_dict integer_text 0 (world_of example_doc)
  = ((@sundata.extract_Sun_dataframes_from_dict integer_text 0 (world_of example_doc)).1,
     Return (SStr "De Bilt", 2, 3)).
Proof. vm_compute. reflexivity. Defined.

(** C1 on the example: sunrise 08:30 and sunset 16:30 of the row of
    01-01-2021 10:00. *)
Lemma sunrise_sunset_spliced_witness :
  ∃ w' cur,
    @sundata.extract_Sun_dataframes_from_dict integer_text 0 (world_of example_doc)
    = (w', Return (SStr "De Bilt", 2, 3))
    ∧ heap w' !! 2 = Some (OFrame cur)
    ∧ cell cur "cet" 0 = Some (STimestamp (mkTimestamp 2021 1 1 10 0))
    ∧ cell cur "sr" 0 = Some (STimestamp (mkTimestamp 2021 1 1 8 30))
    ∧ cell cur "ss" 0 = Some (STimestamp (mkTimestamp 2021 1 1 16 30)).
Proof.
  destruct (@sunrise_sunset_spliced integer_text (world_of example_doc) 0 example_doc
              [example_place] [example_current] [example_forecast]
              eq_refl eq_refl eq_refl) as [_ Hrows].
  destruct (Hrows _ _ _ _ example_doc_returns) as (cur & Hcur & Hrow).
  destruct (Hrow 0 example_current eq_refl)
    as (cet & sr & ss & t_cet & t_sr & t_ss
        & Hcet & Hsr & Hss & Ht & Htsr & Htss & Ccet & Csr & Css & _).
  vm_compute in Hcet, Hsr, Hss.
  injection Hcet as <-. injection Hsr as <-. injection Hss as <-.
  vm_compute in Ht, Htsr, Htss.
  injection Ht as <-. injection Htsr as <-. injection Htss as <-.
  eexists. exists cur. split; [exact example_doc_returns|]. split; [exact Hcur|].
  split; [exact Ccet|]. split; [exact Csr|exact Css].
Defined.

(** C5 on the example. *)
Lemma columns_typed_witness :
  ∃ w' cur fc,
    @sundata.extract_Sun_dataframes_from_dict integer_text 0 (world_of example_doc)
    = (w', Return (SStr "De Bilt", 2, 3))
    ∧ heap w' !! 2 = Some (OFrame cur) ∧ heap w' !! 3 = Some (OFrame fc)
    ∧ (∃ v, cell cur "temp" 0 = Some v ∧ is_numeric v = true ∧ pd.is_str v = false)
    ∧ (∃ t, cell cur "cet" 0 = Some (STimestamp t))
    ∧ (∃ v, cell fc "lc" 0 = Some v ∧ is_numeric v = true ∧ pd.is_str v = false)
    ∧ (∃ t, cell fc "cet" 0 = Some (STimestamp t)).
Proof.
  destruct (@columns_typed integer_text (world_of example_doc) 0 example_doc
              [example_place] [example_current] [example_forecast]
              eq_refl eq_refl eq_refl) as [_ Hcols].
  destruct (Hcols _ _ _ _ example_doc_returns) as (cur & fc & Hcur & Hfc & Hcn & Hct & Hfn & Hft).
  assert (Hnc : pd.nrows cur = 1).
  { vm_compute in Hcur.
    by injection Hcur as <-. }
  assert (Hnf : pd.nrows fc = 1).
  { vm_compute in Hfc. by injection Hfc as <-. }
  eexists. exists cur, fc. split; [exact example_doc_returns|]. split; [exact Hcur|].
  split; [exact Hfc|].
  split; [apply Hcn; [lia|in_list]|]. split; [apply Hct; lia|].
  split; [apply Hfn; [lia|in_list]|apply Hft; lia].
Defined.

(** C2, as amended, on the example. *)
Lemma extract_shape_witness :
  ∃ w' p name current forecast cur fc,
    head [example_place] = Some p ∧ dict_get "plaats" p = Some (SStr name)
    ∧ @sundata.extract_Sun_dataframes_from_dict integer_text 0 (world_of example_doc)
      = (w', Return (SStr name, current, forecast))
    ∧ heap w' !! current = Some (OFrame cur)
    ∧ heap w' !! forecast = Some (OFrame fc)
    ∧ pd.nrows cur = length [example_current] ∧ pd.nrows fc = length [example_forecast]
    ∧ pd.columns cur = first_occurrences (concat (map (map fst) [example_current]))
    ∧ pd.columns fc = first_occurrences (concat (map (map fst) [example_forecast])).
Proof.
  apply (@extract_shape integer_text (world_of example_doc) 0 example_doc);
    [reflexivity | reflexivity | vm_compute; reflexivity | discriminate | discriminate].
Defined.

(** C2 as stated fails on the example of the specification: the document is
    well formed, its forecast list is empty, and the extractor raises
    AttributeError (the empty table has no column [time]). *)
Lemma empty_forecast_raises :
  @well_formed integer_text spec_example_doc = true
  ∧ members spec_example_doc = Some ([example_place], [example_current], [])
  ∧ (@sundata.extract_Sun_dataframes_from_dict integer_text 0 (world_of spec_example_doc)).2
    = Raise AttributeError.
Proof. split; [|split]; vm_compute; reflexivity. Qed.



(** The readers on the examples. *)
Example read_url_example :
  (@sundata.read_json_url_sunData integer_text "secret" "De Bilt" None example_net).2
  = Return [Frame 2; Frame 3]
  ∧ (@sundata.read_json_url_sunData integer_text "secret" "De Bilt" (Some true) example_net).2
    = Return [Frame 2; Frame 3; Scalar (SStr "De Bilt")]
  ∧ sent (@sundata.read_json_url_sunData integer_text "secret" "De Bilt" None example_net).1
    = [example_url].
Proof. by vm_compute. Qed.

Example read_file_example :
  (@sundata.read_json_file_sunData integer_text "sun.json" None example_net).2
  = Return [Frame 2; Frame 3]
  ∧ (@sundata.read_json_file_sunData integer_text "none.json" None example_net).2
    = Raise FileNotFoundError.
Proof. by vm_compute. Qed.

Example read_hourly_example :
  (uurverwachting.read_json_url_uurverwachting "secret" "De Bilt" example_net).2 = Return 1
  ∧ (uurverwachting.read_json_url_uurverwachting "secret" "Nowhere" example_net).2
    = Raise ConnectionError.
Proof. by vm_compute. Qed.



(** ** The further theorems on the examples *)

Lemma gap_doc_returns :
  @sundata.extract_Sun_dataframes_from_dict integer_text 0 (world_of gap_doc)
  = ((@sundata.extract_Sun_dataframes_from_dict integer_text 0 (world_of gap_doc)).1,
     Return (SStr "De Bilt", 2, 3)).
Proof. vm_compute. reflexivity. Defined.

Lemma extra_doc_returns :
  @sundata.extract_Sun_dataframes_from_dict integer_text 0 (world_of extra_doc)
  = ((@sundata.extract_Sun_dataframes_from_dict integer_text 0 (world_of extra_doc)).1,
     Return (SStr "De Bilt", 2, 3)).
Proof. vm_compute. reflexivity. Defined.

(** X1 on examples: a dict without ['plaatsnaam'], and a list. *)
Lemma sun_extractor_needs_its_keys_witness :
  @sundata.extract_Sun_dataframes_from_dict integer_text 0 (world_of (Dict []))
  = (world_of (Dict []), Raise KeyError)
  ∧ @sundata.extract_Sun_dataframes_from_dict integer_text 0 (world_of (List []))
    = (world_of (List []), Raise TypeError).
Proof.
  split.
  - exact (proj1 (proj2 (@sun_extractor_needs_its_keys integer_text
                           (world_of (Dict [])) 0 (Dict []) eq_refl)) [] eq_refl eq_refl).
  - apply (proj1 (@sun_extractor_needs_its_keys integer_text
                    (world_of (List [])) 0 (List []) eq_refl)).
    intros dd. discriminate.
Defined.

(** The example without its forecast: the current table is built, then
    ['forecast'] is missing. *)
Example short_doc_raises :
  (@sundata.extract_Sun_dataframes_from_dict integer_text 0 (world_of short_doc)).2
  = Raise KeyError.
Proof. by vm_compute. Qed.

(** X2 on examples: a dict without ['data'], and an empty ['data']. *)
Lemma hourly_extractor_edges_witness :
  uurverwachting.extract_hourly_forecast_dataframes_from_dict 0 (world_of (Dict []))
  = (world_of (Dict []), Raise KeyError)
  ∧ uurverwachting.extract_hourly_forecast_dataframes_from_dict 0
      (world_of (Dict [("data", List [])]))
    = (set_heap [ODoc (Dict [("data", List [])]); OFrame {| pd.nrows := 0; pd.data := [] |}]
         (world_of (Dict [("data", List [])])),
       Return 1).
Proof.
  split.
  - exact (proj1 (proj2 (hourly_extractor_edges (world_of (Dict [])) 0 (Dict []) eq_refl))
             [] eq_refl eq_refl).
  - exact (proj2 (proj2 (hourly_extractor_edges (world_of (Dict [("data", List [])])) 0
                           (Dict [("data", List [])]) eq_refl))
             [("data", List [])] eq_refl eq_refl).
Defined.

(** X3 on the example with two forecast records. *)
Lemma returned_tables_shape_witness :
  ∃ cur fc,
    heap (@sundata.extract_Sun_dataframes_from_dict integer_text 0 (world_of gap_doc)).1 !! 2
    = Some (OFrame cur)
    ∧ heap (@sundata.extract_Sun_dataframes_from_dict integer_text 0 (world_of gap_doc)).1 !! 3
      = Some (OFrame fc)
    ∧ pd.nrows cur = 1 ∧ pd.nrows fc = 2
    ∧ pd.columns fc
      = first_occurrences (concat (map (map fst) [example_forecast; example_forecast_gap])).
Proof.
  destruct (@returned_tables_shape integer_text (world_of gap_doc) 0 gap_doc
              [example_place] [example_current] [example_forecast; example_forecast_gap]
              (@sundata.extract_Sun_dataframes_from_dict integer_text 0 (world_of gap_doc)).1
              (SStr "De Bilt") 2 3 eq_refl eq_refl gap_doc_returns)
    as (p & cur & fc & _ & _ & _ & _ & _ & _ & Hc & Hf & _ & _ & Hnc & Hnf & _ & Hcf).
  exists cur, fc. split; [exact Hc|]. split; [exact Hf|]. split; [exact Hnc|].
  split; [exact Hnf|exact Hcf].
Defined.

(** X4 on an example: the field [station] stays the string it was. *)
Lemma other_columns_kept_witness :
  ∃ cur,
    heap (@sundata.extract_Sun_dataframes_from_dict integer_text 0 (world_of extra_doc)).1 !! 2
    = Some (OFrame cur)
    ∧ cell cur "station" 0 = Some (SStr "260").
Proof.
  destruct (@other_columns_kept integer_text (world_of extra_doc) 0 extra_doc
              [example_place] [("station", SStr "260") :: example_current] [example_forecast]
              (@sundata.extract_Sun_dataframes_from_dict integer_text 0 (world_of extra_doc)).1
              (SStr "De Bilt") 2 3 eq_refl eq_refl extra_doc_returns)
    as (cur & fc & Hcur & _ & Hkept & _).
  exists cur. split; [exact Hcur|].
  apply (Hkept 0 (("station", SStr "260") :: example_current) "station" "260" eq_refl);
    [|reflexivity].
  apply (bool_decide_unpack _). by vm_compute.
Defined.

(** X5 on the example with a record that lacks [temp]: NaN is a number. *)
Lemma converted_columns_hold_no_strings_witness :
  ∃ fc,
    heap (@sundata.extract_Sun_dataframes_from_dict integer_text 0 (world_of gap_doc)).1 !! 3
    = Some (OFrame fc)
    ∧ (∃ v, cell fc "temp" 1 = Some v ∧ is_numeric v = true ∧ pd.is_str v = false)
    ∧ (∃ v, cell fc "cet" 1 = Some v ∧ time_cell v = true ∧ pd.is_str v = false).
Proof.
  destruct (@converted_columns_hold_no_strings integer_text (world_of gap_doc) 0 gap_doc
              [example_place] [example_current] [example_forecast; example_forecast_gap]
              (@sundata.extract_Sun_dataframes_from_dict integer_text 0 (world_of gap_doc)).1
              (SStr "De Bilt") 2 3 eq_refl eq_refl gap_doc_returns)
    as (cur & fc & _ & Hfc & _ & _ & Hnum & Htime).
  exists fc. split; [exact Hfc|]. split.
  - apply Hnum; [in_list|cbn; lia].
  - apply Htime. cbn. lia.
Defined.



Lemma example_doc_extracted :
  @sundata.extract_Sun_dataframes_from_dict integer_text 0 (world_of example_doc)
  = ((@sundata.extract_Sun_dataframes_from_dict integer_text 0 (world_of example_doc)).1,
     Return (SStr "De Bilt", 2, 3)).
Proof. vm_compute. reflexivity. Defined.

(** X8 on the example: the file holds what the server answers. *)
Lemma saved_sun_response_reads_as_fetched_witness :
  (@sundata.read_json_file_sunData integer_text "sun.json" (Some true) saved_world).2
  = (@sundata.read_json_url_sunData integer_text "secret" "De Bilt" (Some true) saved_world).2
  ∧ sent (@sundata.read_json_file_sunData integer_text "sun.json" (Some true) saved_world).1
    = sent saved_world.
Proof.
  destruct (@saved_sun_response_reads_as_fetched integer_text "secret" "De Bilt" "sun.json"
              (Some true) saved_world (JsonText example_doc))
    as (Ho & _ & _ & _ & Hs & _).
  - vm_compute. reflexivity.
  - vm_compute. reflexivity.
  - split; [exact Ho|exact Hs].
Defined.

(** X9 on the example. *)
Lemma saved_hourly_response_reads_as_fetched_witness :
  (uurverwachting.read_json_file_uurverwachting "hourly.json" saved_world).2
  = (uurverwachting.read_json_url_uurverwachting "secret" "De Bilt" saved_world).2
  ∧ sent (uurverwachting.read_json_file_uurverwachting "hourly.json" saved_world).1
    = sent saved_world.
Proof.
  destruct (saved_hourly_response_reads_as_fetched "secret" "De Bilt" "hourly.json"
              saved_world (JsonText hourly_doc))
    as (Ho & _ & _ & _ & Hs & _).
  - vm_compute. reflexivity.
  - vm_compute. reflexivity.
  - split; [exact Ho|exact Hs].
Defined.

(** X11 on an example: a table with a timestamp. *)
Lemma unencodable_cell_raises_witness :
  @sundata.write_json_file_sunData "out.json" (SStr "De Bilt") 0 1 stamped_world
  = (set_disk (<["out.json" := OtherText]> (disk stamped_world)) stamped_world,
     Raise TypeError)
  ∧ disk (sundata.write_json_file_sunData "out.json" (SStr "De Bilt") 0 1 stamped_world).1
      !! "out.json"
    = Some OtherText.
Proof.
  apply (@unencodable_cell_raises integer_text stamped_world "out.json" (SStr "De Bilt") 0 1
           {| pd.nrows := 1;
              pd.data := [("cet", [STimestamp (mkTimestamp 2021 1 1 10 0)])] |}
           {| pd.nrows := 0; pd.data := [] |} eq_refl eq_refl).
  { vm_compute. reflexivity. }
  { vm_compute. reflexivity. }
  right. left. exists "cet", 0, (STimestamp (mkTimestamp 2021 1 1 10 0)).
  split; [cbn; lia|]. split; reflexivity.
Defined.

(** X12 on the example. *)
Lemma extracted_tables_never_written_witness :
  sundata.write_json_file_sunData "out.json" (SStr "De Bilt") 2 3
    (@sundata.extract_Sun_dataframes_from_dict integer_text 0 (world_of example_doc)).1
  = (set_disk (<["out.json" := OtherText]>
                 (disk (@sundata.extract_Sun_dataframes_from_dict integer_text 0
                          (world_of example_doc)).1))
       (@sundata.extract_Sun_dataframes_from_dict integer_text 0 (world_of example_doc)).1,
     Raise TypeError).
Proof.
  exact (@extracted_tables_never_written integer_text (world_of example_doc) 0
           (@sundata.extract_Sun_dataframes_from_dict integer_text 0 (world_of example_doc)).1
           (SStr "De Bilt") 2 3 "out.json" example_doc_extracted).
Defined.



Lemma raw_world_read_back :
  (sundata.write_json_file_sunData "out.json" (SStr "De Bilt") 0 1 ;;
   @sundata.read_json_file_sunData integer_text "out.json" (Some true)) raw_world
  = (((sundata.write_json_file_sunData "out.json" (SStr "De Bilt") 0 1 ;;
       @sundata.read_json_file_sunData integer_text "out.json" (Some true)) raw_world).1,
     Return [Frame 4; Frame 5; Scalar (SStr "De Bilt")]).
Proof. vm_compute. reflexivity. Defined.

(** X13 on an example: the tables of the example as they are decoded,
    written and read back. *)
Lemma written_file_reads_back_witness :
  ∃ c' f' rc rf,
    [Frame 4; Frame 5; Scalar (SStr "De Bilt")] = [Frame c'; Frame f'; Scalar (SStr "De Bilt")]
    ∧ heap ((sundata.write_json_file_sunData "out.json" (SStr "De Bilt") 0 1 ;;
             @sundata.read_json_file_sunData integer_text "out.json" (Some true))
              raw_world).1 !! c'
      = Some (OFrame rc)
    ∧ heap ((sundata.write_json_file_sunData "out.json" (SStr "De Bilt") 0 1 ;;
             @sundata.read_json_file_sunData integer_text "out.json" (Some true))
              raw_world).1 !! f'
      = Some (OFrame rf)
    ∧ pd.nrows rc = 1
    ∧ pd.columns rc = pd.columns (pd.from_records [example_current])
    ∧ pd.nrows rf = 1
    ∧ pd.columns rf = pd.columns (pd.from_records [example_forecast]).
Proof.
  destruct (@written_file_reads_back integer_text raw_world "out.json" "De Bilt" 0 1
              (pd.from_records [example_current]) (pd.from_records [example_forecast])
              ((sundata.write_json_file_sunData "out.json" (SStr "De Bilt") 0 1 ;;
                @sundata.read_json_file_sunData integer_text "out.json" (Some true))
                 raw_world).1
              [Frame 4; Frame 5; Scalar (SStr "De Bilt")])
    as (c' & f' & rc & rf & Ht & Hc & Hf & Hnc & Hcc & Hnf & Hcf & _).
  - reflexivity.
  - reflexivity.
  - vm_compute. reflexivity.
  - vm_compute. reflexivity.
  - vm_compute. reflexivity.
  - vm_compute. reflexivity.
  - vm_compute. lia.
  - vm_compute. lia.
  - exact raw_world_read_back.
  - exists c', f', rc, rf. split; [exact Ht|]. split; [exact Hc|]. split; [exact Hf|].
    split; [exact Hnc|]. split; [exact Hcc|]. split; [exact Hnf|exact Hcf].
Defined.

(** X14 on an example: a current table without rows. *)
Lemma empty_table_is_not_read_back_witness :
  ((sundata.write_json_file_sunData "out.json" (SStr "De Bilt") 0 1 ;;
    @sundata.read_json_file_sunData integer_text "out.json" None) empty_world).2
  = Raise AttributeError.
Proof.
  apply (@empty_table_is_not_read_back integer_text empty_world "out.json" (SStr "De Bilt")
           0 1 {| pd.nrows := 0; pd.data := [("cet", []); ("sr", [])] |}
           (pd.from_records [example_forecast]) None).
  - reflexivity.
  - reflexivity.
  - reflexivity.
  - reflexivity.
  - vm_compute. reflexivity.
  - left. reflexivity.
  - reflexivity.
Defined.

(** X15 on an example. *)
Lemma writer_writes_document_witness :
  sundata.write_json_file_sunData "out.json" (SStr "De Bilt") 0 1 raw_world
  = (set_disk (<["out.json" := JsonText (Dict
        [("plaatsnaam", List [Dict [("plaats", Atom (SStr "De Bilt"))]]);
         ("current", List (map record_value
                             (pd.to_dict (pd.from_records [example_current]))));
         ("forecast", List (map record_value
                              (pd.to_dict (pd.from_records [example_forecast]))))])]>
                 (disk raw_world)) raw_world,
     Return tt).
Proof.
  apply (@writer_writes_document integer_text raw_world "out.json" "De Bilt" 0 1
           (pd.from_records [example_current]) (pd.from_records [example_forecast])).
  - reflexivity.
  - reflexivity.
  - vm_compute. reflexivity.
  - vm_compute. reflexivity.
  - vm_compute. reflexivity.
  - vm_compute. reflexivity.
Defined.
